(** * stealth_tester.py: the probe catalogue, the scorer and the report

    A shallow embedding of [src/stealth_tester.py].  The class
    [StealthTester] becomes a record that is threaded through a small
    state-and-exception monad; every call into psutil, pywin32, mss,
    subprocess, os and datetime is answered by an explicit [Platform]
    record of oracles, so that a probe is an ordinary function that can be
    evaluated on a concrete platform.

    Conventions of the embedding
    - a Python [str] is a [string] holding its UTF-8 bytes; [lower],
      [strip] and [repr] act on the ASCII characters and leave the other
      bytes alone (exact for ASCII text and for text whose other characters
      are caseless, printable and not white space);
    - the floats of the CPU probe are binary64 floats, with the additions,
      divisions, comparisons and the formatting of the interpreter; the
      resident-memory figures (a byte count divided by a power of two) and
      the score are exact rationals of [Q], the score being checked against
      its binary64 value for every run of the catalogue;
    - [print] and [time.sleep] change nothing a probe can observe and are
      left out; what [generate_report] prints is kept as a structured
      record. *)

From Stdlib Require Import ZArith QArith List String Ascii Bool Lia.
From Stdlib Require Import DecimalString Floats.
Import ListNotations.

Local Open Scope string_scope.
Local Open Scope Z_scope.

(** ** Python strings and formatting *)

Module Py.

(** [str(n)] for an integer. *)
Definition str_of_Z (z : Z) : string :=
  NilZero.string_of_int (Z.to_int z).

Definition str_of_nat (n : nat) : string := str_of_Z (Z.of_nat n).

Definition is_upper (c : ascii) : bool :=
  let n := nat_of_ascii c in (65 <=? n)%nat && (n <=? 90)%nat.

Definition lower_char (c : ascii) : ascii :=
  if is_upper c then ascii_of_nat (nat_of_ascii c + 32) else c.

(** [s.lower()] *)
Fixpoint lower (s : string) : string :=
  match s with
  | EmptyString => EmptyString
  | String c s' => String (lower_char c) (lower s')
  end.

(** [sub in s] *)
Fixpoint contains (sub s : string) : bool :=
  if prefix sub s then true
  else match s with
       | EmptyString => false
       | String _ s' => contains sub s'
       end.

(** [s.count(sub)]: occurrences that do not overlap, scanned from the
    left; [skip] is the number of characters of the last occurrence still
    to be passed over. *)
Fixpoint count_from (sub s : string) (skip : nat) : nat :=
  match skip with
  | S k =>
      match s with
      | EmptyString => O
      | String _ s' => count_from sub s' k
      end
  | O =>
      if prefix sub s then
        S (match s with
           | EmptyString => O
           | String _ s' => count_from sub s' (String.length sub - 1)
           end)
      else
        match s with
        | EmptyString => O
        | String _ s' => count_from sub s' O
        end
  end.

Definition count (s sub : string) : nat := count_from sub s O.

Definition is_space (c : ascii) : bool :=
  let n := nat_of_ascii c in
  ((9 <=? n)%nat && (n <=? 13)%nat) || ((28 <=? n)%nat && (n <=? 32)%nat).

Fixpoint lstrip (s : string) : string :=
  match s with
  | EmptyString => EmptyString
  | String c s' => if is_space c then lstrip s' else s
  end.

Fixpoint rstrip (s : string) : string :=
  match s with
  | EmptyString => EmptyString
  | String c s' =>
      match rstrip s' with
      | EmptyString => if is_space c then EmptyString else String c EmptyString
      | t => String c t
      end
  end.

(** [s.strip()] *)
Definition strip (s : string) : string := rstrip (lstrip s).

(** [bool(s)] *)
Definition truthy (s : string) : bool :=
  match s with EmptyString => false | _ => true end.

Definition newline : ascii := ascii_of_nat 10.

(** [s.split('\n')] *)
Fixpoint split_nl (s : string) : list string :=
  match s with
  | EmptyString => [EmptyString]
  | String c s' =>
      if Ascii.eqb c newline then EmptyString :: split_nl s'
      else match split_nl s' with
           | h :: t => String c h :: t
           | [] => [String c EmptyString]
           end
  end.

Definition hex_digit (n : nat) : ascii :=
  if (n <? 10)%nat then ascii_of_nat (48 + n) else ascii_of_nat (87 + n).

Definition quote : ascii := ascii_of_nat 39.
Definition dquote : ascii := ascii_of_nat 34.
Definition backslash : ascii := ascii_of_nat 92.

Fixpoint has_char (c : ascii) (s : string) : bool :=
  match s with
  | EmptyString => false
  | String d s' => Ascii.eqb c d || has_char c s'
  end.

(** The escapes of [repr] for a string delimited by [q]. *)
Fixpoint repr_body (q : ascii) (s : string) : string :=
  match s with
  | EmptyString => EmptyString
  | String c s' =>
      let n := nat_of_ascii c in
      let rest := repr_body q s' in
      if Ascii.eqb c backslash then String backslash (String backslash rest)
      else if Ascii.eqb c q then String backslash (String q rest)
      else if (n =? 9)%nat then String backslash (String "t" rest)
      else if (n =? 10)%nat then String backslash (String "n" rest)
      else if (n =? 13)%nat then String backslash (String "r" rest)
      else if (n <? 32)%nat || (n =? 127)%nat then
        String backslash
          (String "x" (String (hex_digit (n / 16)) (String (hex_digit (n mod 16)) rest)))
      else String c rest
  end.

(** [repr(s)]: single quotes, unless the text has a single quote and no
    double quote. *)
Definition repr_str (s : string) : string :=
  let q := if has_char quote s && negb (has_char dquote s) then dquote else quote in
  String q (repr_body q s ++ String q EmptyString).

Fixpoint join (sep : string) (l : list string) : string :=
  match l with
  | [] => EmptyString
  | [x] => x
  | x :: rest => x ++ sep ++ join sep rest
  end.

(** [repr] of a list of strings, as an f-string renders it. *)
Definition repr_list (l : list string) : string :=
  "[" ++ join ", " (map repr_str l) ++ "]".

(** [format(x, '.1f')]: one decimal, ties to even. *)
Definition format_1f (x : Q) : string :=
  let n := Qnum x in
  let d := Zpos (Qden x) in
  let a := Z.abs n * 10 in
  let q := a / d in
  let r := a mod d in
  let t := if d <? 2 * r then q + 1
           else if 2 * r =? d then (if Z.even q then q else q + 1)
           else q in
  (if n <? 0 then "-" else EmptyString) ++ str_of_Z (t / 10) ++ "." ++ str_of_Z (t mod 10).

(** [format(x, '.1f')] for a binary64 float: the exact value of the float
    to one decimal, ties to even, with the sign of the float. *)
Definition format_1f_float (x : float) : string :=
  match Prim2SF x with
  | S754_nan => "nan"
  | S754_infinity s => if s then "-inf" else "inf"
  | S754_zero s => if s then "-0.0" else "0.0"
  | S754_finite s m e =>
      (if s then "-" else EmptyString)
      ++ format_1f (if 0 <=? e then inject_Z (Zpos m * 2 ^ e)
                    else Zpos m # Z.to_pos (2 ^ (- e)))
  end.

(** [l.append(x)] *)
Definition append {A} (l : list A) (x : A) : list A := (l ++ [x])%list.

(** [l[:n]] *)
Definition take {A} (n : nat) (l : list A) : list A := firstn n l.

(** [x in l] for a list of strings. *)
Definition in_list (x : string) (l : list string) : bool :=
  existsb (String.eqb x) l.

End Py.


(** ** Exceptions and the results of platform calls *)

(** The classes of exception the handlers of the program tell apart:
    [except (psutil.NoSuchProcess, psutil.AccessDenied)] catches the first
    two, [except Exception] catches all three. *)
Inductive exn_class : Type :=
| NoSuchProcess
| AccessDenied
| OtherException.

(** An exception with its text, [str(e)]. *)
Record exn : Type := mk_exn {
  exn_kind : exn_class;
  exn_str : string
}.

Inductive outcome (A : Type) : Type :=
| Ok (a : A)
| Raise (e : exn).

Arguments Ok {A} a.
Arguments Raise {A} e.

Definition is_psutil_error (e : exn) : bool :=
  match exn_kind e with
  | NoSuchProcess | AccessDenied => true
  | OtherException => false
  end.

(** [except (psutil.NoSuchProcess, psutil.AccessDenied): continue], where
    [acc] holds the loop variables at the moment of the exception. *)
Definition continue_on_psutil {A} (e : exn) (acc : A) : outcome A :=
  if is_psutil_error e then Ok acc else Raise e.

(** A [for] loop whose body may raise. *)
Fixpoint for_each {A B} (body : B -> A -> outcome B) (acc : B) (l : list A)
  : outcome B :=
  match l with
  | [] => Ok acc
  | x :: rest =>
      match body acc x with
      | Ok acc' => for_each body acc' rest
      | Raise e => Raise e
      end
  end.

(** ** The platform *)

(** A [psutil.Process] handle as [process_iter] yields it: its pid and the
    result of evaluating [proc.info['name']]. *)
Record Process : Type := mk_Process {
  pid : Z;
  info_name : outcome string
}.

(** A connection of [proc.connections()]: [raddr] is the empty tuple or an
    address (ip, port). *)
Record sconn : Type := mk_sconn {
  raddr : option (string * Z)
}.

(** What [subprocess.run(..., capture_output=True, text=True)] returns. *)
Record CompletedProcess : Type := mk_CompletedProcess {
  returncode : Z;
  stdout : string
}.

(** The steps of the screen capture, in program order. *)
Record ScreenCapture : Type := mk_ScreenCapture {
  mss_open : outcome unit;       (* mss.mss() *)
  monitor_1 : outcome unit;      (* sct.monitors[1] *)
  grab : outcome unit;           (* sct.grab(monitor) *)
  to_png : outcome unit;         (* mss.tools.to_png(...) *)
  path_exists : bool;            (* os.path.exists(temp_file) *)
  getsize : outcome Z            (* os.path.getsize(temp_file) *)
}.

Record Platform : Type := mk_Platform {
  now_isoformat : string;                       (* datetime.now().isoformat() *)
  now_strftime : string;          (* datetime.now().strftime('%Y%m%d_%H%M%S') *)
  platform_system : string;                     (* platform.system() *)
  platform_release : string;                    (* platform.release() *)
  (* psutil.process_iter: the handles yielded, then an error if the
     iteration itself fails *)
  process_iter : list Process * option exn;
  subprocess_run : list string -> outcome CompletedProcess;
  (* win32gui.EnumWindows: the handles passed to the callback, then an
     error if the enumeration itself fails *)
  EnumWindows : list Z * option exn;
  IsWindowVisible : Z -> outcome bool;
  GetWindowText : Z -> outcome string;
  GetWindowLong : Z -> Z -> outcome Z;
  proc_name : Process -> outcome string;            (* proc.name() *)
  proc_parent : Process -> outcome (option Process);  (* proc.parent() *)
  proc_connections : Process -> outcome (list sconn);
  proc_memory_info_rss : Process -> outcome Z;      (* proc.memory_info().rss *)
  proc_cpu_percent : nat -> Process -> outcome float; (* proc.cpu_percent(), i-th sample *)
  (* sum() adds floats with Neumaier's compensation: CPython 3.12 and later *)
  compensated_sum : bool;
  OpenProcess : Z -> Z -> outcome Z;                (* access, pid; the handle *)
  CloseHandle : Z -> outcome unit;
  DebugActiveProcess : Z -> outcome unit;
  DebugActiveProcessStop : Z -> outcome unit;
  screen : ScreenCapture
}.

(** The constants of [win32con] the probes use. *)
Module win32con.
Definition GWL_EXSTYLE : Z := -20.
Definition GWL_STYLE : Z := -16.
Definition WS_EX_TOOLWINDOW : Z := 128.
Definition WS_VISIBLE : Z := 268435456.
Definition PROCESS_VM_OPERATION : Z := 8.
Definition PROCESS_VM_WRITE : Z := 32.
Definition PROCESS_ALL_ACCESS : Z := 2035711.
End win32con.

(** ** The data model *)

Record TestResult : Type := mk_TestResult {
  test : string;
  passed : bool;
  details : string;
  severity : string;   (* 'low', 'medium', 'high', 'critical' *)
  timestamp : string
}.

Record StealthTester : Type := mk_StealthTester {
  process_name : string;
  window_title : string;
  results : list TestResult;
  target_processes : list Process;
  target_windows : list (Z * string)
}.

(** [StealthTester.__init__] *)
Definition init (process_name window_title : string) : StealthTester :=
  {| process_name := Py.lower process_name;
     window_title := Py.lower window_title;
     results := [];
     target_processes := [];
     target_windows := [] |}.

Definition set_results (l : list TestResult) (self : StealthTester) : StealthTester :=
  {| process_name := process_name self;
     window_title := window_title self;
     results := l;
     target_processes := target_processes self;
     target_windows := target_windows self |}.

Definition set_target_processes (l : list Process) (self : StealthTester)
  : StealthTester :=
  {| process_name := process_name self;
     window_title := window_title self;
     results := results self;
     target_processes := l;
     target_windows := target_windows self |}.

Definition set_target_windows (l : list (Z * string)) (self : StealthTester)
  : StealthTester :=
  {| process_name := process_name self;
     window_title := window_title self;
     results := results self;
     target_processes := target_processes self;
     target_windows := l |}.

(** ** The monad of the methods: the object as state, and exceptions *)

Definition M (A : Type) : Type := StealthTester -> outcome A * StealthTester.

Definition ret {A} (a : A) : M A := fun self => (Ok a, self).

Definition bind {A B} (m : M A) (k : A -> M B) : M B :=
  fun self =>
    match m self with
    | (Ok a, self') => k a self'
    | (Raise e, self') => (Raise e, self')
    end.

Definition get_self : M StealthTester := fun self => (Ok self, self).

Definition modify (f : StealthTester -> StealthTester) : M unit :=
  fun self => (Ok tt, f self).

(** The result of a platform call, or of a loop over such calls. *)
Definition lift {A} (o : outcome A) : M A := fun self => (o, self).

(** [try: body except Exception as e: handler e] *)
Definition try_except {A} (body : M A) (handler : exn -> M A) : M A :=
  fun self =>
    match body self with
    | (Ok a, self') => (Ok a, self')
    | (Raise e, self') => handler e self'
    end.

Declare Scope py_scope.
Delimit Scope py_scope with py.
Notation "x <- m ;; k" := (bind m (fun x => k))
  (at level 61, m at next level, right associativity) : py_scope.
Notation "' pat <- m ;; k" := (bind m (fun x => match x with pat => k end))
  (at level 61, pat pattern, m at next level, right associativity) : py_scope.
Notation "m ;;; k" := (bind m (fun _ => k))
  (at level 61, right associativity) : py_scope.

(** The same sequencing for platform calls alone. *)
Definition obind {A B} (o : outcome A) (k : A -> outcome B) : outcome B :=
  match o with
  | Ok a => k a
  | Raise e => Raise e
  end.

Notation "x <~ o ;; k" := (obind o (fun x => k))
  (at level 61, o at next level, right associativity) : py_scope.
Notation "' pat <~ o ;; k" := (obind o (fun x => match x with pat => k end))
  (at level 61, pat pattern, o at next level, right associativity) : py_scope.

(** [try: body except Exception: handler], for platform calls alone. *)
Definition otry {A} (body : outcome A) (handler : A) : A :=
  match body with
  | Ok a => a
  | Raise _ => handler
  end.

Local Open Scope py_scope.

(** [add_result] *)
Definition add_result (w : Platform) (test : string) (passed : bool)
  (details severity : string) : M unit :=
  let result := {| test := test;
                   passed := passed;
                   details := details;
                   severity := severity;
                   timestamp := now_isoformat w |} in
  modify (fun self => set_results (Py.append (results self) result) self).

(** [bool(n)] for an integer or a handle. *)
Definition nonzero (z : Z) : bool := negb (z =? 0).

(** [x > y] on floats. *)
Definition Qgtb (x y : Q) : bool := negb (Qle_bool x y).

(** [float(n)] for a count. *)
Definition float_of_nat (n : nat) : float :=
  PrimFloat.of_uint63 (Uint63.of_Z (Z.of_nat n)).

(** ** The target resolver *)

(** [find_target_processes].  An error of [proc.info['name'].lower()] that
    is one of the two psutil errors skips the process; any other error, and
    any error of the iteration, leaves the method. *)
Definition find_target_processes (w : Platform) (self : StealthTester)
  : outcome (list Process) :=
  processes <~
    for_each
      (fun processes proc =>
         match info_name proc with
         | Ok name =>
             if Py.contains (process_name self) (Py.lower name)
             then Ok (Py.append processes proc)
             else Ok processes
         | Raise e => continue_on_psutil e processes
         end)
      [] (fst (process_iter w)) ;;
  match snd (process_iter w) with
  | Some e => Raise e
  | None => Ok processes
  end.

(** The test of [enum_window_callback] on a title. *)
Definition window_matches (self : StealthTester) (title : string) : bool :=
  Py.truthy title
  && (negb (Py.truthy (window_title self))
      || Py.contains (window_title self) (Py.lower title)).

(** [enum_window_callback]: whatever the two queries raise is passed over. *)
Definition enum_window_callback (w : Platform) (self : StealthTester)
  (windows : list (Z * string)) (hwnd : Z) : list (Z * string) :=
  otry
    (visible <~ IsWindowVisible w hwnd ;;
     if visible then
       title <~ GetWindowText w hwnd ;;
       if window_matches self title
       then Ok (Py.append windows (hwnd, title))
       else Ok windows
     else Ok windows)
    windows.

(** [find_target_windows] *)
Definition find_target_windows (w : Platform) (self : StealthTester)
  : outcome (list (Z * string)) :=
  let windows := fold_left (enum_window_callback w self) (fst (EnumWindows w)) [] in
  match snd (EnumWindows w) with
  | Some e => Raise e
  | None => Ok windows
  end.

(** ** The probe catalogue *)

(** [test_psutil_detection] *)
Definition test_psutil_detection (w : Platform) : M unit :=
  self <- get_self ;;
  processes <- lift (find_target_processes w self) ;;
  match processes with
  | _ :: _ =>
      names <- lift (for_each (fun names p => name <~ info_name p ;; Ok (Py.append names name))
                       [] processes) ;;
      let details := "Found " ++ Py.str_of_nat (List.length processes)
                     ++ " processes: " ++ Py.repr_list names in
      add_result w "PSUtil Process Detection" false details "high" ;;;
      modify (set_target_processes processes)
  | [] =>
      add_result w "PSUtil Process Detection" true "No processes detected by psutil" "low"
  end.

(** [test_tasklist_detection] *)
Definition test_tasklist_detection (w : Platform) : M unit :=
  try_except
    (result <- lift (subprocess_run w ["tasklist"; "/fo"; "csv"]) ;;
     self <- get_self ;;
     if returncode result =? 0 then
       let output := Py.lower (stdout result) in
       let detected := Py.contains (process_name self) output in
       if detected then
         let count := Py.count output (process_name self) in
         add_result w "TaskList Detection" false
           ("Process detected " ++ Py.str_of_nat count ++ " times in tasklist") "high"
       else
         add_result w "TaskList Detection" true "Process hidden from tasklist" "low"
     else
       add_result w "TaskList Detection" true
         "TaskList command failed (access restricted?)" "medium")
    (fun e =>
       add_result w "TaskList Detection" true
         ("TaskList test failed: " ++ exn_str e) "medium").

(** [test_wmic_detection] *)
Definition test_wmic_detection (w : Platform) : M unit :=
  try_except
    (result <- lift (subprocess_run w
                       ["wmic"; "process"; "get"; "name,processid,executablepath";
                        "/format:csv"]) ;;
     self <- get_self ;;
     if returncode result =? 0 then
       let output := Py.lower (stdout result) in
       let detected := Py.contains (process_name self) output in
       if detected then
         add_result w "WMIC Detection" false "Process detected by WMIC queries" "critical"
       else
         add_result w "WMIC Detection" true "Process hidden from WMIC" "low"
     else
       add_result w "WMIC Detection" true "WMIC access blocked or failed" "medium")
    (fun e =>
       add_result w "WMIC Detection" true ("WMIC test failed: " ++ exn_str e) "medium").

(** The f-string [ps_command] of [test_powershell_detection]. *)
Definition ps_command (process_name : string) : string :=
  "Get-Process | Where-Object {$_.ProcessName -like "
  ++ String Py.dquote "*" ++ process_name ++ "*" ++ String Py.dquote "}"
  ++ " | Select-Object ProcessName,Id,MainWindowTitle".

(** [test_powershell_detection] *)
Definition test_powershell_detection (w : Platform) : M unit :=
  try_except
    (self <- get_self ;;
     let ps_command := ps_command (process_name self) in
     result <- lift (subprocess_run w ["powershell"; "-Command"; ps_command]) ;;
     if returncode result =? 0 then
       let output := Py.strip (stdout result) in
       let lines := filter (fun line => Py.truthy (Py.strip line)) (Py.split_nl output) in
       let detected := (2 <? List.length lines)%nat
                       && Py.contains (process_name self) (Py.lower output) in
       if detected then
         add_result w "PowerShell Detection" false
           ("Process detected by Get-Process: "
            ++ Py.str_of_Z (Z.of_nat (List.length lines) - 2) ++ " instances") "high"
       else
         add_result w "PowerShell Detection" true
           "Process hidden from PowerShell Get-Process" "low"
     else
       add_result w "PowerShell Detection" true "PowerShell execution blocked" "medium")
    (fun e =>
       add_result w "PowerShell Detection" true
         ("PowerShell test failed: " ++ exn_str e) "medium").

(** [test_window_enumeration] *)
Definition test_window_enumeration (w : Platform) : M unit :=
  self <- get_self ;;
  windows <- lift (find_target_windows w self) ;;
  match windows with
  | _ :: _ =>
      let window_details :=
        map (fun '(hwnd, title) =>
               "HWND:" ++ Py.str_of_Z hwnd ++ " '" ++ title ++ "'")
            (Py.take 3 windows) in
      add_result w "Win32 Window Enumeration" false
        ("Found " ++ Py.str_of_nat (List.length windows) ++ " windows: "
         ++ Py.repr_list window_details) "critical" ;;;
      modify (set_target_windows windows)
  | [] =>
      add_result w "Win32 Window Enumeration" true
        "No windows detected by EnumWindows" "low"
  end.

(** The loop of [test_taskbar_presence]: the number of windows counted. *)
Definition count_taskbar_windows (w : Platform) (windows : list (Z * string)) : nat :=
  fold_left
    (fun taskbar_windows '(hwnd, title) =>
       otry
         (ex_style <~ GetWindowLong w hwnd win32con.GWL_EXSTYLE ;;
          style <~ GetWindowLong w hwnd win32con.GWL_STYLE ;;
          if negb (nonzero (Z.land ex_style win32con.WS_EX_TOOLWINDOW))
             && nonzero (Z.land style win32con.WS_VISIBLE)
          then Ok (S taskbar_windows)
          else Ok taskbar_windows)
         taskbar_windows)
    windows O.

(** [test_taskbar_presence] *)
Definition test_taskbar_presence (w : Platform) : M unit :=
  self <- get_self ;;
  match target_windows self with
  | [] =>
      add_result w "Taskbar Presence" true "No windows to test taskbar presence" "low"
  | _ :: _ =>
      let taskbar_windows := count_taskbar_windows w (target_windows self) in
      if (0 <? taskbar_windows)%nat then
        add_result w "Taskbar Presence" false
          (Py.str_of_nat taskbar_windows ++ " windows likely visible in taskbar") "medium"
      else
        add_result w "Taskbar Presence" true "Windows hidden from taskbar" "low"
  end.

(** The loop of [test_alt_tab_visibility]. *)
Definition count_alt_tab_visible (w : Platform) (windows : list (Z * string)) : nat :=
  fold_left
    (fun alt_tab_visible '(hwnd, title) =>
       otry
         (visible <~ IsWindowVisible w hwnd ;;
          if visible then
            ex_style <~ GetWindowLong w hwnd win32con.GWL_EXSTYLE ;;
            if negb (nonzero (Z.land ex_style win32con.WS_EX_TOOLWINDOW)) then
              if Py.truthy (Py.strip title) then Ok (S alt_tab_visible)
              else Ok alt_tab_visible
            else Ok alt_tab_visible
          else Ok alt_tab_visible)
         alt_tab_visible)
    windows O.

(** [test_alt_tab_visibility] *)
Definition test_alt_tab_visibility (w : Platform) : M unit :=
  self <- get_self ;;
  match target_windows self with
  | [] =>
      add_result w "Alt+Tab Visibility" true "No windows to test Alt+Tab visibility" "low"
  | _ :: _ =>
      let alt_tab_visible := count_alt_tab_visible w (target_windows self) in
      if (0 <? alt_tab_visible)%nat then
        add_result w "Alt+Tab Visibility" false
          (Py.str_of_nat alt_tab_visible ++ " windows likely visible in Alt+Tab") "medium"
      else
        add_result w "Alt+Tab Visibility" true "Windows hidden from Alt+Tab" "low"
  end.

Definition legitimate_parents : list string :=
  ["explorer.exe"; "services.exe"; "winlogon.exe"; "dwm.exe"].

(** The loop of [test_process_tree]: the list [suspicious_parents]. *)
Definition scan_process_tree (w : Platform) (procs : list Process)
  : outcome (list string) :=
  for_each
    (fun suspicious_parents proc =>
       match proc_parent w proc with
       | Raise e => continue_on_psutil e suspicious_parents
       | Ok None => Ok suspicious_parents
       | Ok (Some parent) =>
           match proc_name w parent with
           | Raise e => continue_on_psutil e suspicious_parents
           | Ok pname =>
               let parent_name := Py.lower pname in
               if negb (Py.in_list parent_name legitimate_parents) then
                 match proc_name w proc with
                 | Raise e => continue_on_psutil e suspicious_parents
                 | Ok name =>
                     Ok (Py.append suspicious_parents (name ++ "→" ++ parent_name))
                 end
               else Ok suspicious_parents
           end
       end)
    [] procs.

(** [test_process_tree] *)
Definition test_process_tree (w : Platform) : M unit :=
  self <- get_self ;;
  match target_processes self with
  | [] => add_result w "Process Tree Analysis" true "No processes to analyze" "low"
  | _ :: _ =>
      suspicious_parents <- lift (scan_process_tree w (target_processes self)) ;;
      match suspicious_parents with
      | _ :: _ =>
          add_result w "Process Tree Analysis" false
            ("Suspicious parent processes: " ++ Py.repr_list suspicious_parents) "medium"
      | [] =>
          add_result w "Process Tree Analysis" true "Process tree appears legitimate" "low"
      end
  end.

(** The loop of [test_network_connections]: [total_connections] and
    [suspicious_connections]. *)
Definition scan_connections (w : Platform) (procs : list Process)
  : outcome (nat * list string) :=
  for_each
    (fun '(total_connections, suspicious_connections) proc =>
       match proc_connections w proc with
       | Raise e => continue_on_psutil e (total_connections, suspicious_connections)
       | Ok connections =>
           Ok ((total_connections + List.length connections)%nat,
               fold_left
                 (fun suspicious conn =>
                    match raddr conn with
                    | Some (ip, port) =>
                        if negb (Py.in_list ip ["127.0.0.1"; "::1"])
                        then (Py.append suspicious (ip ++ ":" ++ Py.str_of_Z port))
                        else suspicious
                    | None => suspicious
                    end)
                 connections suspicious_connections)
       end)
    (O, []) procs.

(** [test_network_connections] *)
Definition test_network_connections (w : Platform) : M unit :=
  self <- get_self ;;
  match target_processes self with
  | [] =>
      add_result w "Network Connections" true
        "No processes to test network connections" "low"
  | _ :: _ =>
      '(total_connections, suspicious_connections) <-
        lift (scan_connections w (target_processes self)) ;;
      match suspicious_connections with
      | _ :: _ =>
          add_result w "Network Connections" false
            ("External connections detected: "
             ++ Py.repr_list (Py.take 3 suspicious_connections)) "medium"
      | [] =>
          if (0 <? total_connections)%nat then
            add_result w "Network Connections" true
              ("Only localhost connections detected ("
               ++ Py.str_of_nat total_connections ++ ")") "low"
          else
            add_result w "Network Connections" true "No network connections detected" "low"
      end
  end.

(** [memory_info.rss / 1024 / 1024] *)
Definition memory_mb_of (rss : Z) : Q := inject_Z rss / 1024 / 1024.

(** The body of the loop of [test_memory_usage], on the loop variables
    [total_memory] and [high_memory_procs].  [total_memory] has been
    increased when [proc.name()] is called, and keeps the increase if the
    call fails. *)
Definition memory_step (w : Platform) (acc : Q * list string) (proc : Process)
  : outcome (Q * list string) :=
  let '(total_memory, high_memory_procs) := acc in
  match proc_memory_info_rss w proc with
  | Raise e => continue_on_psutil e (total_memory, high_memory_procs)
  | Ok rss =>
      let memory_mb := memory_mb_of rss in
      let total_memory := (total_memory + memory_mb)%Q in
      if Qgtb memory_mb 500 then
        match proc_name w proc with
        | Raise e => continue_on_psutil e (total_memory, high_memory_procs)
        | Ok name =>
            Ok (total_memory,
                Py.append high_memory_procs
                  (name ++ ": " ++ Py.format_1f memory_mb ++ "MB"))
        end
      else Ok (total_memory, high_memory_procs)
  end.

(** The loop of [test_memory_usage]. *)
Definition scan_memory (w : Platform) (procs : list Process)
  : outcome (Q * list string) :=
  for_each (memory_step w) (0%Q, []) procs.

(** [test_memory_usage] *)
Definition test_memory_usage (w : Platform) : M unit :=
  self <- get_self ;;
  match target_processes self with
  | [] => add_result w "Memory Usage" true "No processes to test memory usage" "low"
  | _ :: _ =>
      '(total_memory, high_memory_procs) <-
        lift (scan_memory w (target_processes self)) ;;
      match high_memory_procs with
      | _ :: _ =>
          add_result w "Memory Usage" false
            ("High memory usage detected: " ++ Py.repr_list high_memory_procs) "medium"
      | [] =>
          add_result w "Memory Usage" true
            ("Normal memory usage: " ++ Py.format_1f total_memory ++ "MB total") "low"
      end
  end.

(** One round of the sampling loop of [test_cpu_usage]: [total_cpu] and
    [active_procs] of the i-th sample.  [total_cpu] starts as the integer
    0, and [0 + x] is the float addition [0.0 + x]; every addition is a
    binary64 addition. *)
Definition cpu_round (w : Platform) (i : nat) (procs : list Process)
  : outcome (float * nat) :=
  for_each
    (fun '(total_cpu, active_procs) proc =>
       match proc_cpu_percent w i proc with
       | Raise e => continue_on_psutil e (total_cpu, active_procs)
       | Ok cpu_percent =>
           Ok (PrimFloat.add total_cpu cpu_percent, S active_procs)
       end)
    (0%float, O) procs.

(** The sampling loop, [for i in range(5)]: the list [cpu_samples].
    [total_cpu / active_procs] divides by the float of the count. *)
Definition collect_cpu_samples (w : Platform) (procs : list Process)
  : outcome (list float) :=
  for_each
    (fun cpu_samples i =>
       '(total_cpu, active_procs) <~ cpu_round w i procs ;;
       if (0 <? active_procs)%nat then
         let avg_cpu := PrimFloat.div total_cpu (float_of_nat active_procs) in
         Ok (Py.append cpu_samples avg_cpu)
       else Ok cpu_samples)
    [] (seq 0 5).

(** One step of the compensated sum of CPython 3.12 and later, on the
    running sum and its compensation. *)
Definition neumaier_step (acc : float * float) (x : float) : float * float :=
  let '(f_result, c) := acc in
  let t := PrimFloat.add f_result x in
  if PrimFloat.leb (PrimFloat.abs x) (PrimFloat.abs f_result)
  then (t, PrimFloat.add c (PrimFloat.add (PrimFloat.sub f_result t) x))
  else (t, PrimFloat.add c (PrimFloat.add (PrimFloat.sub x t) f_result)).

(** [c && isfinite(c)] *)
Definition nonzero_finite (c : float) : bool :=
  match PrimFloat.classify c with
  | PNormal | NNormal | PSubn | NSubn => true
  | _ => false
  end.

(** [sum(l)] for a list of floats: the integer 0 plus the first float, then
    the other floats from left to right, each addition a binary64 addition;
    from CPython 3.12 on with the compensation added at the end. *)
Definition py_sum (compensated : bool) (l : list float) : float :=
  match l with
  | [] => 0%float
  | x :: rest =>
      let start := PrimFloat.add 0%float x in
      if compensated then
        let '(f_result, c) := fold_left neumaier_step rest (start, 0%float) in
        if nonzero_finite c then PrimFloat.add f_result c else f_result
      else fold_left PrimFloat.add rest start
  end.

(** [max(l)] for a list that is not empty: an item replaces the largest so
    far when it compares greater. *)
Definition py_max (l : list float) : float :=
  match l with
  | [] => 0%float
  | x :: rest => fold_left (fun m y => if PrimFloat.ltb m y then y else m) rest x
  end.

(** [test_cpu_usage] *)
Definition test_cpu_usage (w : Platform) : M unit :=
  self <- get_self ;;
  match target_processes self with
  | [] => add_result w "CPU Usage" true "No processes to test CPU usage" "low"
  | _ :: _ =>
      cpu_samples <- lift (collect_cpu_samples w (target_processes self)) ;;
      match cpu_samples with
      | _ :: _ =>
          let avg_cpu := PrimFloat.div (py_sum (compensated_sum w) cpu_samples)
                           (float_of_nat (List.length cpu_samples)) in
          let max_cpu := py_max cpu_samples in
          if PrimFloat.ltb 50%float max_cpu then
            add_result w "CPU Usage" false
              ("High CPU usage detected: avg=" ++ Py.format_1f_float avg_cpu
               ++ "%, max=" ++ Py.format_1f_float max_cpu ++ "%") "medium"
          else
            add_result w "CPU Usage" true
              ("Normal CPU usage: avg=" ++ Py.format_1f_float avg_cpu
               ++ "%, max=" ++ Py.format_1f_float max_cpu ++ "%") "low"
      | [] => add_result w "CPU Usage" true "No CPU usage data available" "low"
      end
  end.

(** [test_screen_capture_protection] *)
Definition test_screen_capture_protection (w : Platform) : M unit :=
  try_except
    (_ <- lift (mss_open (screen w)) ;;
     _ <- lift (monitor_1 (screen w)) ;;
     _ <- lift (grab (screen w)) ;;
     _ <- lift (to_png (screen w)) ;;
     if path_exists (screen w) then
       file_size <- lift (getsize (screen w)) ;;
       if 1000 <? file_size then
         add_result w "Screen Capture Protection" false
           ("Screenshot successful (" ++ Py.str_of_Z file_size
            ++ " bytes) - DRM protection may be bypassed") "critical"
       else
         add_result w "Screen Capture Protection" true
           "Screenshot blocked or corrupted - DRM protection working" "low"
     else
       add_result w "Screen Capture Protection" true "Screenshot completely blocked" "low")
    (fun e =>
       add_result w "Screen Capture Protection" true
         ("Screenshot failed: " ++ exn_str e ++ " (DRM protection likely working)") "low").

(** The loop of [test_process_injection_resistance]: [injection_attempts]
    and [successful_injections].  The inner handler passes over every
    error of [OpenProcess] and of [CloseHandle]. *)
Definition scan_injection (w : Platform) (procs : list Process) : nat * nat :=
  fold_left
    (fun '(injection_attempts, successful_injections) proc =>
       let injection_attempts := S injection_attempts in
       match OpenProcess w
               (Z.lor win32con.PROCESS_VM_WRITE win32con.PROCESS_VM_OPERATION)
               (pid proc) with
       | Ok handle =>
           if nonzero handle then
             match CloseHandle w handle with
             | Ok _ => (injection_attempts, S successful_injections)
             | Raise _ => (injection_attempts, S successful_injections)
             end
           else (injection_attempts, successful_injections)
       | Raise _ => (injection_attempts, successful_injections)
       end)
    procs (O, O).

(** [test_process_injection_resistance] *)
Definition test_process_injection_resistance (w : Platform) : M unit :=
  self <- get_self ;;
  match target_processes self with
  | [] =>
      add_result w "Process Injection Resistance" true
        "No processes to test injection resistance" "low"
  | _ :: _ =>
      let '(injection_attempts, successful_injections) :=
        scan_injection w (target_processes self) in
      if (0 <? successful_injections)%nat then
        add_result w "Process Injection Resistance" false
          (Py.str_of_nat successful_injections ++ "/" ++ Py.str_of_nat injection_attempts
           ++ " processes vulnerable to injection") "high"
      else
        add_result w "Process Injection Resistance" true
          ("All " ++ Py.str_of_nat injection_attempts
           ++ " processes protected from injection") "low"
  end.

(** The loop of [test_debugging_protection]: [debug_attempts] and
    [successful_debugs].  A failed attach is passed over; the count has
    been increased when [DebugActiveProcessStop] and, in the [finally]
    clause, [CloseHandle] run, and whatever they raise is passed over. *)
Definition scan_debugging (w : Platform) (procs : list Process) : nat * nat :=
  fold_left
    (fun '(debug_attempts, successful_debugs) proc =>
       let debug_attempts := S debug_attempts in
       match OpenProcess w win32con.PROCESS_ALL_ACCESS (pid proc) with
       | Ok handle =>
           if nonzero handle then
             let successful_debugs :=
               match DebugActiveProcess w (pid proc) with
               | Ok _ =>
                   match DebugActiveProcessStop w (pid proc) with
                   | Ok _ => S successful_debugs
                   | Raise _ => S successful_debugs
                   end
               | Raise _ => successful_debugs
               end in
             match CloseHandle w handle with
             | Ok _ => (debug_attempts, successful_debugs)
             | Raise _ => (debug_attempts, successful_debugs)
             end
           else (debug_attempts, successful_debugs)
       | Raise _ => (debug_attempts, successful_debugs)
       end)
    procs (O, O).

(** [test_debugging_protection] *)
Definition test_debugging_protection (w : Platform) : M unit :=
  self <- get_self ;;
  match target_processes self with
  | [] =>
      add_result w "Anti-Debugging Protection" true
        "No processes to test debugging protection" "low"
  | _ :: _ =>
      let '(debug_attempts, successful_debugs) :=
        scan_debugging w (target_processes self) in
      if (0 <? successful_debugs)%nat then
        add_result w "Anti-Debugging Protection" false
          (Py.str_of_nat successful_debugs ++ "/" ++ Py.str_of_nat debug_attempts
           ++ " processes vulnerable to debugging") "critical"
      else
        add_result w "Anti-Debugging Protection" true
          ("All " ++ Py.str_of_nat debug_attempts
           ++ " processes protected from debugging") "low"
  end.

Definition legitimate_patterns : list string :=
  ["windows"; "system"; "service"; "update"; "security";
   "network"; "audio"; "display"; "manager"; "configuration"].

(** The loop of [test_process_name_legitimacy]: [suspicious_names]. *)
Definition scan_names (w : Platform) (procs : list Process) : outcome (list string) :=
  for_each
    (fun suspicious_names proc =>
       match proc_name w proc with
       | Raise e => continue_on_psutil e suspicious_names
       | Ok n =>
           let name := Py.lower n in
           let is_legitimate :=
             existsb (fun pattern => Py.contains pattern name) legitimate_patterns in
           if negb is_legitimate
           then Ok (Py.append suspicious_names name)
           else Ok suspicious_names
       end)
    [] procs.

(** [test_process_name_legitimacy] *)
Definition test_process_name_legitimacy (w : Platform) : M unit :=
  self <- get_self ;;
  match target_processes self with
  | [] =>
      add_result w "Process Name Legitimacy" true
        "No processes to test name legitimacy" "low"
  | _ :: _ =>
      suspicious_names <- lift (scan_names w (target_processes self)) ;;
      match suspicious_names with
      | _ :: _ =>
          add_result w "Process Name Legitimacy" false
            ("Suspicious process names: " ++ Py.repr_list suspicious_names) "medium"
      | [] =>
          add_result w "Process Name Legitimacy" true
            "Process names appear legitimate" "low"
      end
  end.

(** ** The scorer and the reports *)

(** [x < y] on floats. *)
Definition Qltb (x y : Q) : bool := negb (Qle_bool y x).

(** [len([r for r in self.results if r.passed])] *)
Definition count_passed (l : list TestResult) : nat :=
  List.length (filter (fun r => passed r) l).

(** [[r for r in self.results if not r.passed and r.severity == sev]] *)
Definition fails_of (sev : string) (l : list TestResult) : list TestResult :=
  filter (fun r => negb (passed r) && String.eqb (severity r) sev) l.

(** The recommendation block [generate_report] prints. *)
Inductive tier : Type :=
| ImmediateAction      (* IMMEDIATE ACTION REQUIRED *)
| NeedsImprovement     (* GOOD STEALTH, NEEDS IMPROVEMENT *)
| Excellent.           (* EXCELLENT STEALTH COVERAGE *)

(** What [generate_report] prints: the numbers of the OVERALL SCORE line,
    the three lists of failures (each printed when it is not empty) and the
    recommendation. *)
Record ConsoleReport : Type := mk_ConsoleReport {
  shown_passed : nat;
  shown_total : nat;
  shown_score : Q;
  critical_fails : list TestResult;
  high_fails : list TestResult;
  medium_fails : list TestResult;
  recommendation : tier
}.

(** [generate_report] *)
Definition generate_report (self : StealthTester) : ConsoleReport :=
  let total_tests := List.length (results self) in
  let passed_tests := count_passed (results self) in
  let score :=
    if (0 <? total_tests)%nat
    then (inject_Z (Z.of_nat passed_tests) / inject_Z (Z.of_nat total_tests) * 100)%Q
    else 0%Q in
  {| shown_passed := passed_tests;
     shown_total := total_tests;
     shown_score := score;
     critical_fails := fails_of "critical" (results self);
     high_fails := fails_of "high" (results self);
     medium_fails := fails_of "medium" (results self);
     recommendation :=
       if Qltb score 70 then ImmediateAction
       else if Qltb score 85 then NeedsImprovement
       else Excellent |}.

(** [run_all_tests]: the fifteen probes in the order of the catalogue, the
    i-th one on the platform as it is then, and the console report. *)
Definition run_all_tests (w : nat -> Platform) : M ConsoleReport :=
  test_psutil_detection (w 0%nat) ;;;
  test_tasklist_detection (w 1%nat) ;;;
  test_wmic_detection (w 2%nat) ;;;
  test_powershell_detection (w 3%nat) ;;;
  test_window_enumeration (w 4%nat) ;;;
  test_taskbar_presence (w 5%nat) ;;;
  test_alt_tab_visibility (w 6%nat) ;;;
  test_process_tree (w 7%nat) ;;;
  test_network_connections (w 8%nat) ;;;
  test_memory_usage (w 9%nat) ;;;
  test_cpu_usage (w 10%nat) ;;;
  test_screen_capture_protection (w 11%nat) ;;;
  test_process_injection_resistance (w 12%nat) ;;;
  test_debugging_protection (w 13%nat) ;;;
  test_process_name_legitimacy (w 14%nat) ;;;
  self <- get_self ;;
  ret (generate_report self).

(** The values [json.dump] writes; a dict keeps the order of its keys. *)
#[local] Unset Elimination Schemes.
Inductive json : Type :=
| JInt (n : Z)
| JFloat (x : Q)
| JBool (b : bool)
| JStr (s : string)
| JList (l : list json)
| JDict (fields : list (string * json)).
#[local] Set Elimination Schemes.

Definition JNat (n : nat) : json := JInt (Z.of_nat n).

(** The dict [report_data] of [save_detailed_report]. *)
Definition report_data (w : Platform) (self : StealthTester) : json :=
  JDict
    [ ("timestamp", JStr (now_isoformat w));
      ("target_process", JStr (process_name self));
      ("target_window", JStr (window_title self));
      ("platform", JStr (platform_system w ++ " " ++ platform_release w));
      ("total_tests", JNat (List.length (results self)));
      ("passed_tests", JNat (count_passed (results self)));
      ("score_percentage",
        match results self with
        | _ :: _ =>
            JFloat (inject_Z (Z.of_nat (count_passed (results self)))
                    / inject_Z (Z.of_nat (List.length (results self))) * 100)%Q
        | [] => JInt 0
        end);
      ("test_results",
        JList (map (fun r =>
                      JDict [ ("test", JStr (test r));
                              ("passed", JBool (passed r));
                              ("details", JStr (details r));
                              ("severity", JStr (severity r));
                              ("timestamp", JStr (timestamp r)) ])
                 (results self)));
      ("summary",
        JDict
          [ ("critical_issues", JNat (List.length (fails_of "critical" (results self))));
            ("high_issues", JNat (List.length (fails_of "high" (results self))));
            ("medium_issues", JNat (List.length (fails_of "medium" (results self))));
            ("low_issues", JNat (List.length (fails_of "low" (results self)))) ]) ].

(** [save_detailed_report]: the name of the file and the document written
    to it. *)
Definition save_detailed_report (w : Platform) (filename : option string)
  (self : StealthTester) : string * json :=
  let filename :=
    match filename with
    | None => "stealth_report_" ++ now_strftime w ++ ".json"
    | Some f => f
    end in
  (filename, report_data w self).

(** How [main] ends. *)
Inductive ending : Type :=
| Usage                                   (* sys.exit(1) *)
| Uncaught (e : exn)                      (* an exception left a probe *)
| Saved (console : ConsoleReport) (filename : string) (report : json).

(** [main], on [sys.argv]. *)
Definition main (argv : list string) (w : nat -> Platform) : ending :=
  match argv with
  | [] | [_] => Usage
  | _ :: process_name :: rest =>
      let window_title := match rest with t :: _ => t | [] => EmptyString end in
      let tester := init process_name window_title in
      match run_all_tests w tester with
      | (Ok console, tester) =>
          let '(filename, report) := save_detailed_report (w 15%nat) None tester in
          Saved console filename report
      | (Raise e, _) => Uncaught e
      end
  end.

(** ** Reading a report document *)

Fixpoint lookup (key : string) (fields : list (string * json)) : option json :=
  match fields with
  | [] => None
  | (k, v) :: rest => if String.eqb key k then Some v else lookup key rest
  end.

Definition field (key : string) (doc : json) : option json :=
  match doc with
  | JDict fields => lookup key fields
  | _ => None
  end.

Definition keys (doc : json) : list string :=
  match doc with
  | JDict fields => map fst fields
  | _ => []
  end.

Definition elements (doc : json) : list json :=
  match doc with
  | JList l => l
  | _ => []
  end.

(** The number a document holds, as a rational. *)
Definition number (doc : json) : option Q :=
  match doc with
  | JInt n => Some (inject_Z n)
  | JFloat x => Some x
  | _ => None
  end.

(** [len([r for r in results if not r.passed])] *)
Definition count_failed (l : list TestResult) : nat :=
  List.length (filter (fun r => negb (passed r)) l).

(** ** The catalogue *)

Inductive probe : Type :=
| PsutilDetection
| TasklistDetection
| WmicDetection
| PowershellDetection
| WindowEnumeration
| TaskbarPresence
| AltTabVisibility
| ProcessTree
| NetworkConnections
| MemoryUsage
| CpuUsage
| ScreenCaptureProtection
| ProcessInjectionResistance
| DebuggingProtection
| ProcessNameLegitimacy.

Definition run_probe (p : probe) : Platform -> M unit :=
  match p with
  | PsutilDetection => test_psutil_detection
  | TasklistDetection => test_tasklist_detection
  | WmicDetection => test_wmic_detection
  | PowershellDetection => test_powershell_detection
  | WindowEnumeration => test_window_enumeration
  | TaskbarPresence => test_taskbar_presence
  | AltTabVisibility => test_alt_tab_visibility
  | ProcessTree => test_process_tree
  | NetworkConnections => test_network_connections
  | MemoryUsage => test_memory_usage
  | CpuUsage => test_cpu_usage
  | ScreenCaptureProtection => test_screen_capture_protection
  | ProcessInjectionResistance => test_process_injection_resistance
  | DebuggingProtection => test_debugging_protection
  | ProcessNameLegitimacy => test_process_name_legitimacy
  end.

(** The probes in the order [run_all_tests] calls them. *)
Definition catalogue : list probe :=
  [ PsutilDetection; TasklistDetection; WmicDetection; PowershellDetection;
    WindowEnumeration; TaskbarPresence; AltTabVisibility;
    ProcessTree; NetworkConnections; MemoryUsage; CpuUsage;
    ScreenCaptureProtection; ProcessInjectionResistance; DebuggingProtection;
    ProcessNameLegitimacy ].

(** The probes of [l] one after the other, the first on platform [w i]. *)
Fixpoint run_probes (w : nat -> Platform) (i : nat) (l : list probe) : M unit :=
  match l with
  | [] => ret tt
  | p :: rest => run_probe p (w i) ;;; run_probes w (S i) rest
  end.

(** The list of the snapshot a probe works on, when it works on one. *)
Inductive target_list : Type :=
| Windows
| Processes.

Definition works_on (p : probe) : option target_list :=
  match p with
  | TaskbarPresence | AltTabVisibility => Some Windows
  | ProcessTree | NetworkConnections | MemoryUsage | CpuUsage
  | ProcessInjectionResistance | DebuggingProtection | ProcessNameLegitimacy =>
      Some Processes
  | PsutilDetection | TasklistDetection | WmicDetection | PowershellDetection
  | WindowEnumeration | ScreenCaptureProtection => None
  end.

(** The probe works on a list of the snapshot, and the list is empty. *)
Definition inputs_absent (p : probe) (self : StealthTester) : Prop :=
  match works_on p with
  | Some Windows => target_windows self = []
  | Some Processes => target_processes self = []
  | None => False
  end.

(** The verdicts the catalogue gives: a pass is 'low' or 'medium', a
    failure is 'medium', 'high' or 'critical'. *)
Definition verdict_ok (r : TestResult) : bool :=
  if passed r
  then Py.in_list (severity r) ["low"; "medium"]
  else Py.in_list (severity r) ["medium"; "high"; "critical"].

(** What a call of a probe leaves behind: either an exception left it and
    the object is as before, or it returned and one result was appended. *)
Inductive probe_post (w : Platform) (self : StealthTester)
  : outcome unit * StealthTester -> Prop :=
| post_raised (e : exn) : probe_post w self (Raise e, self)
| post_reported (name : string) (p : bool) (d s : string)
    (procs : list Process) (wins : list (Z * string)) :
    verdict_ok (mk_TestResult name p d s (now_isoformat w)) = true ->
    probe_post w self
      (Ok tt,
       mk_StealthTester (process_name self) (window_title self)
         (results self ++ [mk_TestResult name p d s (now_isoformat w)])%list
         procs wins).

(** The percentage as the specification words it: passedCount / totalCount
    x 100, and 0 when totalCount is 0. *)
Definition percentage (passedCount totalCount : nat) : Q :=
  match totalCount with
  | O => 0%Q
  | S _ => (inject_Z (Z.of_nat passedCount) / inject_Z (Z.of_nat totalCount) * 100)%Q
  end.


(** The result a probe appends at its guard, [if not self.target_windows]
    or [if not self.target_processes]: its name and its explanation. *)
Definition absence_report (p : probe) : option (string * string) :=
  match p with
  | TaskbarPresence =>
      Some ("Taskbar Presence", "No windows to test taskbar presence")
  | AltTabVisibility =>
      Some ("Alt+Tab Visibility", "No windows to test Alt+Tab visibility")
  | ProcessTree => Some ("Process Tree Analysis", "No processes to analyze")
  | NetworkConnections =>
      Some ("Network Connections", "No processes to test network connections")
  | MemoryUsage => Some ("Memory Usage", "No processes to test memory usage")
  | CpuUsage => Some ("CPU Usage", "No processes to test CPU usage")
  | ProcessInjectionResistance =>
      Some ("Process Injection Resistance", "No processes to test injection resistance")
  | DebuggingProtection =>
      Some ("Anti-Debugging Protection", "No processes to test debugging protection")
  | ProcessNameLegitimacy =>
      Some ("Process Name Legitimacy", "No processes to test name legitimacy")
  | _ => None
  end.

(** The object after [add_result]. *)
Definition with_result (w : Platform) (name : string) (p : bool) (d s : string)
  (self : StealthTester) : StealthTester :=
  set_results (results self ++ [mk_TestResult name p d s (now_isoformat w)])%list self.

(** The first error of the screen capture, in program order. *)
Definition capture_error (sc : ScreenCapture) : option exn :=
  match mss_open sc, monitor_1 sc, grab sc, to_png sc with
  | Raise e, _, _, _ => Some e
  | Ok _, Raise e, _, _ => Some e
  | Ok _, Ok _, Raise e, _ => Some e
  | Ok _, Ok _, Ok _, Raise e => Some e
  | Ok _, Ok _, Ok _, Ok _ =>
      if path_exists sc
      then match getsize sc with Raise e => Some e | Ok _ => None end
      else None
  end.

(** The probes all of whose platform calls stand under an
    [except Exception]. *)
Definition catches_every_exception : list probe :=
  [ TasklistDetection; WmicDetection; PowershellDetection; TaskbarPresence;
    AltTabVisibility; ScreenCaptureProtection; ProcessInjectionResistance;
    DebuggingProtection ].

(** The probes whose calls on a process stand under
    [except (psutil.NoSuchProcess, psutil.AccessDenied)] alone. *)
Definition catches_psutil_errors : list probe :=
  [ ProcessTree; NetworkConnections; MemoryUsage; CpuUsage; ProcessNameLegitimacy ].

(** No call on a process raises anything but the two psutil errors. *)
Definition only_psutil_errors (w : Platform) : Prop :=
  (forall p e, proc_name w p = Raise e -> is_psutil_error e = true)
  /\ (forall p e, proc_parent w p = Raise e -> is_psutil_error e = true)
  /\ (forall p e, proc_connections w p = Raise e -> is_psutil_error e = true)
  /\ (forall p e, proc_memory_info_rss w p = Raise e -> is_psutil_error e = true)
  /\ (forall i p e, proc_cpu_percent w i p = Raise e -> is_psutil_error e = true).

(** ** Sample platforms *)

Module Demo.

Definition app : Process := {| pid := 4242; info_name := Ok "MyDRMApp.exe" |}.
Definition explorer : Process := {| pid := 1000; info_name := Ok "explorer.exe" |}.

Definition no_such_process : exn := mk_exn NoSuchProcess "process no longer exists (pid=4242)".
Definition access_denied : exn := mk_exn AccessDenied "(pid=4242)".
Definition timeout_expired : exn :=
  mk_exn OtherException "Command '['tasklist', '/fo', 'csv']' timed out after 10 seconds".
Definition capture_failed : exn := mk_exn OtherException "gdi32.GetDIBits() failed.".
Definition iteration_failed : exn := mk_exn OtherException "[WinError 5] Access is denied".

(** Nothing to see: no process, no window, empty command output, and a
    screen capture that writes a small file. *)
Definition quiet : Platform :=
  {| now_isoformat := "2024-05-01T12:00:00.000000";
     now_strftime := "20240501_120000";
     platform_system := "Windows";
     platform_release := "10";
     process_iter := ([], None);
     subprocess_run := fun _ => Ok {| returncode := 0; stdout := EmptyString |};
     EnumWindows := ([], None);
     IsWindowVisible := fun _ => Ok false;
     GetWindowText := fun _ => Ok EmptyString;
     GetWindowLong := fun _ _ => Ok 0;
     proc_name := info_name;
     proc_parent := fun _ => Ok None;
     proc_connections := fun _ => Ok [];
     proc_memory_info_rss := fun _ => Ok 0;
     proc_cpu_percent := fun _ _ => Ok 0%float;
     compensated_sum := false;
     OpenProcess := fun _ _ => Raise access_denied;
     CloseHandle := fun _ => Ok tt;
     DebugActiveProcess := fun _ => Raise access_denied;
     DebugActiveProcessStop := fun _ => Ok tt;
     screen := {| mss_open := Ok tt; monitor_1 := Ok tt; grab := Ok tt;
                  to_png := Ok tt; path_exists := true; getsize := Ok 512 |} |}.

(** One process, MyDRMApp.exe, started by explorer.exe, with 600 MB of
    resident memory and the CPU samples 10, 20, 30, 70, 15; a titled
    window 1001 and an untitled window 1002, both visible. *)
Definition busy : Platform :=
  {| now_isoformat := "2024-05-01T12:00:00.000000";
     now_strftime := "20240501_120000";
     platform_system := "Windows";
     platform_release := "10";
     process_iter := ([explorer; app], None);
     subprocess_run :=
       fun _ => Ok {| returncode := 0; stdout := "Image Name,PID MyDRMApp.exe,4242" |};
     EnumWindows := ([1001; 1002], None);
     IsWindowVisible := fun _ => Ok true;
     GetWindowText :=
       fun hwnd => if hwnd =? 1001 then Ok "DRM Protected Content" else Ok EmptyString;
     GetWindowLong :=
       fun _ index => if index =? win32con.GWL_STYLE then Ok win32con.WS_VISIBLE else Ok 0;
     proc_name := info_name;
     proc_parent := fun _ => Ok (Some explorer);
     proc_connections := fun _ => Ok [ {| raddr := Some ("127.0.0.1", 8080) |} ];
     proc_memory_info_rss := fun _ => Ok 629145600;
     proc_cpu_percent :=
       fun i _ => Ok (nth i [10; 20; 30; 70; 15] 0)%float;
     compensated_sum := false;
     OpenProcess := fun _ _ => Raise access_denied;
     CloseHandle := fun _ => Ok tt;
     DebugActiveProcess := fun _ => Raise access_denied;
     DebugActiveProcessStop := fun _ => Ok tt;
     screen := {| mss_open := Ok tt; monitor_1 := Ok tt; grab := Ok tt;
                  to_png := Ok tt; path_exists := true; getsize := Ok 250000 |} |}.

Definition with_screen (sc : ScreenCapture) (w : Platform) : Platform :=
  {| now_isoformat := now_isoformat w; now_strftime := now_strftime w;
     platform_system := platform_system w; platform_release := platform_release w;
     process_iter := process_iter w; subprocess_run := subprocess_run w;
     EnumWindows := EnumWindows w; IsWindowVisible := IsWindowVisible w;
     GetWindowText := GetWindowText w; GetWindowLong := GetWindowLong w;
     proc_name := proc_name w; proc_parent := proc_parent w;
     proc_connections := proc_connections w;
     proc_memory_info_rss := proc_memory_info_rss w;
     proc_cpu_percent := proc_cpu_percent w;
     compensated_sum := compensated_sum w;
     OpenProcess := OpenProcess w; CloseHandle := CloseHandle w;
     DebugActiveProcess := DebugActiveProcess w;
     DebugActiveProcessStop := DebugActiveProcessStop w;
     screen := sc |}.

Definition with_proc_name (f : Process -> outcome string) (w : Platform) : Platform :=
  {| now_isoformat := now_isoformat w; now_strftime := now_strftime w;
     platform_system := platform_system w; platform_release := platform_release w;
     process_iter := process_iter w; subprocess_run := subprocess_run w;
     EnumWindows := EnumWindows w; IsWindowVisible := IsWindowVisible w;
     GetWindowText := GetWindowText w; GetWindowLong := GetWindowLong w;
     proc_name := f; proc_parent := proc_parent w;
     proc_connections := proc_connections w;
     proc_memory_info_rss := proc_memory_info_rss w;
     proc_cpu_percent := proc_cpu_percent w;
     compensated_sum := compensated_sum w;
     OpenProcess := OpenProcess w; CloseHandle := CloseHandle w;
     DebugActiveProcess := DebugActiveProcess w;
     DebugActiveProcessStop := DebugActiveProcessStop w;
     screen := screen w |}.

Definition with_process_iter (it : list Process * option exn) (w : Platform)
  : Platform :=
  {| now_isoformat := now_isoformat w; now_strftime := now_strftime w;
     platform_system := platform_system w; platform_release := platform_release w;
     process_iter := it; subprocess_run := subprocess_run w;
     EnumWindows := EnumWindows w; IsWindowVisible := IsWindowVisible w;
     GetWindowText := GetWindowText w; GetWindowLong := GetWindowLong w;
     proc_name := proc_name w; proc_parent := proc_parent w;
     proc_connections := proc_connections w;
     proc_memory_info_rss := proc_memory_info_rss w;
     proc_cpu_percent := proc_cpu_percent w;
     compensated_sum := compensated_sum w;
     OpenProcess := OpenProcess w; CloseHandle := CloseHandle w;
     DebugActiveProcess := DebugActiveProcess w;
     DebugActiveProcessStop := DebugActiveProcessStop w;
     screen := screen w |}.

Definition with_subprocess_run (f : list string -> outcome CompletedProcess)
  (w : Platform) : Platform :=
  {| now_isoformat := now_isoformat w; now_strftime := now_strftime w;
     platform_system := platform_system w; platform_release := platform_release w;
     process_iter := process_iter w; subprocess_run := f;
     EnumWindows := EnumWindows w; IsWindowVisible := IsWindowVisible w;
     GetWindowText := GetWindowText w; GetWindowLong := GetWindowLong w;
     proc_name := proc_name w; proc_parent := proc_parent w;
     proc_connections := proc_connections w;
     proc_memory_info_rss := proc_memory_info_rss w;
     proc_cpu_percent := proc_cpu_percent w;
     compensated_sum := compensated_sum w;
     OpenProcess := OpenProcess w; CloseHandle := CloseHandle w;
     DebugActiveProcess := DebugActiveProcess w;
     DebugActiveProcessStop := DebugActiveProcessStop w;
     screen := screen w |}.

(** The screen capture fails at [sct.grab]. *)
Definition capture_fails : Platform :=
  with_screen {| mss_open := Ok tt; monitor_1 := Ok tt; grab := Raise capture_failed;
                 to_png := Ok tt; path_exists := false; getsize := Ok 0 |} quiet.

(** The iteration over the processes fails. *)
Definition iteration_fails : Platform :=
  with_process_iter ([], Some iteration_failed) quiet.

(** The commands time out. *)
Definition commands_time_out : Platform :=
  with_subprocess_run (fun _ => Raise timeout_expired) quiet.

(** As [busy], but the process is gone when its name is asked for. *)
Definition vanishing : Platform :=
  with_proc_name (fun _ => Raise no_such_process) busy.

(** The tester of [python stealth_tester.py MyDRMApp]. *)
Definition tester : StealthTester := init "MyDRMApp" EmptyString.

(** The tester once the first probe has found the process on [busy]. *)
Definition tracking : StealthTester := snd (test_psutil_detection busy tester).

End Demo.

(** [self'] is [self] with results appended, each of them satisfying [P];
    the two filters are the same. *)
Definition extends_with (P : TestResult -> Prop) (self self' : StealthTester) : Prop :=
  process_name self' = process_name self
  /\ window_title self' = window_title self
  /\ exists new, results self' = (results self ++ new)%list /\ Forall P new.

(** A failure is 'medium', 'high' or 'critical'. *)
Definition failure_is_graded (r : TestResult) : Prop :=
  passed r = false ->
  severity r = "medium" \/ severity r = "high" \/ severity r = "critical".

(** The keys of the persisted report, of one of its test results and of its
    summary, in the order they are written. *)
Definition report_keys : list string :=
  ["timestamp"; "target_process"; "target_window"; "platform"; "total_tests";
   "passed_tests"; "score_percentage"; "test_results"; "summary"].

Definition result_keys : list string :=
  ["test"; "passed"; "details"; "severity"; "timestamp"].

Definition summary_keys : list string :=
  ["critical_issues"; "high_issues"; "medium_issues"; "low_issues"].

(** The window match as the claim words it: a visible window matches if
    and only if the filter is empty or its title contains the filter,
    letter case apart (so that, the filter empty, an untitled window
    matches). *)
Definition window_match_as_claimed : Prop :=
  forall (w : Platform) (name filter : string) (hwnd : Z) (title : string),
    snd (EnumWindows w) = None ->
    In hwnd (fst (EnumWindows w)) ->
    IsWindowVisible w hwnd = Ok true ->
    GetWindowText w hwnd = Ok title ->
    exists windows,
      find_target_windows w (init name filter) = Ok windows
      /\ (In (hwnd, title) windows
          <-> filter = EmptyString
              \/ Py.contains (Py.lower filter) (Py.lower title) = true).

(** The entry of [high_memory_procs] a process contributes, if any: its
    memory is read and exceeds 500 MB, and its name is read. *)
Definition high_memory_entry (w : Platform) (proc : Process) : option string :=
  match proc_memory_info_rss w proc with
  | Ok rss =>
      if Qgtb (memory_mb_of rss) 500 then
        match proc_name w proc with
        | Ok name => Some (name ++ ": " ++ Py.format_1f (memory_mb_of rss) ++ "MB")
        | Raise _ => None
        end
      else None
  | Raise _ => None
  end.

Definition high_memory_entries (w : Platform) (procs : list Process) : list string :=
  flat_map (fun proc => match high_memory_entry w proc with
                        | Some entry => [entry]
                        | None => []
                        end) procs.

(** The memory verdict as the claim words it: with matched processes, the
    probe fails at 'medium' if and only if the resident memory of some
    matched process exceeds 500 MB. *)
Definition memory_verdict_as_claimed : Prop :=
  forall (w : Platform) (self : StealthTester),
    target_processes self <> [] ->
    exists r,
      test_memory_usage w self = (Ok tt, set_results (results self ++ [r])%list self)
      /\ ((passed r = false /\ severity r = "medium")
          <-> exists proc rss,
                In proc (target_processes self)
                /\ proc_memory_info_rss w proc = Ok rss
                /\ (500 < memory_mb_of rss)%Q).

(** ** The score in binary64 *)

(** The expression of the score in Python's own floats:
    [(passed_tests / total_tests * 100) if total_tests > 0 else 0]. *)
Definition float_score (passed_tests total_tests : nat) : float :=
  if (0 <? total_tests)%nat
  then PrimFloat.mul (PrimFloat.div (float_of_nat passed_tests) (float_of_nat total_tests))
         100%float
  else 0%float.

(** The float score lies between 0 and 100 and falls on the same side of
    the thresholds 70 and 85 as the exact percentage. *)
Definition float_score_agrees (passed_tests total_tests : nat) : bool :=
  let f := float_score passed_tests total_tests in
  let q := percentage passed_tests total_tests in
  PrimFloat.leb 0%float f && PrimFloat.leb f 100%float
  && Bool.eqb (PrimFloat.ltb f 70%float) (Qltb q 70)
  && Bool.eqb (PrimFloat.ltb f 85%float) (Qltb q 85).

(** ** Reading the loops of the probes *)

(** The test of [find_target_processes] on one process: its name is read
    and contains the filter, letter case of the name apart. *)
Definition process_matches (self : StealthTester) (proc : Process) : bool :=
  match info_name proc with
  | Ok name => Py.contains (process_name self) (Py.lower name)
  | Raise _ => false
  end.

(** The name of a matched process, [p.info['name']]. *)
Definition info_name_text (proc : Process) : string :=
  match info_name proc with
  | Ok name => name
  | Raise _ => EmptyString
  end.

(** The lines of the PowerShell output that are not blank,
    [[line for line in output.split('\n') if line.strip()]]. *)
Definition nonblank_lines (output : string) : list string :=
  filter (fun line => Py.truthy (Py.strip line)) (Py.split_nl output).

(** The test of the loop of [test_taskbar_presence] on one window: both
    styles are read, the extended style has no WS_EX_TOOLWINDOW and the
    style has WS_VISIBLE. *)
Definition in_taskbar (w : Platform) (window : Z * string) : bool :=
  match GetWindowLong w (fst window) win32con.GWL_EXSTYLE,
        GetWindowLong w (fst window) win32con.GWL_STYLE with
  | Ok ex_style, Ok style =>
      negb (nonzero (Z.land ex_style win32con.WS_EX_TOOLWINDOW))
      && nonzero (Z.land style win32con.WS_VISIBLE)
  | _, _ => false
  end.

(** The test of the loop of [test_alt_tab_visibility] on one window: it is
    visible, its extended style is read and has no WS_EX_TOOLWINDOW, and
    its title is not blank. *)
Definition in_alt_tab (w : Platform) (window : Z * string) : bool :=
  match IsWindowVisible w (fst window) with
  | Ok true =>
      match GetWindowLong w (fst window) win32con.GWL_EXSTYLE with
      | Ok ex_style =>
          negb (nonzero (Z.land ex_style win32con.WS_EX_TOOLWINDOW))
          && Py.truthy (Py.strip (snd window))
      | Raise _ => false
      end
  | _ => false
  end.

(** The access [test_process_injection_resistance] asks for. *)
Definition injection_access : Z :=
  Z.lor win32con.PROCESS_VM_WRITE win32con.PROCESS_VM_OPERATION.

(** The process counts as a successful injection: [OpenProcess] with the
    injection access returns a handle that is not null. *)
Definition injectable (w : Platform) (proc : Process) : bool :=
  match OpenProcess w injection_access (pid proc) with
  | Ok handle => nonzero handle
  | Raise _ => false
  end.

(** The process counts as a successful debug: [OpenProcess] with all
    access returns a handle that is not null and [DebugActiveProcess]
    returns. *)
Definition debuggable (w : Platform) (proc : Process) : bool :=
  match OpenProcess w win32con.PROCESS_ALL_ACCESS (pid proc) with
  | Ok handle =>
      nonzero handle
      && match DebugActiveProcess w (pid proc) with
         | Ok _ => true
         | Raise _ => false
         end
  | Raise _ => false
  end.

(** What the loop of [test_process_tree] appends for one process: the
    entry child→parent when the parent is read, its lowercased name is not
    in [legitimate_parents] and the name of the process is read. *)
Definition suspicious_parent (w : Platform) (proc : Process) : list string :=
  match proc_parent w proc with
  | Ok (Some parent) =>
      match proc_name w parent with
      | Ok pname =>
          if negb (Py.in_list (Py.lower pname) legitimate_parents) then
            match proc_name w proc with
            | Ok name => [name ++ "→" ++ Py.lower pname]
            | Raise _ => []
            end
          else []
      | Raise _ => []
      end
  | _ => []
  end.

(** The queries of [test_process_tree] on the processes of [procs] raise
    nothing but the two psutil errors. *)
Definition tree_errors_benign (w : Platform) (procs : list Process) : Prop :=
  forall proc, In proc procs ->
    (forall e, proc_parent w proc = Raise e -> is_psutil_error e = true)
    /\ (forall e, proc_name w proc = Raise e -> is_psutil_error e = true)
    /\ (forall parent e, proc_parent w proc = Ok (Some parent) ->
                         proc_name w parent = Raise e -> is_psutil_error e = true).

(** What the loop of [test_process_name_legitimacy] appends for one
    process: its lowercased name, when it is read and contains none of the
    [legitimate_patterns]. *)
Definition suspicious_name (w : Platform) (proc : Process) : list string :=
  match proc_name w proc with
  | Ok n =>
      if negb (existsb (fun pattern => Py.contains pattern (Py.lower n))
                 legitimate_patterns)
      then [Py.lower n]
      else []
  | Raise _ => []
  end.

(** The connections of a process, as far as they are read. *)
Definition connections_seen (w : Platform) (proc : Process) : list sconn :=
  match proc_connections w proc with
  | Ok connections => connections
  | Raise _ => []
  end.

(** The entries of [suspicious_connections] for a list of connections:
    ip:port of each remote address that is neither 127.0.0.1 nor ::1. *)
Definition external_addresses (connections : list sconn) : list string :=
  flat_map
    (fun conn =>
       match raddr conn with
       | Some (ip, port) =>
           if negb (Py.in_list ip ["127.0.0.1"; "::1"])
           then [ip ++ ":" ++ Py.str_of_Z port]
           else []
       | None => []
       end)
    connections.

(** The memory of a process in MB, as far as it is read. *)
Definition memory_read (w : Platform) (proc : Process) : list Q :=
  match proc_memory_info_rss w proc with
  | Ok rss => [memory_mb_of rss]
  | Raise _ => []
  end.

(** The average of the i-th round over all the processes, when each of
    them answers [usage i]: [total_cpu], summed in binary64 from 0.0 in
    the order of the processes, divided in binary64 by their number. *)
Definition round_average (usage : nat -> Process -> float) (procs : list Process)
  (i : nat) : float :=
  PrimFloat.div (fold_left PrimFloat.add (map (usage i) procs) 0%float)
    (float_of_nat (List.length procs)).

(** A platform whose processes answer [cpu_percent] as [f] says. *)
Definition with_cpu_percent (f : nat -> Process -> outcome float) (w : Platform)
  : Platform :=
  {| now_isoformat := now_isoformat w; now_strftime := now_strftime w;
     platform_system := platform_system w; platform_release := platform_release w;
     process_iter := process_iter w; subprocess_run := subprocess_run w;
     EnumWindows := EnumWindows w; IsWindowVisible := IsWindowVisible w;
     GetWindowText := GetWindowText w; GetWindowLong := GetWindowLong w;
     proc_name := proc_name w; proc_parent := proc_parent w;
     proc_connections := proc_connections w;
     proc_memory_info_rss := proc_memory_info_rss w;
     proc_cpu_percent := f;
     compensated_sum := compensated_sum w;
     OpenProcess := OpenProcess w; CloseHandle := CloseHandle w;
     DebugActiveProcess := DebugActiveProcess w;
     DebugActiveProcessStop := DebugActiveProcessStop w;
     screen := screen w |}.

(** A platform whose interpreter sums as [compensated] says. *)
Definition with_compensated_sum (compensated : bool) (w : Platform) : Platform :=
  {| now_isoformat := now_isoformat w; now_strftime := now_strftime w;
     platform_system := platform_system w; platform_release := platform_release w;
     process_iter := process_iter w; subprocess_run := subprocess_run w;
     EnumWindows := EnumWindows w; IsWindowVisible := IsWindowVisible w;
     GetWindowText := GetWindowText w; GetWindowLong := GetWindowLong w;
     proc_name := proc_name w; proc_parent := proc_parent w;
     proc_connections := proc_connections w;
     proc_memory_info_rss := proc_memory_info_rss w;
     proc_cpu_percent := proc_cpu_percent w;
     compensated_sum := compensated;
     OpenProcess := OpenProcess w; CloseHandle := CloseHandle w;
     DebugActiveProcess := DebugActiveProcess w;
     DebugActiveProcessStop := DebugActiveProcessStop w;
     screen := screen w |}.

(** The float of the decimal [n / 10], as Python reads the literal: 288
    gives 28.8. *)
Definition tenths (n : nat) : float :=
  PrimFloat.div (float_of_nat n) 10%float.

(** Three processes that answer 28.8, 99.4 and 21.8 in every round. *)
Definition trio : list Process :=
  [ {| pid := 1; info_name := Ok "a.exe" |};
    {| pid := 2; info_name := Ok "b.exe" |};
    {| pid := 3; info_name := Ok "c.exe" |} ].

Definition trio_usage (p : Process) : float :=
  if (pid p =? 1)%Z then tenths 288
  else if (pid p =? 2)%Z then tenths 994
  else tenths 218.

Definition trio_platform : Platform :=
  with_cpu_percent (fun _ p => Ok (trio_usage p)) Demo.quiet.

Definition trio_tester : StealthTester :=
  set_target_processes trio Demo.tester.

(** One process that answers 1.75 in the first round and 0 afterwards. *)
Definition spike_platform : Platform :=
  with_cpu_percent (fun i _ => Ok (nth i [1.75; 0; 0; 0; 0] 0)%float) Demo.quiet.

(** The name under which a probe reports, the first argument of its calls
    of [add_result]. *)
Definition probe_name (p : probe) : string :=
  match p with
  | PsutilDetection => "PSUtil Process Detection"
  | TasklistDetection => "TaskList Detection"
  | WmicDetection => "WMIC Detection"
  | PowershellDetection => "PowerShell Detection"
  | WindowEnumeration => "Win32 Window Enumeration"
  | TaskbarPresence => "Taskbar Presence"
  | AltTabVisibility => "Alt+Tab Visibility"
  | ProcessTree => "Process Tree Analysis"
  | NetworkConnections => "Network Connections"
  | MemoryUsage => "Memory Usage"
  | CpuUsage => "CPU Usage"
  | ScreenCaptureProtection => "Screen Capture Protection"
  | ProcessInjectionResistance => "Process Injection Resistance"
  | DebuggingProtection => "Anti-Debugging Protection"
  | ProcessNameLegitimacy => "Process Name Legitimacy"
  end.

(** What [enum_window_callback] appends for one handle: the window with
    its title, when it is visible, its title is read and it matches. *)
Definition matched_window (w : Platform) (self : StealthTester) (hwnd : Z)
  : list (Z * string) :=
  match IsWindowVisible w hwnd with
  | Ok true =>
      match GetWindowText w hwnd with
      | Ok title => if window_matches self title then [(hwnd, title)] else []
      | Raise _ => []
      end
  | _ => []
  end.

(** The recommendation for [passed_tests] passes out of fifteen results. *)
Definition recommendation_of_fifteen (passed_tests : nat) : tier :=
  if (passed_tests <=? 10)%nat then ImmediateAction
  else if (passed_tests <=? 12)%nat then NeedsImprovement
  else Excellent.
(** ** Properties of the monad and of the probes *)

Ltac unfold_monad :=
  cbv beta iota zeta delta
    [bind ret lift get_self modify try_except add_result
     set_results set_target_processes set_target_windows Py.append].

Ltac case_split :=
  match goal with
  | |- context [match ?x with _ => _ end] =>
      lazymatch x with
      | context [match _ with _ => _ end] => fail
      | _ => destruct x eqn:?
      end
  end.

Ltac run_probe_cases :=
  repeat (unfold_monad;
          cbn [process_name window_title results target_processes target_windows];
          try case_split).

Lemma self_eta (self : StealthTester) :
  mk_StealthTester (process_name self) (window_title self) (results self)
    (target_processes self) (target_windows self) = self.
Proof. destruct self; reflexivity. Qed.

Lemma tasklist_post w self : probe_post w self (test_tasklist_detection w self).
Proof.
  unfold test_tasklist_detection.
  run_probe_cases; now constructor.
Qed.

Ltac solve_post unfolding :=
  unfolding; run_probe_cases;
  cbn [process_name window_title results target_processes target_windows];
  first [ now constructor
        | match goal with
          | |- probe_post _ ?self (Ok tt, _) =>
              rewrite <- (self_eta self) at 1; now constructor
          end ].

Lemma psutil_post w self : probe_post w self (test_psutil_detection w self).
Proof. solve_post ltac:(unfold test_psutil_detection). Qed.

Lemma wmic_post w self : probe_post w self (test_wmic_detection w self).
Proof. solve_post ltac:(unfold test_wmic_detection). Qed.

Lemma powershell_post w self : probe_post w self (test_powershell_detection w self).
Proof. solve_post ltac:(unfold test_powershell_detection). Qed.

Lemma window_enumeration_post w self :
  probe_post w self (test_window_enumeration w self).
Proof. solve_post ltac:(unfold test_window_enumeration). Qed.

Lemma taskbar_post w self : probe_post w self (test_taskbar_presence w self).
Proof. solve_post ltac:(unfold test_taskbar_presence). Qed.

Lemma alt_tab_post w self : probe_post w self (test_alt_tab_visibility w self).
Proof. solve_post ltac:(unfold test_alt_tab_visibility). Qed.

Lemma process_tree_post w self : probe_post w self (test_process_tree w self).
Proof. solve_post ltac:(unfold test_process_tree). Qed.

Lemma network_post w self : probe_post w self (test_network_connections w self).
Proof. solve_post ltac:(unfold test_network_connections). Qed.

Lemma memory_post w self : probe_post w self (test_memory_usage w self).
Proof. solve_post ltac:(unfold test_memory_usage). Qed.

Lemma cpu_post w self : probe_post w self (test_cpu_usage w self).
Proof. solve_post ltac:(unfold test_cpu_usage). Qed.

Lemma screen_capture_post w self :
  probe_post w self (test_screen_capture_protection w self).
Proof. solve_post ltac:(unfold test_screen_capture_protection). Qed.

Lemma injection_post w self :
  probe_post w self (test_process_injection_resistance w self).
Proof. solve_post ltac:(unfold test_process_injection_resistance). Qed.

Lemma debugging_post w self : probe_post w self (test_debugging_protection w self).
Proof. solve_post ltac:(unfold test_debugging_protection). Qed.

Lemma name_legitimacy_post w self :
  probe_post w self (test_process_name_legitimacy w self).
Proof. solve_post ltac:(unfold test_process_name_legitimacy). Qed.

Lemma run_probe_post p w self : probe_post w self (run_probe p w self).
Proof.
  destruct p; simpl;
    auto using psutil_post, tasklist_post, wmic_post, powershell_post,
      window_enumeration_post, taskbar_post, alt_tab_post, process_tree_post,
      network_post, memory_post, cpu_post, screen_capture_post, injection_post,
      debugging_post, name_legitimacy_post.
Qed.

(** ** The score *)

Lemma count_passed_le (l : list TestResult) : (count_passed l <= List.length l)%nat.
Proof.
  unfold count_passed. induction l as [|r l IH]; simpl; [lia|].
  destruct (passed r); simpl; lia.
Qed.

Lemma count_passed_failed (l : list TestResult) :
  (count_passed l + count_failed l = List.length l)%nat.
Proof.
  unfold count_passed, count_failed. induction l as [|r l IH]; simpl; [lia|].
  destruct (passed r); simpl; lia.
Qed.

Lemma percentage_bounds (p t : nat) :
  (p <= t)%nat -> (0 <= percentage p t)%Q /\ (percentage p t <= 100)%Q.
Proof.
  intros Hpt. unfold percentage. destruct t as [|t].
  - split; [apply Qle_refl | discriminate].
  - assert (Ht : (0 < inject_Z (Z.of_nat (S t)))%Q)
      by (change 0%Q with (inject_Z 0); rewrite <- Zlt_Qlt; lia).
    assert (Hp : (0 <= inject_Z (Z.of_nat p))%Q)
      by (change 0%Q with (inject_Z 0); rewrite <- Zle_Qle; lia).
    assert (Hle : (inject_Z (Z.of_nat p) <= inject_Z (Z.of_nat (S t)))%Q)
      by (rewrite <- Zle_Qle; lia).
    split.
    + apply Qmult_le_0_compat; [|discriminate].
      apply Qle_shift_div_l; [exact Ht|]. now rewrite Qmult_0_l.
    + setoid_replace 100%Q with (1 * 100)%Q at 2 by reflexivity.
      apply Qmult_le_compat_r; [|discriminate].
      apply Qle_shift_div_r; [exact Ht|]. now rewrite Qmult_1_l.
Qed.

Lemma shown_score_percentage (self : StealthTester) :
  shown_score (generate_report self)
  = percentage (count_passed (results self)) (List.length (results self)).
Proof.
  unfold generate_report, percentage; simpl.
  destruct (List.length (results self)); reflexivity.
Qed.

Lemma persisted_score_percentage (w : Platform) (self : StealthTester) :
  exists doc,
    field "score_percentage" (report_data w self) = Some doc
    /\ number doc
       = Some (percentage (count_passed (results self)) (List.length (results self))).
Proof.
  unfold report_data, field, lookup; simpl.
  destruct (results self) as [|r l] eqn:E.
  - exists (JInt 0). split; reflexivity.
  - eexists. split; [reflexivity|]. reflexivity.
Qed.

Lemma Qltb_lt (x y : Q) : Qltb x y = true <-> (x < y)%Q.
Proof.
  unfold Qltb. rewrite negb_true_iff. split.
  - intros H. apply Qnot_le_lt. intros Hle.
    apply Qle_bool_iff in Hle. congruence.
  - intros H. destruct (Qle_bool y x) eqn:E; [|reflexivity].
    apply Qle_bool_iff in E. exfalso. exact (Qlt_not_le _ _ H E).
Qed.

Lemma Qltb_ge (x y : Q) : Qltb x y = false <-> (y <= x)%Q.
Proof.
  unfold Qltb. rewrite negb_false_iff. apply Qle_bool_iff.
Qed.

Lemma Qgtb_gt (x y : Q) : Qgtb x y = true <-> (y < x)%Q.
Proof. exact (Qltb_lt y x). Qed.

Lemma Qgtb_le (x y : Q) : Qgtb x y = false <-> (x <= y)%Q.
Proof. exact (Qltb_ge y x). Qed.

(** For the runs of the catalogue, which hold at most fifteen results, the
    score computed in binary64 is within the bounds and chooses the
    recommendation the exact percentage chooses. *)
Lemma float_score_agrees_up_to_15 :
  forallb (fun total => forallb (fun p => float_score_agrees p total) (seq 0 (S total)))
    (seq 0 16) = true.
Proof. vm_compute. reflexivity. Qed.

(** C1.  For every sequence of results, the score [generate_report] prints
    and the [score_percentage] of the persisted report are both
    passedCount / totalCount x 100, where passedCount counts the results
    that passed and totalCount is the number of results; the score is 0
    when there is no result, and it lies between 0 and 100. *)
Theorem score_is_pass_percentage (w : Platform) (self : StealthTester) :
  let passedCount := List.length (filter (fun r => passed r) (results self)) in
  let totalCount := List.length (results self) in
  shown_score (generate_report self) = percentage passedCount totalCount
  /\ (exists doc,
        field "score_percentage" (report_data w self) = Some doc
        /\ number doc = Some (percentage passedCount totalCount))
  /\ percentage passedCount 0 = 0%Q
  /\ (0 <= percentage passedCount totalCount)%Q
  /\ (percentage passedCount totalCount <= 100)%Q.
Proof.
  intros passedCount totalCount.
  split; [apply shown_score_percentage|].
  split; [apply persisted_score_percentage|].
  split; [reflexivity|].
  apply percentage_bounds. apply count_passed_le.
Qed.

(** C9.  The recommendation [generate_report] prints is fixed by the score
    alone: below 70 it is the immediate-action block, from 70 and below 85
    the needs-improvement block, from 85 on the excellent block; so exactly
    one of the three is chosen. *)
Theorem recommendation_by_thresholds (self : StealthTester) :
  let score := shown_score (generate_report self) in
  let chosen := recommendation (generate_report self) in
  (chosen = ImmediateAction <-> (score < 70)%Q)
  /\ (chosen = NeedsImprovement <-> (70 <= score)%Q /\ (score < 85)%Q)
  /\ (chosen = Excellent <-> (85 <= score)%Q).
Proof.
  intros score chosen.
  assert (Hc : chosen = if Qltb score 70 then ImmediateAction
                        else if Qltb score 85 then NeedsImprovement
                        else Excellent) by reflexivity.
  assert (H7085 : (70 <= 85)%Q) by discriminate.
  destruct (Qltb score 70) eqn:E70; destruct (Qltb score 85) eqn:E85;
    rewrite Hc;
    repeat match goal with
           | H : Qltb _ _ = true |- _ => apply Qltb_lt in H
           | H : Qltb _ _ = false |- _ => apply Qltb_ge in H
           end.
  - repeat split; intros; try discriminate; try assumption.
    + exfalso. destruct H as [H _]. exact (Qlt_not_le _ _ E70 H).
    + exfalso. exact (Qlt_not_le _ _ E85 H).
  - repeat split; intros; try discriminate; try assumption.
    + exfalso. destruct H as [H _]. exact (Qlt_not_le _ _ E70 H).
    + exfalso. apply (Qlt_not_le _ _ E70). now apply Qle_trans with 85%Q.
  - repeat split; intros; try discriminate; try assumption.
    + exfalso. exact (Qlt_not_le _ _ H E70).
    + exfalso. exact (Qlt_not_le _ _ E85 H).
  - repeat split; intros; try discriminate; try assumption.
    + exfalso. exact (Qlt_not_le _ _ H E70).
    + exfalso. destruct H as [_ H]. exact (Qlt_not_le _ _ H E85).
Qed.

(** ** Absent inputs *)

(** C3.  A probe that works on a list of the snapshot, called when the list
    is empty, returns normally and appends one result: passed, with the
    explanation of its guard and severity 'low'. *)
Theorem absent_inputs_pass_low (p : probe) (w : Platform) (self : StealthTester) :
  inputs_absent p self ->
  exists name explanation,
    absence_report p = Some (name, explanation)
    /\ explanation <> EmptyString
    /\ run_probe p w self = (Ok tt, with_result w name true explanation "low" self).
Proof.
  unfold inputs_absent, with_result.
  destruct self as [pn wt rs procs wins].
  destruct p; simpl; intros H; try contradiction; subst;
    do 2 eexists; (split; [reflexivity|]); (split; [discriminate|]);
    reflexivity.
Qed.

(** The memory probe on a tester that has no process yet. *)
Lemma absent_inputs_pass_low_witness :
  inputs_absent MemoryUsage Demo.tester
  /\ exists name explanation,
       absence_report MemoryUsage = Some (name, explanation)
       /\ explanation <> EmptyString
       /\ run_probe MemoryUsage Demo.busy Demo.tester
          = (Ok tt, with_result Demo.busy name true explanation "low" Demo.tester).
Proof.
  split; [reflexivity|].
  apply (absent_inputs_pass_low MemoryUsage Demo.busy Demo.tester). reflexivity.
Defined.

(** ** What a run appends *)

Lemma extends_with_refl P self : extends_with P self self.
Proof.
  repeat split. exists []. split; [now rewrite app_nil_r | constructor].
Qed.

Lemma extends_with_trans P a b c :
  extends_with P a b -> extends_with P b c -> extends_with P a c.
Proof.
  intros (Hn1 & Hw1 & n1 & Hr1 & HP1) (Hn2 & Hw2 & n2 & Hr2 & HP2).
  repeat split; try congruence.
  exists (n1 ++ n2)%list. split.
  - rewrite Hr2, Hr1. now rewrite app_assoc.
  - apply Forall_app. now split.
Qed.

Lemma bind_extends {A B} P (m : M A) (k : A -> M B) :
  (forall self, extends_with P self (snd (m self))) ->
  (forall a self, extends_with P self (snd (k a self))) ->
  forall self, extends_with P self (snd (bind m k self)).
Proof.
  intros Hm Hk self. unfold bind. specialize (Hm self).
  destruct (m self) as [[a|e] self']; simpl in *; [|exact Hm].
  eapply extends_with_trans; [exact Hm | apply Hk].
Qed.

Lemma probe_extends p w self :
  extends_with (fun r => verdict_ok r = true) self (snd (run_probe p w self)).
Proof.
  destruct (run_probe_post p w self); simpl.
  - apply extends_with_refl.
  - repeat split. eexists. split; [reflexivity|]. now repeat constructor.
Qed.

Lemma run_probes_extends w l : forall i self,
  extends_with (fun r => verdict_ok r = true) self (snd (run_probes w i l self)).
Proof.
  induction l as [|p l IH]; intros i self; simpl.
  - apply extends_with_refl.
  - apply bind_extends; [intros; apply probe_extends | intros; apply IH].
Qed.

Lemma run_all_tests_extends w self :
  extends_with (fun r => verdict_ok r = true) self (snd (run_all_tests w self)).
Proof.
  unfold run_all_tests.
  repeat (apply bind_extends;
          [intros; first [apply (probe_extends PsutilDetection)
                         | apply (probe_extends TasklistDetection)
                         | apply (probe_extends WmicDetection)
                         | apply (probe_extends PowershellDetection)
                         | apply (probe_extends WindowEnumeration)
                         | apply (probe_extends TaskbarPresence)
                         | apply (probe_extends AltTabVisibility)
                         | apply (probe_extends ProcessTree)
                         | apply (probe_extends NetworkConnections)
                         | apply (probe_extends MemoryUsage)
                         | apply (probe_extends CpuUsage)
                         | apply (probe_extends ScreenCaptureProtection)
                         | apply (probe_extends ProcessInjectionResistance)
                         | apply (probe_extends DebuggingProtection)
                         | apply (probe_extends ProcessNameLegitimacy)
                         | apply extends_with_refl]
          | intros ]).
  apply extends_with_refl.
Qed.

(** [run_all_tests] runs the catalogue in order and then reports. *)
Lemma run_all_tests_catalogue w self :
  run_all_tests w self
  = match run_probes w 0 catalogue self with
    | (Ok _, self') => (Ok (generate_report self'), self')
    | (Raise e, self') => (Raise e, self')
    end.
Proof.
  unfold run_all_tests, catalogue. cbn [run_probes run_probe].
  unfold bind, ret, get_self.
  repeat match goal with
         | |- context [match ?f (w ?i) ?s with _ => _ end] =>
             destruct (f (w i) s) as [[[]|?] ?]
         end; reflexivity.
Qed.

(** Probes that all return append one result each. *)
Lemma run_probes_appends w l : forall i self self',
  run_probes w i l self = (Ok tt, self') ->
  List.length (results self') = (List.length (results self) + List.length l)%nat.
Proof.
  induction l as [|p l IH]; intros i self self'; cbn [run_probes].
  - unfold ret. intros [= <-]. simpl. lia.
  - unfold bind. destruct (run_probe_post p (w i) self); [discriminate|].
    intros Hrun. apply IH in Hrun. rewrite Hrun. cbn [results].
    rewrite length_app. simpl. lia.
Qed.

(** A run that completes leaves fifteen results. *)
Lemma completed_run_has_fifteen_results w name title console self' :
  run_all_tests w (init name title) = (Ok console, self') ->
  List.length (results self') = 15%nat /\ console = generate_report self'.
Proof.
  rewrite run_all_tests_catalogue.
  destruct (run_probes w 0 catalogue (init name title)) as [[[]|e] s] eqn:E;
    [|discriminate].
  intros [= <- <-]. split; [|reflexivity].
  apply run_probes_appends in E. exact E.
Qed.

Lemma run_results_verdicts w process_name window_title :
  Forall (fun r => verdict_ok r = true)
    (results (snd (run_all_tests w (init process_name window_title)))).
Proof.
  destruct (run_all_tests_extends w (init process_name window_title))
    as (_ & _ & new & Hr & HP).
  now rewrite Hr.
Qed.

Lemma verdict_ok_failure r :
  verdict_ok r = true -> passed r = false ->
  severity r = "medium" \/ severity r = "high" \/ severity r = "critical".
Proof.
  unfold verdict_ok, Py.in_list. intros H Hp. rewrite Hp in H. simpl in H.
  repeat (apply orb_true_iff in H; destruct H as [H|H]);
    try discriminate; apply String.eqb_eq in H; auto.
Qed.

Lemma fails_of_low_empty l :
  Forall (fun r => verdict_ok r = true) l -> fails_of "low" l = [].
Proof.
  induction 1 as [|r l Hr _ IH]; [reflexivity|].
  unfold fails_of in *. simpl. rewrite IH.
  destruct (passed r) eqn:Hp; [reflexivity|].
  destruct (verdict_ok_failure r Hr Hp) as [H|[H|H]]; rewrite H; reflexivity.
Qed.

Lemma failures_by_severity l :
  Forall (fun r => verdict_ok r = true) l ->
  (List.length (fails_of "critical" l) + List.length (fails_of "high" l)
   + List.length (fails_of "medium" l) + List.length (fails_of "low" l)
   = count_failed l)%nat.
Proof.
  unfold count_failed.
  induction 1 as [|r l Hr _ IH]; [reflexivity|].
  unfold fails_of in *. simpl.
  destruct (passed r) eqn:Hp; simpl; [exact IH|].
  destruct (verdict_ok_failure r Hr Hp) as [H|[H|H]]; rewrite H; simpl; lia.
Qed.

Lemma failure_in_console l r :
  In r l -> passed r = false -> verdict_ok r = true ->
  In r (fails_of "critical" l) \/ In r (fails_of "high" l)
  \/ In r (fails_of "medium" l).
Proof.
  intros Hin Hp Hv. unfold fails_of.
  destruct (verdict_ok_failure r Hv Hp) as [H|[H|H]];
    [right; right | right; left | left];
    apply filter_In; (split; [exact Hin|]); rewrite Hp, H; reflexivity.
Qed.

(** ** Failures and their severities *)

(** C10.  Whatever a probe appends, a failure among it is 'medium', 'high'
    or 'critical', never 'low'.  So after a run the persisted summary counts
    no low issue, and every failing result is in one of the three lists the
    console summary prints. *)
Theorem no_low_failure (w : nat -> Platform) (wr : Platform)
  (process_name window_title : string) :
  (forall p pw self,
      exists new,
        results (snd (run_probe p pw self)) = (results self ++ new)%list
        /\ Forall failure_is_graded new
        /\ Forall (fun r => ~ (passed r = false /\ severity r = "low")) new)
  /\ let self := snd (run_all_tests w (init process_name window_title)) in
     Forall failure_is_graded (results self)
     /\ (exists summary,
           field "summary" (report_data wr self) = Some summary
           /\ field "low_issues" summary = Some (JInt 0))
     /\ (forall r, In r (results self) -> passed r = false ->
           In r (critical_fails (generate_report self))
           \/ In r (high_fails (generate_report self))
           \/ In r (medium_fails (generate_report self))).
Proof.
  split.
  - intros p pw self.
    destruct (probe_extends p pw self) as (_ & _ & new & Hr & HP).
    exists new. split; [exact Hr|]. split.
    + eapply Forall_impl; [|exact HP].
      intros r Hv Hp. now apply verdict_ok_failure.
    + eapply Forall_impl; [|exact HP].
      intros r Hv [Hp Hlow].
      destruct (verdict_ok_failure r Hv Hp) as [H|[H|H]];
        rewrite H in Hlow; discriminate.
  - intros self.
    pose proof (run_results_verdicts w process_name window_title) as HP.
    fold self in HP. split; [|split].
    + eapply Forall_impl; [|exact HP].
      intros r Hv Hp. now apply verdict_ok_failure.
    + eexists. split; [reflexivity|].
      simpl. now rewrite (fails_of_low_empty _ HP).
    + intros r Hin Hp. simpl.
      apply failure_in_console; [exact Hin | exact Hp |].
      rewrite Forall_forall in HP. now apply HP.
Qed.

(** ** The persisted report *)

(** The document of one result. *)
Lemma result_document_keys (l : list TestResult) :
  Forall (fun item => keys item = result_keys)
    (map (fun r =>
            JDict [ ("test", JStr (test r));
                    ("passed", JBool (passed r));
                    ("details", JStr (details r));
                    ("severity", JStr (severity r));
                    ("timestamp", JStr (timestamp r)) ]) l).
Proof. induction l; constructor; [reflexivity | assumption]. Qed.

(** C4.  The report persisted after a run: its passed count and the number
    of failing results add up to its total; the four counts of its summary
    add up to the number of failing results; and it has exactly the fields
    timestamp, target_process, target_window, platform, total_tests,
    passed_tests, score_percentage, test_results (one entry per result, in
    order, with the fields test, passed, details, severity, timestamp) and
    summary (with the four counts). *)
Theorem persisted_report_consistent (w : nat -> Platform) (wr : Platform)
  (name title : string) :
  let self := snd (run_all_tests w (init name title)) in
  let doc := report_data wr self in
  let failing := List.length (filter (fun r => negb (passed r)) (results self)) in
  keys doc = report_keys
  /\ (exists total passed_tests,
        field "total_tests" doc = Some (JNat total)
        /\ field "passed_tests" doc = Some (JNat passed_tests)
        /\ total = List.length (results self)
        /\ (passed_tests + failing = total)%nat)
  /\ (exists critical high medium low,
        field "summary" doc
        = Some (JDict [ ("critical_issues", JNat critical);
                        ("high_issues", JNat high);
                        ("medium_issues", JNat medium);
                        ("low_issues", JNat low) ])
        /\ (critical + high + medium + low = failing)%nat)
  /\ (exists items,
        field "test_results" doc = Some (JList items)
        /\ items
           = map (fun r =>
                    JDict [ ("test", JStr (test r));
                            ("passed", JBool (passed r));
                            ("details", JStr (details r));
                            ("severity", JStr (severity r));
                            ("timestamp", JStr (timestamp r)) ]) (results self)
        /\ Forall (fun item => keys item = result_keys) items)
  /\ field "timestamp" doc = Some (JStr (now_isoformat wr))
  /\ field "target_process" doc = Some (JStr (Py.lower name))
  /\ field "target_window" doc = Some (JStr (Py.lower title))
  /\ field "platform" doc
     = Some (JStr (platform_system wr ++ " " ++ platform_release wr))
  /\ (exists score, field "score_percentage" doc = Some score
                    /\ number score
                       = Some (percentage (count_passed (results self))
                                 (List.length (results self)))).
Proof.
  intros self doc failing.
  pose proof (run_results_verdicts w name title) as HP. fold self in HP.
  destruct (run_all_tests_extends w (init name title)) as (Hn & Hw & _).
  fold self in Hn, Hw. simpl in Hn, Hw.
  split; [reflexivity|].
  split.
  { do 2 eexists. split; [reflexivity|]. split; [reflexivity|].
    split; [reflexivity|]. apply count_passed_failed. }
  split.
  { do 4 eexists. split; [reflexivity|]. now apply failures_by_severity. }
  split.
  { eexists. split; [reflexivity|]. split; [reflexivity|].
    apply result_document_keys. }
  split; [reflexivity|].
  split; [subst doc; simpl; now rewrite Hn|].
  split; [subst doc; simpl; now rewrite Hw|].
  split; [reflexivity|].
  apply persisted_score_percentage.
Qed.

(** ** The snapshot *)







(** ** The window match *)

Lemma lower_empty (s : string) : Py.lower s = EmptyString <-> s = EmptyString.
Proof. destruct s; simpl; split; intros H; try reflexivity; discriminate. Qed.

Lemma truthy_true (s : string) : Py.truthy s = true <-> s <> EmptyString.
Proof. destruct s; simpl; split; intros H; congruence. Qed.

Lemma window_matches_init (name filter title : string) :
  window_matches (init name filter) title = true
  <-> title <> EmptyString
      /\ (filter = EmptyString
          \/ Py.contains (Py.lower filter) (Py.lower title) = true).
Proof.
  unfold window_matches, init; simpl.
  rewrite andb_true_iff, orb_true_iff, negb_true_iff, truthy_true.
  assert (Hf : Py.truthy (Py.lower filter) = false <-> filter = EmptyString).
  { rewrite <- lower_empty. destruct (Py.lower filter); simpl; split; congruence. }
  rewrite Hf. reflexivity.
Qed.

Lemma callback_In w self hwnd0 title0 hwnd windows :
  In (hwnd0, title0) (enum_window_callback w self windows hwnd)
  <-> In (hwnd0, title0) windows
      \/ (hwnd = hwnd0
          /\ IsWindowVisible w hwnd = Ok true
          /\ GetWindowText w hwnd = Ok title0
          /\ window_matches self title0 = true).
Proof.
  unfold enum_window_callback, otry, obind.
  destruct (IsWindowVisible w hwnd) as [[|]|e]; simpl;
    try (split; [now left | intros [H|(_ & H & _)]; [exact H | discriminate]]).
  destruct (GetWindowText w hwnd) as [title|e]; simpl;
    try (split; [now left | intros [H|(_ & _ & H & _)]; [exact H | discriminate]]).
  destruct (window_matches self title) eqn:Hm; simpl.
  - unfold Py.append. rewrite in_app_iff. simpl. split.
    + intros [H|[H|[]]]; [now left|]. inversion H; subst. right. auto.
    + intros [H|(-> & _ & Ht & _)]; [now left|].
      right. left. congruence.
  - split; [now left|]. intros [H|(_ & _ & Ht & Hm')]; [exact H|].
    inversion Ht; subst. congruence.
Qed.

Lemma fold_callback_In w self hwnd0 title0 l : forall windows,
  In (hwnd0, title0) (fold_left (enum_window_callback w self) l windows)
  <-> In (hwnd0, title0) windows
      \/ (In hwnd0 l
          /\ IsWindowVisible w hwnd0 = Ok true
          /\ GetWindowText w hwnd0 = Ok title0
          /\ window_matches self title0 = true).
Proof.
  induction l as [|hwnd l IH]; intros windows; simpl.
  - split; [now left | intros [H|([] & _)]; exact H].
  - rewrite IH, callback_In. split.
    + intros [[H|(-> & H)]|(Hin & H)]; [now left | right | right]; tauto.
    + intros [H|([->|Hin] & H)]; [now do 2 left | left; right | right]; tauto.
Qed.

(** An untitled visible window is not matched although the filter is
    empty; so the match is not the one claimed. *)
Lemma untitled_window_not_matched :
  window_title Demo.tester = EmptyString
  /\ EnumWindows Demo.busy = ([1001; 1002], None)
  /\ IsWindowVisible Demo.busy 1002 = Ok true
  /\ GetWindowText Demo.busy 1002 = Ok EmptyString
  /\ find_target_windows Demo.busy Demo.tester = Ok [(1001, "DRM Protected Content")]
  /\ ~ window_match_as_claimed.
Proof.
  repeat split.
  intros H.
  destruct (H Demo.busy "MyDRMApp" EmptyString 1002 EmptyString) as (ws & Hf & Hiff);
    try reflexivity; [simpl; auto|].
  vm_compute in Hf. inversion Hf; subst ws.
  destruct Hiff as [_ Hin]. destruct Hin as [Hin|[]]; [now left|].
  inversion Hin.
Qed.

(** C6, amended.  A visible top-level window whose title is read is
    matched if and only if its title is not empty and the filter is empty
    or the title contains the filter, letter case apart: an untitled window
    is never matched, whatever the filter. *)
Theorem window_match (w : Platform) (name filter : string) (hwnd : Z)
  (title : string) :
  snd (EnumWindows w) = None ->
  In hwnd (fst (EnumWindows w)) ->
  IsWindowVisible w hwnd = Ok true ->
  GetWindowText w hwnd = Ok title ->
  exists windows,
    find_target_windows w (init name filter) = Ok windows
    /\ (In (hwnd, title) windows
        <-> title <> EmptyString
            /\ (filter = EmptyString
                \/ Py.contains (Py.lower filter) (Py.lower title) = true)).
Proof.
  intros Hnone Hin Hvis Htext.
  unfold find_target_windows. rewrite Hnone.
  eexists. split; [reflexivity|].
  rewrite fold_callback_In, <- window_matches_init. split.
  - intros [[]|(_ & _ & _ & H)]. exact H.
  - intros H. right. auto.
Qed.

(** The window titled DRM Protected Content under the filter drm. *)
Lemma window_match_witness :
  snd (EnumWindows Demo.busy) = None
  /\ In 1001 (fst (EnumWindows Demo.busy))
  /\ IsWindowVisible Demo.busy 1001 = Ok true
  /\ GetWindowText Demo.busy 1001 = Ok "DRM Protected Content"
  /\ exists windows,
       find_target_windows Demo.busy (init "MyDRMApp" "drm") = Ok windows
       /\ (In (1001, "DRM Protected Content") windows
           <-> "DRM Protected Content" <> EmptyString
               /\ ("drm" = EmptyString
                   \/ Py.contains (Py.lower "drm") (Py.lower "DRM Protected Content")
                      = true)).
Proof.
  split; [reflexivity|]. split; [simpl; auto|].
  split; [reflexivity|]. split; [reflexivity|].
  apply (window_match Demo.busy "MyDRMApp" "drm" 1001 "DRM Protected Content");
    [reflexivity | simpl; auto | reflexivity | reflexivity].
Defined.

(** ** The CPU probe *)

(** The order of binary64: below something, nothing that is not above is
    above that thing.  It holds for NaN too, which compares with nothing. *)
Lemma SFltb_chain (a b c : spec_float) :
  SFltb a b = true -> SFltb a c = false -> SFltb b c = false.
Proof.
  unfold SFltb.
  destruct a as [sa|sa| |sa ma ea], b as [sb|sb| |sb mb eb], c as [sc|sc| |sc mc ec];
    cbn [SFcompare];
    repeat match goal with s : bool |- _ => destruct s end;
    try discriminate; try reflexivity;
    change (Pos.compare_cont Eq ?p ?q) with (Pos.compare p q);
    repeat match goal with
           | |- context [Z.compare ?x ?y] =>
               destruct (Z.compare_spec x y); cbn [CompOpp]
           | |- context [Pos.compare ?x ?y] =>
               destruct (Pos.compare_spec x y); cbn [CompOpp]
           end;
    try discriminate; try reflexivity; intros; exfalso; lia.
Qed.

Lemma ltb_chain (m y x : float) :
  PrimFloat.ltb m y = true -> PrimFloat.ltb m x = false ->
  PrimFloat.ltb y x = false.
Proof. rewrite !ltb_spec. apply SFltb_chain. Qed.

Lemma ltb_irrefl (x : float) : PrimFloat.ltb x x = false.
Proof.
  rewrite ltb_spec. unfold SFltb.
  destruct (Prim2SF x) as [s|s| |s m e]; cbn [SFcompare];
    try destruct s; try reflexivity;
    rewrite Z.compare_refl; change (Pos.compare_cont Eq m m) with (Pos.compare m m);
    rewrite Pos.compare_refl; reflexivity.
Qed.

Lemma fold_max_spec (rest : list float) : forall m seen,
  Forall (fun x => PrimFloat.ltb m x = false) seen ->
  let top := fold_left (fun m y => if PrimFloat.ltb m y then y else m) rest m in
  (top = m \/ In top rest)
  /\ Forall (fun x => PrimFloat.ltb top x = false) (seen ++ rest).
Proof.
  induction rest as [|y rest IH]; intros m seen Hseen; cbn [fold_left].
  - split; [now left | now rewrite app_nil_r].
  - destruct (PrimFloat.ltb m y) eqn:E.
    + destruct (IH y (seen ++ [y])%list) as [Hin Hall].
      * apply Forall_app. split.
        -- eapply Forall_impl; [|exact Hseen]. intros x Hx.
           exact (ltb_chain m y x E Hx).
        -- constructor; [apply ltb_irrefl | constructor].
      * split.
        -- destruct Hin as [->|Hin]; right; [now left | now right].
        -- now rewrite <- app_assoc in Hall.
    + destruct (IH m (seen ++ [y])%list) as [Hin Hall].
      * apply Forall_app. split; [exact Hseen|]. now repeat constructor.
      * split.
        -- destruct Hin as [Hin|Hin]; [now left | right; now right].
        -- now rewrite <- app_assoc in Hall.
Qed.

(** [max] returns a sample that no sample exceeds. *)
Lemma py_max_spec (l : list float) :
  l <> [] ->
  In (py_max l) l /\ Forall (fun x => PrimFloat.ltb (py_max l) x = false) l.
Proof.
  destruct l as [|x rest]; [congruence|]. intros _. unfold py_max.
  destruct (fold_max_spec rest x [x]) as [Hin Hall].
  - constructor; [apply ltb_irrefl | constructor].
  - split; [|exact Hall].
    destruct Hin as [->|Hin]; [now left | now right].
Qed.

Lemma for_each_length_le {A B} (body : list B -> A -> outcome (list B))
  (l : list A) :
  (forall acc x r, body acc x = Ok r -> (List.length r <= S (List.length acc))%nat) ->
  forall acc r,
    for_each body acc l = Ok r ->
    (List.length r <= List.length acc + List.length l)%nat.
Proof.
  intros Hbody. induction l as [|x l IH]; intros acc r; cbn [for_each].
  - intros [= ->]. simpl. lia.
  - destruct (body acc x) as [acc'|e] eqn:E; [|discriminate].
    intros H. apply IH in H. apply Hbody in E. simpl. lia.
Qed.

(** The sampling loop collects at most five samples. *)
Lemma collect_cpu_samples_length w procs samples :
  collect_cpu_samples w procs = Ok samples -> (List.length samples <= 5)%nat.
Proof.
  unfold collect_cpu_samples. intros H.
  apply for_each_length_le in H; [exact H|].
  intros acc i r. unfold obind.
  destruct (cpu_round w i procs) as [[total active]|e]; [|discriminate].
  destruct (0 <? active)%nat; intros [= <-]; unfold Py.append;
    rewrite ?length_app; simpl; lia.
Qed.

Lemma cpu_usage_run w self samples :
  target_processes self <> [] ->
  collect_cpu_samples w (target_processes self) = Ok samples ->
  samples <> [] ->
  let mean := PrimFloat.div (py_sum (compensated_sum w) samples)
                (float_of_nat (List.length samples)) in
  let top := py_max samples in
  test_cpu_usage w self
  = (Ok tt,
     if PrimFloat.ltb 50%float top then
       with_result w "CPU Usage" false
         ("High CPU usage detected: avg=" ++ Py.format_1f_float mean
          ++ "%, max=" ++ Py.format_1f_float top ++ "%") "medium" self
     else
       with_result w "CPU Usage" true
         ("Normal CPU usage: avg=" ++ Py.format_1f_float mean
          ++ "%, max=" ++ Py.format_1f_float top ++ "%") "low" self).
Proof.
  intros Hprocs Hsamples Hne mean top. subst mean top.
  destruct self as [pn wt rs procs wins]. simpl in *.
  unfold test_cpu_usage, with_result. unfold_monad.
  cbn [target_processes].
  destruct procs as [|p procs]; [congruence|].
  rewrite Hsamples.
  destruct samples as [|x rest]; [congruence|].
  destruct (PrimFloat.ltb 50%float (py_max (x :: rest))); reflexivity.
Qed.

(** C7.  When the sampling loop of the CPU probe has collected a list of
    samples (at most five) that is not empty, the probe appends one result:
    failed at 'medium' if and only if the largest sample exceeds 50, passed
    at 'low' otherwise, and its details give, to one decimal, the mean
    sum(samples)/len(samples) and the largest sample, all computed and
    compared in binary64 as the interpreter does.  For a process whose five
    samples are 10, 20, 30, 70, 15 the result is failed, with average 29.0
    and maximum 70.0. *)
Theorem cpu_usage_verdict :
  (forall (w : Platform) (self : StealthTester) (samples : list float),
      target_processes self <> [] ->
      collect_cpu_samples w (target_processes self) = Ok samples ->
      samples <> [] ->
      let mean := PrimFloat.div (py_sum (compensated_sum w) samples)
                    (float_of_nat (List.length samples)) in
      let top := py_max samples in
      (List.length samples <= 5)%nat
      /\ In top samples
      /\ Forall (fun x => PrimFloat.ltb top x = false) samples
      /\ exists r,
          test_cpu_usage w self
          = (Ok tt, set_results (results self ++ [r])%list self)
          /\ test r = "CPU Usage"
          /\ ((passed r = false /\ severity r = "medium")
              <-> PrimFloat.ltb 50%float top = true)
          /\ ((passed r = true /\ severity r = "low")
              <-> PrimFloat.ltb 50%float top = false)
          /\ details r
             = (if passed r then "Normal CPU usage" else "High CPU usage detected")
               ++ ": avg=" ++ Py.format_1f_float mean
               ++ "%, max=" ++ Py.format_1f_float top ++ "%")
  /\ collect_cpu_samples Demo.busy (target_processes Demo.tracking)
     = Ok [10; 20; 30; 70; 15]%float
  /\ (forall compensated,
         PrimFloat.div (py_sum compensated [10; 20; 30; 70; 15]%float)
           (float_of_nat 5) = 29%float)
  /\ py_max [10; 20; 30; 70; 15]%float = 70%float
  /\ test_cpu_usage Demo.busy Demo.tracking
     = (Ok tt,
        with_result Demo.busy "CPU Usage" false
          "High CPU usage detected: avg=29.0%, max=70.0%" "medium" Demo.tracking).
Proof.
  split; [|split; [vm_compute; reflexivity|];
           split; [intros []; vm_compute; reflexivity|];
           split; vm_compute; reflexivity].
  intros w self samples Hprocs Hsamples Hne mean top.
  destruct (py_max_spec samples Hne) as [Hin Hall].
  split; [exact (collect_cpu_samples_length _ _ _ Hsamples)|].
  split; [exact Hin|]. split; [exact Hall|].
  rewrite (cpu_usage_run w self samples Hprocs Hsamples Hne).
  fold mean top. unfold with_result.
  destruct (PrimFloat.ltb 50%float top) eqn:E.
  - eexists. split; [reflexivity|]. split; [reflexivity|]. simpl.
    repeat split; auto; try (intros [? ?]; discriminate); intros; discriminate.
  - eexists. split; [reflexivity|]. split; [reflexivity|]. simpl.
    repeat split; auto; try (intros [? ?]; discriminate); intros; discriminate.
Qed.

(** The process of [Demo.busy], with the samples 10, 20, 30, 70, 15. *)
Lemma cpu_usage_verdict_witness :
  target_processes Demo.tracking <> []
  /\ collect_cpu_samples Demo.busy (target_processes Demo.tracking)
     = Ok [10; 20; 30; 70; 15]%float
  /\ [10; 20; 30; 70; 15]%float <> []
  /\ exists r,
       test_cpu_usage Demo.busy Demo.tracking
       = (Ok tt, set_results (results Demo.tracking ++ [r])%list Demo.tracking)
       /\ test r = "CPU Usage"
       /\ ((passed r = false /\ severity r = "medium")
           <-> PrimFloat.ltb 50%float (py_max [10; 20; 30; 70; 15]%float) = true).
Proof.
  split; [discriminate|]. split; [vm_compute; reflexivity|].
  split; [discriminate|].
  destruct (proj1 cpu_usage_verdict Demo.busy Demo.tracking [10; 20; 30; 70; 15]%float)
    as (_ & _ & _ & r & Hr & Ht & Hfail & _);
    [discriminate | vm_compute; reflexivity | discriminate |].
  exists r. auto.
Defined.

(** ** The memory probe *)

Lemma memory_step_entries w proc total highs :
  (forall e, proc_memory_info_rss w proc = Raise e -> is_psutil_error e = true) ->
  (forall e, proc_name w proc = Raise e -> is_psutil_error e = true) ->
  exists total',
    memory_step w (total, highs) proc
    = Ok (total',
          (highs ++ match high_memory_entry w proc with
                    | Some entry => [entry]
                    | None => []
                    end)%list).
Proof.
  intros Hm Hn. unfold memory_step, high_memory_entry, continue_on_psutil, Py.append.
  destruct (proc_memory_info_rss w proc) as [rss|e].
  - destruct (Qgtb (memory_mb_of rss) 500).
    + destruct (proc_name w proc) as [name|e].
      * eexists; reflexivity.
      * rewrite (Hn e eq_refl), app_nil_r. eexists; reflexivity.
    + rewrite app_nil_r. eexists; reflexivity.
  - rewrite (Hm e eq_refl), app_nil_r. eexists; reflexivity.
Qed.

Lemma scan_memory_entries w procs :
  (forall p e, In p procs -> proc_memory_info_rss w p = Raise e ->
               is_psutil_error e = true) ->
  (forall p e, In p procs -> proc_name w p = Raise e -> is_psutil_error e = true) ->
  exists total, scan_memory w procs = Ok (total, high_memory_entries w procs).
Proof.
  unfold scan_memory, high_memory_entries. intros Hm Hn.
  enough (H : forall total highs,
             exists total',
               for_each (memory_step w) (total, highs) procs
               = Ok (total',
                     (highs ++ flat_map
                                 (fun proc => match high_memory_entry w proc with
                                              | Some entry => [entry]
                                              | None => []
                                              end) procs)%list))
    by exact (H 0%Q []).
  induction procs as [|p procs IH]; intros total highs; cbn [for_each flat_map].
  - rewrite app_nil_r. eexists; reflexivity.
  - destruct (memory_step_entries w p total highs) as [total' ->].
    + intros e. apply Hm. now left.
    + intros e. apply Hn. now left.
    + destruct (IH (fun q e Hq => Hm q e (or_intror Hq))
                   (fun q e Hq => Hn q e (or_intror Hq))
                   total'
                   (highs ++ match high_memory_entry w p with
                             | Some entry => [entry]
                             | None => []
                             end)%list) as [total'' ->].
      rewrite <- app_assoc. eexists; reflexivity.
Qed.

Lemma high_memory_entries_nonempty w procs :
  high_memory_entries w procs <> []
  <-> exists proc rss name,
        In proc procs
        /\ proc_memory_info_rss w proc = Ok rss
        /\ (500 < memory_mb_of rss)%Q
        /\ proc_name w proc = Ok name.
Proof.
  unfold high_memory_entries. induction procs as [|p procs IH]; simpl.
  - split; [congruence | intros (? & ? & ? & [] & _)].
  - split.
    + intros Hne. destruct (high_memory_entry w p) as [entry|] eqn:E.
      * unfold high_memory_entry in E.
        destruct (proc_memory_info_rss w p) as [rss|] eqn:Em; [|discriminate].
        destruct (Qgtb (memory_mb_of rss) 500) eqn:Eg; [|discriminate].
        destruct (proc_name w p) as [name|] eqn:En; [|discriminate].
        exists p, rss, name. apply Qgtb_gt in Eg. auto.
      * simpl in Hne. apply IH in Hne.
        destruct Hne as (q & rss & name & Hin & H). exists q, rss, name. auto.
    + intros (q & rss & name & [->|Hin] & Hm & Hgt & Hn).
      * unfold high_memory_entry. rewrite Hm, Hn.
        apply Qgtb_gt in Hgt. rewrite Hgt. discriminate.
      * intros Happ. apply app_eq_nil in Happ. destruct Happ as [_ Happ].
        revert Happ. apply IH. exists q, rss, name. auto.
Qed.

Lemma memory_usage_run w self :
  target_processes self <> [] ->
  (forall p e, In p (target_processes self) ->
               proc_memory_info_rss w p = Raise e -> is_psutil_error e = true) ->
  (forall p e, In p (target_processes self) ->
               proc_name w p = Raise e -> is_psutil_error e = true) ->
  exists total,
    scan_memory w (target_processes self)
    = Ok (total, high_memory_entries w (target_processes self))
    /\ test_memory_usage w self
       = (Ok tt,
          match high_memory_entries w (target_processes self) with
          | [] =>
              with_result w "Memory Usage" true
                ("Normal memory usage: " ++ Py.format_1f total ++ "MB total") "low" self
          | _ :: _ =>
              with_result w "Memory Usage" false
                ("High memory usage detected: "
                 ++ Py.repr_list (high_memory_entries w (target_processes self)))
                "medium" self
          end).
Proof.
  intros Hprocs Hm Hn.
  destruct (scan_memory_entries w _ Hm Hn) as [total Hscan].
  exists total. split; [exact Hscan|].
  destruct self as [pn wt rs procs wins]. simpl in *.
  unfold test_memory_usage, with_result. unfold_monad. cbn [target_processes].
  destruct procs as [|p procs]; [congruence|].
  rewrite Hscan.
  destruct (high_memory_entries w (p :: procs)); reflexivity.
Qed.

(** A process with 600 MB of resident memory that is gone when its name is
    asked for is passed over, and the probe passes; so the verdict is not
    the one claimed. *)
Lemma vanished_process_passes_memory :
  target_processes Demo.tracking = [Demo.app]
  /\ proc_memory_info_rss Demo.vanishing Demo.app = Ok 629145600
  /\ (500 < memory_mb_of 629145600)%Q
  /\ proc_name Demo.vanishing Demo.app = Raise Demo.no_such_process
  /\ test_memory_usage Demo.vanishing Demo.tracking
     = (Ok tt,
        with_result Demo.vanishing "Memory Usage" true
          "Normal memory usage: 600.0MB total" "low" Demo.tracking)
  /\ ~ memory_verdict_as_claimed.
Proof.
  split; [reflexivity|]. split; [reflexivity|]. split; [reflexivity|].
  split; [reflexivity|]. split; [vm_compute; reflexivity|].
  intros H.
  destruct (H Demo.vanishing Demo.tracking) as (r & Hrun & Hiff); [discriminate|].
  assert (Hr : passed r = true).
  { vm_compute in Hrun. inversion Hrun. reflexivity. }
  destruct Hiff as [_ Hfail].
  destruct Hfail as [Hfail _]; [|congruence].
  exists Demo.app, 629145600.
  split; [now left|]. split; reflexivity.
Qed.

(** C8, amended.  With matched processes, and as long as no query raises
    anything but NoSuchProcess or AccessDenied, the memory probe appends one
    result, failed at 'medium' if and only if some matched process whose
    memory is read and exceeds 500 MB also gives its name (a process whose
    query fails is passed over); the details of a failure list each such
    process as name: memory MB, to one decimal.  A process with 600 MB of
    resident memory gives a failure at 'medium' whose details name it with
    600.0MB. *)
Theorem memory_usage_verdict :
  (forall (w : Platform) (self : StealthTester),
      target_processes self <> [] ->
      (forall p e, In p (target_processes self) ->
                   proc_memory_info_rss w p = Raise e -> is_psutil_error e = true) ->
      (forall p e, In p (target_processes self) ->
                   proc_name w p = Raise e -> is_psutil_error e = true) ->
      exists r,
        test_memory_usage w self
        = (Ok tt, set_results (results self ++ [r])%list self)
        /\ test r = "Memory Usage"
        /\ ((passed r = false /\ severity r = "medium")
            <-> exists proc rss name,
                  In proc (target_processes self)
                  /\ proc_memory_info_rss w proc = Ok rss
                  /\ (500 < memory_mb_of rss)%Q
                  /\ proc_name w proc = Ok name)
        /\ (passed r = true -> severity r = "low")
        /\ (passed r = false ->
            details r
            = "High memory usage detected: "
              ++ Py.repr_list (high_memory_entries w (target_processes self))))
  /\ proc_memory_info_rss Demo.busy Demo.app = Ok (600 * 1024 * 1024)
  /\ high_memory_entries Demo.busy [Demo.app] = ["MyDRMApp.exe: 600.0MB"]
  /\ test_memory_usage Demo.busy Demo.tracking
     = (Ok tt,
        with_result Demo.busy "Memory Usage" false
          "High memory usage detected: ['MyDRMApp.exe: 600.0MB']" "medium"
          Demo.tracking).
Proof.
  split; [|repeat split; vm_compute; reflexivity].
  intros w self Hprocs Hm Hn.
  destruct (memory_usage_run w self Hprocs Hm Hn) as (total & _ & ->).
  pose proof (high_memory_entries_nonempty w (target_processes self)) as Hne.
  unfold with_result.
  destruct (high_memory_entries w (target_processes self)) as [|entry entries].
  - eexists. split; [reflexivity|]. split; [reflexivity|]. simpl.
    split; [|split; [reflexivity | discriminate]].
    split; [intros [? ?]; discriminate|].
    intros H. apply Hne in H. congruence.
  - eexists. split; [reflexivity|]. split; [reflexivity|]. simpl.
    split; [|split; [discriminate | reflexivity]].
    split; [intros _; apply Hne; discriminate | auto].
Qed.

(** The process of [Demo.busy], with 600 MB of resident memory. *)
Lemma memory_usage_verdict_witness :
  target_processes Demo.tracking <> []
  /\ (forall p e, In p (target_processes Demo.tracking) ->
                  proc_memory_info_rss Demo.busy p = Raise e ->
                  is_psutil_error e = true)
  /\ (forall p e, In p (target_processes Demo.tracking) ->
                  proc_name Demo.busy p = Raise e -> is_psutil_error e = true)
  /\ exists r,
       test_memory_usage Demo.busy Demo.tracking
       = (Ok tt, set_results (results Demo.tracking ++ [r])%list Demo.tracking)
       /\ passed r = false
       /\ severity r = "medium".
Proof.
  assert (Hm : forall p e, In p (target_processes Demo.tracking) ->
                           proc_memory_info_rss Demo.busy p = Raise e ->
                           is_psutil_error e = true)
    by (intros p e _ H; discriminate H).
  assert (Hn : forall p e, In p (target_processes Demo.tracking) ->
                           proc_name Demo.busy p = Raise e ->
                           is_psutil_error e = true)
    by (intros p e [<-|[]] H; discriminate H).
  split; [discriminate|]. split; [exact Hm|]. split; [exact Hn|].
  destruct (proj1 memory_usage_verdict Demo.busy Demo.tracking)
    as (r & Hrun & _ & Hiff & _); [discriminate | exact Hm | exact Hn |].
  exists r. split; [exact Hrun|].
  apply Hiff. exists Demo.app, 629145600, "MyDRMApp.exe".
  split; [now left|]. repeat split.
Defined.

(** ** Platform errors *)

Lemma for_each_total {A B} (body : B -> A -> outcome B) (l : list A) :
  (forall acc x, exists acc', body acc x = Ok acc') ->
  forall acc, exists r, for_each body acc l = Ok r.
Proof.
  intros Hbody. induction l as [|x l IH]; intros acc; cbn [for_each].
  - eexists; reflexivity.
  - destruct (Hbody acc x) as [acc' ->]. apply IH.
Qed.

Lemma continue_on_psutil_ok {A} (e : exn) (acc : A) :
  is_psutil_error e = true -> continue_on_psutil e acc = Ok acc.
Proof. unfold continue_on_psutil. now intros ->. Qed.

Ltac total_body :=
  repeat match goal with
         | |- exists _, Ok _ = Ok _ => eexists; reflexivity
         | |- exists _, continue_on_psutil ?e _ = Ok _ =>
             rewrite continue_on_psutil_ok by eauto; eexists; reflexivity
         | |- context [match ?x with _ => _ end] => destruct x eqn:?
         end.

Lemma scan_process_tree_total w procs :
  only_psutil_errors w -> exists r, scan_process_tree w procs = Ok r.
Proof.
  intros (Hn & Hp & _). unfold scan_process_tree.
  apply for_each_total. intros acc x. total_body.
Qed.

Lemma scan_connections_total w procs :
  only_psutil_errors w -> exists r, scan_connections w procs = Ok r.
Proof.
  intros (_ & _ & Hc & _). unfold scan_connections.
  apply for_each_total. intros [total suspicious] x. total_body.
Qed.

Lemma scan_memory_total w procs :
  only_psutil_errors w -> exists r, scan_memory w procs = Ok r.
Proof.
  intros (Hn & _ & _ & Hm & _).
  destruct (scan_memory_entries w procs) as [total ->]; eauto.
Qed.

Lemma cpu_round_total w i procs :
  only_psutil_errors w -> exists r, cpu_round w i procs = Ok r.
Proof.
  intros (_ & _ & _ & _ & Hc). unfold cpu_round.
  apply for_each_total. intros [total active] x. total_body.
Qed.

Lemma collect_cpu_samples_total w procs :
  only_psutil_errors w -> exists r, collect_cpu_samples w procs = Ok r.
Proof.
  intros Hw. unfold collect_cpu_samples.
  apply for_each_total. intros samples i.
  destruct (cpu_round_total w i procs Hw) as [[total active] ->].
  cbn [obind]. total_body.
Qed.

Lemma scan_names_total w procs :
  only_psutil_errors w -> exists r, scan_names w procs = Ok r.
Proof.
  intros (Hn & _). unfold scan_names.
  apply for_each_total. intros acc x. total_body.
Qed.

Lemma every_exception_caught p w self :
  In p catches_every_exception ->
  exists r, run_probe p w self = (Ok tt, set_results (results self ++ [r])%list self).
Proof.
  unfold catches_every_exception. intros Hin.
  destruct self as [pn wt rs procs wins].
  destruct p; simpl in Hin;
    repeat match goal with
           | H : _ \/ _ |- _ => destruct H as [H|H]
           | H : _ = _ |- _ => discriminate H
           | H : False |- _ => contradiction H
           end;
    cbn [run_probe];
    match goal with |- context [?f w _] => unfold f end;
    run_probe_cases; eexists; reflexivity.
Qed.

Lemma psutil_errors_caught p w self :
  In p catches_psutil_errors ->
  only_psutil_errors w ->
  exists r, run_probe p w self = (Ok tt, set_results (results self ++ [r])%list self).
Proof.
  unfold catches_psutil_errors. intros Hin Hw.
  destruct self as [pn wt rs procs wins].
  destruct p; simpl in Hin;
    repeat match goal with
           | H : _ \/ _ |- _ => destruct H as [H|H]
           | H : _ = _ |- _ => discriminate H
           | H : False |- _ => contradiction H
           end;
    cbn [run_probe];
    match goal with |- context [?f w _] => unfold f end;
    unfold_monad; cbn [target_processes];
    (destruct procs as [|p procs]; [eexists; reflexivity|]).
  - destruct (scan_process_tree_total w (p :: procs) Hw) as [r ->].
    run_probe_cases; eexists; reflexivity.
  - destruct (scan_connections_total w (p :: procs) Hw) as [r ->].
    run_probe_cases; eexists; reflexivity.
  - destruct (scan_memory_total w (p :: procs) Hw) as [r ->].
    run_probe_cases; eexists; reflexivity.
  - destruct (collect_cpu_samples_total w (p :: procs) Hw) as [r ->].
    run_probe_cases; eexists; reflexivity.
  - destruct (scan_names_total w (p :: procs) Hw) as [r ->].
    run_probe_cases; eexists; reflexivity.
Qed.

Lemma tasklist_error w self e :
  subprocess_run w ["tasklist"; "/fo"; "csv"] = Raise e ->
  test_tasklist_detection w self
  = (Ok tt,
     with_result w "TaskList Detection" true
       ("TaskList test failed: " ++ exn_str e) "medium" self).
Proof.
  intros H. unfold test_tasklist_detection. unfold_monad. now rewrite H.
Qed.

Lemma wmic_error w self e :
  subprocess_run w
    ["wmic"; "process"; "get"; "name,processid,executablepath"; "/format:csv"]
  = Raise e ->
  test_wmic_detection w self
  = (Ok tt,
     with_result w "WMIC Detection" true ("WMIC test failed: " ++ exn_str e)
       "medium" self).
Proof.
  intros H. unfold test_wmic_detection. unfold_monad. now rewrite H.
Qed.

Lemma powershell_error w self e :
  subprocess_run w ["powershell"; "-Command"; ps_command (process_name self)]
  = Raise e ->
  test_powershell_detection w self
  = (Ok tt,
     with_result w "PowerShell Detection" true
       ("PowerShell test failed: " ++ exn_str e) "medium" self).
Proof.
  intros H. unfold test_powershell_detection. unfold_monad. now rewrite H.
Qed.

Lemma screen_capture_error w self e :
  capture_error (screen w) = Some e ->
  test_screen_capture_protection w self
  = (Ok tt,
     with_result w "Screen Capture Protection" true
       ("Screenshot failed: " ++ exn_str e ++ " (DRM protection likely working)")
       "low" self).
Proof.
  unfold capture_error, test_screen_capture_protection. unfold_monad.
  destruct (mss_open (screen w)); [|now intros [= ->]].
  destruct (monitor_1 (screen w)); [|now intros [= ->]].
  destruct (grab (screen w)); [|now intros [= ->]].
  destruct (to_png (screen w)); [|now intros [= ->]].
  destruct (path_exists (screen w)); [|discriminate].
  destruct (getsize (screen w)); [discriminate | now intros [= ->]].
Qed.

(** An error of the screen capture gives a result at 'low', not 'medium';
    an error of the iteration over the processes leaves the psutil probe,
    which appends nothing. *)
Lemma capture_error_is_low_and_iteration_error_escapes :
  grab (screen Demo.capture_fails) = Raise Demo.capture_failed
  /\ test_screen_capture_protection Demo.capture_fails Demo.tester
     = (Ok tt,
        with_result Demo.capture_fails "Screen Capture Protection" true
          "Screenshot failed: gdi32.GetDIBits() failed. (DRM protection likely working)"
          "low" Demo.tester)
  /\ String.eqb "low" "medium" = false
  /\ process_iter Demo.iteration_fails = ([], Some Demo.iteration_failed)
  /\ test_psutil_detection Demo.iteration_fails Demo.tester
     = (Raise Demo.iteration_failed, Demo.tester)
  /\ results Demo.tester = [].
Proof. repeat split. Qed.

(** A process on which the body of a loop leaves the loop variables as
    they are is as good as absent from the loop. *)
Lemma for_each_skip {A B} (body : B -> A -> outcome B) (x : A) (l1 l2 : list A) :
  (forall acc, body acc x = Ok acc) ->
  forall acc,
    for_each body acc (l1 ++ x :: l2)%list = for_each body acc (l1 ++ l2)%list.
Proof.
  intros Hx. induction l1 as [|y l1 IH]; intros acc; cbn [for_each app].
  - now rewrite Hx.
  - destruct (body acc y); [apply IH | reflexivity].
Qed.

Ltac skip_body e He :=
  apply for_each_skip; intros acc; try destruct acc;
  repeat match goal with
         | H : _ = _ |- _ => rewrite H
         end;
  cbv beta iota;
  try (destruct (negb _));
  repeat match goal with
         | H : _ = _ |- _ => rewrite H
         end;
  unfold continue_on_psutil; rewrite ?He; reflexivity.

Lemma process_tree_skip w l1 proc l2 e :
  is_psutil_error e = true ->
  proc_parent w proc = Raise e
  \/ (exists parent,
        proc_parent w proc = Ok (Some parent)
        /\ (proc_name w parent = Raise e
            \/ exists pname,
                 proc_name w parent = Ok pname /\ proc_name w proc = Raise e)) ->
  scan_process_tree w (l1 ++ proc :: l2)%list = scan_process_tree w (l1 ++ l2)%list.
Proof.
  intros He [H|(parent & Hp & [H|(pname & Hn & H)])]; unfold scan_process_tree.
  - skip_body e He.
  - skip_body e He.
  - apply for_each_skip. intros acc. rewrite Hp, Hn. cbv zeta.
    destruct (negb _); [|reflexivity].
    rewrite H. unfold continue_on_psutil. now rewrite He.
Qed.

Lemma connections_skip w l1 proc l2 e :
  is_psutil_error e = true ->
  proc_connections w proc = Raise e ->
  scan_connections w (l1 ++ proc :: l2)%list = scan_connections w (l1 ++ l2)%list.
Proof. intros He H. unfold scan_connections. skip_body e He. Qed.

Lemma memory_skip w l1 proc l2 e :
  is_psutil_error e = true ->
  proc_memory_info_rss w proc = Raise e ->
  scan_memory w (l1 ++ proc :: l2)%list = scan_memory w (l1 ++ l2)%list.
Proof.
  intros He H. unfold scan_memory. apply for_each_skip.
  intros [total highs]. unfold memory_step. rewrite H.
  unfold continue_on_psutil. now rewrite He.
Qed.

Lemma cpu_round_skip w i l1 proc l2 e :
  is_psutil_error e = true ->
  proc_cpu_percent w i proc = Raise e ->
  cpu_round w i (l1 ++ proc :: l2)%list = cpu_round w i (l1 ++ l2)%list.
Proof. intros He H. unfold cpu_round. skip_body e He. Qed.

Lemma for_each_ext {A B} (f g : B -> A -> outcome B) (l : list A) :
  (forall acc x, f acc x = g acc x) ->
  forall acc, for_each f acc l = for_each g acc l.
Proof.
  intros Hfg. induction l as [|x l IH]; intros acc; cbn [for_each]; [reflexivity|].
  rewrite Hfg. destruct (g acc x); [apply IH | reflexivity].
Qed.

Lemma cpu_samples_skip w l1 proc l2 :
  (forall i, exists e,
      proc_cpu_percent w i proc = Raise e /\ is_psutil_error e = true) ->
  collect_cpu_samples w (l1 ++ proc :: l2)%list
  = collect_cpu_samples w (l1 ++ l2)%list.
Proof.
  intros H. unfold collect_cpu_samples. apply for_each_ext.
  intros acc i. destruct (H i) as (e & Hr & He).
  now rewrite (cpu_round_skip w i l1 proc l2 e He Hr).
Qed.

Lemma names_skip w l1 proc l2 e :
  is_psutil_error e = true ->
  proc_name w proc = Raise e ->
  scan_names w (l1 ++ proc :: l2)%list = scan_names w (l1 ++ l2)%list.
Proof. intros He H. unfold scan_names. skip_body e He. Qed.

(** C2, amended.  The command probes (tasklist, WMIC, PowerShell) catch
    every exception of the command: they append one result, passed, at
    'medium', with the text of the error in its details.  The screen-capture
    probe catches every exception too and appends one passed result with the
    text of the error, at 'low'.  These four, the two window probes and the
    injection and debugging probes never let an exception out and always
    append exactly one result; so do the probes that loop over the processes
    (process tree, network, memory, CPU, names) as long as the queries
    raise nothing but NoSuchProcess or AccessDenied.  In these five loops a
    process whose query raises NoSuchProcess or AccessDenied is skipped: the
    loop ends with the same variables, or the same exception, as on the list
    without that process.  The query is parent() or a name() of the
    process-tree loop, connections(), memory_info(), cpu_percent() of the
    round, and name() of the name loop; a process that raises in every round
    of the CPU probe leaves the samples as they are without it. *)
Theorem platform_errors_in_probes :
  (forall w self e,
      subprocess_run w ["tasklist"; "/fo"; "csv"] = Raise e ->
      test_tasklist_detection w self
      = (Ok tt,
         with_result w "TaskList Detection" true
           ("TaskList test failed: " ++ exn_str e) "medium" self))
  /\ (forall w self e,
         subprocess_run w
           ["wmic"; "process"; "get"; "name,processid,executablepath"; "/format:csv"]
         = Raise e ->
         test_wmic_detection w self
         = (Ok tt,
            with_result w "WMIC Detection" true ("WMIC test failed: " ++ exn_str e)
              "medium" self))
  /\ (forall w self e,
         subprocess_run w ["powershell"; "-Command"; ps_command (process_name self)]
         = Raise e ->
         test_powershell_detection w self
         = (Ok tt,
            with_result w "PowerShell Detection" true
              ("PowerShell test failed: " ++ exn_str e) "medium" self))
  /\ (forall w self e,
         capture_error (screen w) = Some e ->
         test_screen_capture_protection w self
         = (Ok tt,
            with_result w "Screen Capture Protection" true
              ("Screenshot failed: " ++ exn_str e ++ " (DRM protection likely working)")
              "low" self))
  /\ (forall p w self,
         In p catches_every_exception ->
         exists r,
           run_probe p w self = (Ok tt, set_results (results self ++ [r])%list self))
  /\ (forall p w self,
         In p catches_psutil_errors ->
         only_psutil_errors w ->
         exists r,
           run_probe p w self = (Ok tt, set_results (results self ++ [r])%list self))
  /\ (forall w l1 proc l2 e,
         is_psutil_error e = true ->
         (proc_parent w proc = Raise e
          \/ (exists parent,
                proc_parent w proc = Ok (Some parent)
                /\ (proc_name w parent = Raise e
                    \/ exists pname,
                         proc_name w parent = Ok pname
                         /\ proc_name w proc = Raise e)) ->
          scan_process_tree w (l1 ++ proc :: l2)%list
          = scan_process_tree w (l1 ++ l2)%list)
         /\ (proc_connections w proc = Raise e ->
             scan_connections w (l1 ++ proc :: l2)%list
             = scan_connections w (l1 ++ l2)%list)
         /\ (proc_memory_info_rss w proc = Raise e ->
             scan_memory w (l1 ++ proc :: l2)%list
             = scan_memory w (l1 ++ l2)%list)
         /\ (forall i,
                proc_cpu_percent w i proc = Raise e ->
                cpu_round w i (l1 ++ proc :: l2)%list
                = cpu_round w i (l1 ++ l2)%list)
         /\ (proc_name w proc = Raise e ->
             scan_names w (l1 ++ proc :: l2)%list
             = scan_names w (l1 ++ l2)%list))
  /\ (forall w l1 proc l2,
         (forall i, exists e,
             proc_cpu_percent w i proc = Raise e /\ is_psutil_error e = true) ->
         collect_cpu_samples w (l1 ++ proc :: l2)%list
         = collect_cpu_samples w (l1 ++ l2)%list).
Proof.
  split; [exact tasklist_error|].
  split; [exact wmic_error|].
  split; [exact powershell_error|].
  split; [exact screen_capture_error|].
  split; [exact every_exception_caught|].
  split; [exact psutil_errors_caught|].
  split; [|exact cpu_samples_skip].
  intros w l1 proc l2 e He.
  split; [exact (process_tree_skip w l1 proc l2 e He)|].
  split; [exact (connections_skip w l1 proc l2 e He)|].
  split; [exact (memory_skip w l1 proc l2 e He)|].
  split; [intros i; exact (cpu_round_skip w i l1 proc l2 e He)|].
  exact (names_skip w l1 proc l2 e He).
Qed.

(** The tasklist command times out. *)
Lemma platform_errors_in_probes_witness :
  subprocess_run Demo.commands_time_out ["tasklist"; "/fo"; "csv"]
  = Raise Demo.timeout_expired
  /\ test_tasklist_detection Demo.commands_time_out Demo.tester
     = (Ok tt,
        with_result Demo.commands_time_out "TaskList Detection" true
          ("TaskList test failed: " ++ exn_str Demo.timeout_expired) "medium"
          Demo.tester).
Proof.
  split; [reflexivity|].
  apply (proj1 platform_errors_in_probes Demo.commands_time_out Demo.tester).
  reflexivity.
Defined.

(** ** Substrings *)

Lemma prefix_app (sub s : string) :
  prefix sub s = true <-> exists post, s = sub ++ post.
Proof.
  revert s. induction sub as [|c sub IH]; intros s; simpl.
  - split; [intros _; now exists s | intros _; destruct s; reflexivity].
  - destruct s as [|d s]; simpl;
      [split; [discriminate | intros [post H]; discriminate]|].
    destruct (ascii_dec c d) as [->|Hcd].
    + rewrite IH. split; intros [post H]; exists post; congruence.
    + split; [discriminate|]. intros [post H]. congruence.
Qed.

(** [sub in s] holds exactly when [s] is some text, [sub], some text. *)
Lemma contains_app (sub s : string) :
  Py.contains sub s = true <-> exists pre post, s = pre ++ sub ++ post.
Proof.
  induction s as [|c s IH]; cbn [Py.contains].
  - destruct (prefix sub EmptyString) eqn:E.
    + split; [intros _|reflexivity].
      apply prefix_app in E. destruct E as [post E].
      exists EmptyString, post. exact E.
    + split; [discriminate|]. intros (pre & post & H).
      destruct pre; [|discriminate].
      assert (prefix sub EmptyString = true) by (apply prefix_app; now exists post).
      congruence.
  - destruct (prefix sub (String c s)) eqn:E.
    + split; [intros _|reflexivity].
      apply prefix_app in E. destruct E as [post E].
      exists EmptyString, post. exact E.
    + rewrite IH. split.
      * intros (pre & post & ->). now exists (String c pre), post.
      * intros (pre & post & H). destruct pre as [|d pre].
        -- assert (prefix sub (String c s) = true)
             by (apply prefix_app; now exists post).
           congruence.
        -- simpl in H. inversion H; subst. now exists pre, post.
Qed.

(** ** The process resolver *)

Lemma find_loop_filter (self : StealthTester) (l : list Process) :
  (forall p e, In p l -> info_name p = Raise e -> is_psutil_error e = true) ->
  forall acc,
    for_each
      (fun processes proc =>
         match info_name proc with
         | Ok name =>
             if Py.contains (process_name self) (Py.lower name)
             then Ok (Py.append processes proc)
             else Ok processes
         | Raise e => continue_on_psutil e processes
         end) acc l
    = Ok (acc ++ filter (process_matches self) l)%list.
Proof.
  induction l as [|p l IH]; intros Herr acc; cbn [for_each filter].
  - now rewrite app_nil_r.
  - unfold process_matches at 1.
    destruct (info_name p) as [name|e] eqn:E.
    + destruct (Py.contains (process_name self) (Py.lower name)).
      * rewrite IH by (intros q e Hq; apply Herr; now right).
        unfold Py.append. now rewrite <- app_assoc.
      * apply IH. intros q e Hq; apply Herr; now right.
    + rewrite continue_on_psutil_ok by (apply (Herr p); [now left | exact E]).
      apply IH. intros q e' Hq; apply Herr; now right.
Qed.

Lemma find_target_processes_ok (w : Platform) (self : StealthTester) :
  (forall p e, In p (fst (process_iter w)) -> info_name p = Raise e ->
               is_psutil_error e = true) ->
  snd (process_iter w) = None ->
  find_target_processes w self
  = Ok (filter (process_matches self) (fst (process_iter w))).
Proof.
  intros Herr Hnone. unfold find_target_processes, obind.
  rewrite (find_loop_filter self _ Herr []). simpl. now rewrite Hnone.
Qed.

(** X1.  When the iteration over the processes does not fail and reading a
    name raises nothing but NoSuchProcess or AccessDenied,
    [find_target_processes] returns, in the order of the iteration, exactly
    the processes whose name is read and, lowercased, contains the filter as
    a substring; a process whose name cannot be read is left out.  When the
    iteration fails at its end, the error leaves the method. *)
Theorem find_target_processes_filter (w : Platform) (self : StealthTester) :
  (forall p e, In p (fst (process_iter w)) -> info_name p = Raise e ->
               is_psutil_error e = true) ->
  (snd (process_iter w) = None ->
   find_target_processes w self
   = Ok (filter (process_matches self) (fst (process_iter w))))
  /\ (forall e, snd (process_iter w) = Some e ->
                find_target_processes w self = Raise e)
  /\ (forall p name,
         info_name p = Ok name ->
         (process_matches self p = true
          <-> exists pre post, Py.lower name = pre ++ process_name self ++ post))
  /\ (forall p e, info_name p = Raise e -> process_matches self p = false).
Proof.
  intros Herr. unfold find_target_processes, obind.
  rewrite (find_loop_filter self _ Herr []). simpl.
  split; [now intros ->|]. split; [now intros e ->|]. split.
  - intros p name Hn. unfold process_matches. rewrite Hn. apply contains_app.
  - intros p e Hn. unfold process_matches. now rewrite Hn.
Qed.

(** On [Demo.busy] the iteration yields explorer.exe and MyDRMApp.exe and
    does not fail. *)
Lemma find_target_processes_filter_witness :
  (forall p e, In p (fst (process_iter Demo.busy)) -> info_name p = Raise e ->
               is_psutil_error e = true)
  /\ snd (process_iter Demo.busy) = None
  /\ find_target_processes Demo.busy Demo.tester = Ok [Demo.app].
Proof.
  assert (H : forall p e, In p (fst (process_iter Demo.busy)) ->
                          info_name p = Raise e -> is_psutil_error e = true)
    by (intros p e [<-|[<-|[]]] He; discriminate He).
  split; [exact H|]. split; [reflexivity|].
  exact (proj1 (find_target_processes_filter Demo.busy Demo.tester H) eq_refl).
Defined.

(** ** The psutil probe *)

Lemma matched_names (self : StealthTester) (l : list Process) : forall acc,
  for_each (fun names p => obind (info_name p) (fun name => Ok (Py.append names name)))
    acc (filter (process_matches self) l)
  = Ok (acc ++ map info_name_text (filter (process_matches self) l))%list.
Proof.
  induction l as [|p l IH]; intros acc; cbn [filter].
  - simpl. now rewrite app_nil_r.
  - destruct (process_matches self p) eqn:E; [|apply IH].
    cbn [for_each map]. unfold process_matches in E. unfold info_name_text at 1.
    destruct (info_name p) as [name|e]; [|discriminate].
    cbn [obind]. rewrite IH. unfold Py.append. now rewrite <- app_assoc.
Qed.

Lemma psutil_detection_none (w : Platform) (self : StealthTester) :
  snd (process_iter w) = None ->
  (forall p e, In p (fst (process_iter w)) -> info_name p = Raise e ->
               is_psutil_error e = true) ->
  filter (process_matches self) (fst (process_iter w)) = [] ->
  test_psutil_detection w self
  = (Ok tt,
     with_result w "PSUtil Process Detection" true
       "No processes detected by psutil" "low" self).
Proof.
  intros Hnone Herr Hfound.
  pose proof (find_target_processes_ok w self Herr Hnone) as Hfind.
  rewrite Hfound in Hfind.
  unfold test_psutil_detection, with_result. unfold_monad.
  rewrite Hfind. reflexivity.
Qed.

(** X2.  When the resolver returns, the psutil probe fails at 'high' if
    some process matches, reports their number and their names as read, and
    makes them the process list of the snapshot; if none matches it passes
    at 'low' and leaves the process list as it was (it is not cleared). *)
Theorem psutil_detection_verdict (w : Platform) (self : StealthTester) :
  snd (process_iter w) = None ->
  (forall p e, In p (fst (process_iter w)) -> info_name p = Raise e ->
               is_psutil_error e = true) ->
  let found := filter (process_matches self) (fst (process_iter w)) in
  test_psutil_detection w self
  = (Ok tt,
     match found with
     | [] =>
         with_result w "PSUtil Process Detection" true
           "No processes detected by psutil" "low" self
     | _ :: _ =>
         set_target_processes found
           (with_result w "PSUtil Process Detection" false
              ("Found " ++ Py.str_of_nat (List.length found) ++ " processes: "
               ++ Py.repr_list (map info_name_text found)) "high" self)
     end).
Proof.
  intros Hnone Herr found. subst found.
  pose proof (find_target_processes_ok w self Herr Hnone) as Hfind.
  pose proof (matched_names self (fst (process_iter w)) []) as Hnames.
  unfold Py.append, obind in Hnames. cbn [app] in Hnames.
  unfold test_psutil_detection, with_result. unfold_monad. unfold obind.
  rewrite Hfind.
  destruct (filter (process_matches self) (fst (process_iter w))) as [|p found];
    [reflexivity|].
  rewrite Hnames. reflexivity.
Qed.

(** On [Demo.busy] the probe finds MyDRMApp.exe. *)
Lemma psutil_detection_verdict_witness :
  snd (process_iter Demo.busy) = None
  /\ (forall p e, In p (fst (process_iter Demo.busy)) -> info_name p = Raise e ->
                  is_psutil_error e = true)
  /\ test_psutil_detection Demo.busy Demo.tester
     = (Ok tt,
        set_target_processes [Demo.app]
          (with_result Demo.busy "PSUtil Process Detection" false
             "Found 1 processes: ['MyDRMApp.exe']" "high" Demo.tester)).
Proof.
  assert (H : forall p e, In p (fst (process_iter Demo.busy)) ->
                          info_name p = Raise e -> is_psutil_error e = true)
    by (intros p e [<-|[<-|[]]] He; discriminate He).
  split; [reflexivity|]. split; [exact H|].
  exact (psutil_detection_verdict Demo.busy Demo.tester eq_refl H).
Defined.

(** ** The command probes *)

Lemma contains_empty (s : string) : Py.contains EmptyString s = true.
Proof. destruct s; reflexivity. Qed.

(** [s.count(sub)] is positive exactly when [sub in s]. *)
Lemma count_positive (s sub : string) :
  Py.contains sub s = true <-> (1 <= Py.count s sub)%nat.
Proof.
  unfold Py.count. induction s as [|c s IH]; cbn [Py.contains Py.count_from].
  - destruct (prefix sub EmptyString); split; intros H;
      first [lia | reflexivity | discriminate].
  - destruct (prefix sub (String c s)); [split; intros _; [lia | reflexivity]|].
    exact IH.
Qed.

(** X3.  When the tasklist command runs, its probe fails, at 'high', exactly
    when the command returns 0 and the lowercased output contains the
    filter; it then reports the number of occurrences that do not overlap,
    which is at least 1.  A return code other than 0 is a pass at 'medium',
    an output without the filter a pass at 'low'; with an empty filter every
    output of a command that returns 0 is a detection.  The WMIC probe
    decides in the same way, failing at 'critical'. *)
Theorem command_detection_verdict :
  (forall (w : Platform) (self : StealthTester) (result : CompletedProcess),
      subprocess_run w ["tasklist"; "/fo"; "csv"] = Ok result ->
      let output := Py.lower (stdout result) in
      exists r,
        test_tasklist_detection w self
        = (Ok tt, set_results (results self ++ [r])%list self)
        /\ (passed r = false
            <-> returncode result = 0
                /\ Py.contains (process_name self) output = true)
        /\ (passed r = false ->
            severity r = "high"
            /\ (1 <= Py.count output (process_name self))%nat
            /\ details r
               = "Process detected "
                 ++ Py.str_of_nat (Py.count output (process_name self))
                 ++ " times in tasklist")
        /\ (returncode result <> 0 -> severity r = "medium")
        /\ (returncode result = 0 -> passed r = true -> severity r = "low")
        /\ (process_name self = EmptyString -> returncode result = 0 ->
            passed r = false))
  /\ (forall (w : Platform) (self : StealthTester) (result : CompletedProcess),
         subprocess_run w
           ["wmic"; "process"; "get"; "name,processid,executablepath"; "/format:csv"]
         = Ok result ->
         exists r,
           test_wmic_detection w self
           = (Ok tt, set_results (results self ++ [r])%list self)
           /\ (passed r = false
               <-> returncode result = 0
                   /\ Py.contains (process_name self) (Py.lower (stdout result)) = true)
           /\ (passed r = false -> severity r = "critical")
           /\ (returncode result <> 0 -> severity r = "medium")
           /\ (returncode result = 0 -> passed r = true -> severity r = "low")).
Proof.
  split.
  - intros w self result Hrun output.
    unfold test_tasklist_detection. unfold_monad. rewrite Hrun. fold output.
    destruct (returncode result =? 0) eqn:Erc.
    + apply Z.eqb_eq in Erc.
      destruct (Py.contains (process_name self) output) eqn:Ec.
      * eexists. split; [reflexivity|]. simpl.
        repeat split; auto; try congruence.
        now apply count_positive.
      * eexists. split; [reflexivity|]. simpl.
        repeat split; auto; try congruence; try discriminate.
        -- intros [_ H]. discriminate.
        -- intros Hn _. subst output. rewrite Hn, contains_empty in Ec.
           discriminate.
    + apply Z.eqb_neq in Erc.
      eexists. split; [reflexivity|]. simpl.
      repeat split; auto; try congruence; try discriminate.
      intros [H _]. congruence.
  - intros w self result Hrun.
    unfold test_wmic_detection. unfold_monad. rewrite Hrun.
    destruct (returncode result =? 0) eqn:Erc.
    + apply Z.eqb_eq in Erc.
      destruct (Py.contains (process_name self) (Py.lower (stdout result))) eqn:Ec.
      * eexists. split; [reflexivity|]. simpl.
        repeat split; auto; try congruence.
      * eexists. split; [reflexivity|]. simpl.
        repeat split; auto; try congruence; try discriminate.
        intros [_ H]. discriminate.
    + apply Z.eqb_neq in Erc.
      eexists. split; [reflexivity|]. simpl.
      repeat split; auto; try congruence; try discriminate.
      intros [H _]. congruence.
Qed.

(** On [Demo.busy] the tasklist output names MyDRMApp.exe once. *)
Lemma command_detection_verdict_witness :
  subprocess_run Demo.busy ["tasklist"; "/fo"; "csv"]
  = Ok {| returncode := 0; stdout := "Image Name,PID MyDRMApp.exe,4242" |}
  /\ exists r,
       test_tasklist_detection Demo.busy Demo.tester
       = (Ok tt, set_results (results Demo.tester ++ [r])%list Demo.tester)
       /\ passed r = false
       /\ details r = "Process detected 1 times in tasklist".
Proof.
  split; [reflexivity|].
  destruct (proj1 command_detection_verdict Demo.busy Demo.tester
              {| returncode := 0; stdout := "Image Name,PID MyDRMApp.exe,4242" |}
              eq_refl)
    as (r & Hrun & Hiff & Hfail & _).
  assert (Hp : passed r = false) by (apply Hiff; split; reflexivity).
  exists r. split; [exact Hrun|]. split; [exact Hp|].
  exact (proj2 (proj2 (Hfail Hp))).
Defined.

(** X4.  When the PowerShell command runs, its probe fails, at 'high',
    exactly when the command returns 0, its stripped output has more than
    two lines that are not blank, and the lowercased output contains the
    filter; the number of instances it reports is the number of such lines
    less the two header lines, so at least 1.  An output of at most two
    non-blank lines is a pass at 'low' even if it contains the filter; a
    return code other than 0 is a pass at 'medium'. *)
Theorem powershell_detection_verdict (w : Platform) (self : StealthTester)
  (result : CompletedProcess) :
  subprocess_run w ["powershell"; "-Command"; ps_command (process_name self)]
  = Ok result ->
  let output := Py.strip (stdout result) in
  let lines := nonblank_lines output in
  exists r,
    test_powershell_detection w self
    = (Ok tt, set_results (results self ++ [r])%list self)
    /\ (passed r = false
        <-> returncode result = 0
            /\ (2 < List.length lines)%nat
            /\ Py.contains (process_name self) (Py.lower output) = true)
    /\ (passed r = false ->
        severity r = "high"
        /\ exists n,
            1 <= n
            /\ Z.of_nat (List.length lines) = n + 2
            /\ details r
               = "Process detected by Get-Process: " ++ Py.str_of_Z n ++ " instances")
    /\ (returncode result <> 0 -> severity r = "medium")
    /\ (returncode result = 0 -> passed r = true -> severity r = "low")
    /\ (returncode result = 0 -> (List.length lines <= 2)%nat -> passed r = true).
Proof.
  intros Hrun output lines.
  unfold test_powershell_detection. unfold_monad. rewrite Hrun.
  fold output. fold (nonblank_lines output). fold lines.
  destruct (returncode result =? 0) eqn:Erc.
  - apply Z.eqb_eq in Erc.
    destruct (2 <? List.length lines)%nat eqn:El.
    + apply Nat.ltb_lt in El.
      destruct (Py.contains (process_name self) (Py.lower output)) eqn:Ec.
      * eexists. split; [reflexivity|]. simpl.
        repeat split; auto; try congruence; try lia.
        exists (Z.of_nat (List.length lines) - 2). repeat split; lia.
      * eexists. split; [reflexivity|]. simpl.
        repeat split; auto; try congruence; try discriminate.
        intros (_ & _ & H). discriminate.
    + apply Nat.ltb_ge in El.
      eexists. split; [reflexivity|]. simpl.
      repeat split; auto; try congruence; try discriminate.
      intros (_ & H & _). lia.
  - apply Z.eqb_neq in Erc.
    eexists. split; [reflexivity|]. simpl.
    repeat split; auto; try congruence; try discriminate.
    intros [H _]. congruence.
Qed.

(** On [Demo.busy] the output is a single line, so the probe passes. *)
Lemma powershell_detection_verdict_witness :
  subprocess_run Demo.busy
    ["powershell"; "-Command"; ps_command (process_name Demo.tester)]
  = Ok {| returncode := 0; stdout := "Image Name,PID MyDRMApp.exe,4242" |}
  /\ exists r,
       test_powershell_detection Demo.busy Demo.tester
       = (Ok tt, set_results (results Demo.tester ++ [r])%list Demo.tester)
       /\ passed r = true.
Proof.
  split; [reflexivity|].
  destruct (powershell_detection_verdict Demo.busy Demo.tester
              {| returncode := 0; stdout := "Image Name,PID MyDRMApp.exe,4242" |}
              eq_refl)
    as (r & Hrun & _ & _ & _ & _ & Hpass).
  exists r. split; [exact Hrun|].
  apply Hpass; [reflexivity | vm_compute; lia].
Defined.

(** ** The window probes *)

Lemma fold_count {A} (f : A -> bool) (body : nat -> A -> nat) (l : list A) :
  (forall n x, body n x = if f x then S n else n) ->
  forall k, fold_left body l k = (k + List.length (filter f l))%nat.
Proof.
  intros Hbody. induction l as [|x l IH]; intros k; simpl; [lia|].
  rewrite Hbody, IH. destruct (f x); simpl; lia.
Qed.

Lemma filter_length_positive {A} (f : A -> bool) (l : list A) :
  (0 < List.length (filter f l))%nat <-> exists x, In x l /\ f x = true.
Proof.
  split.
  - destruct (filter f l) as [|x rest] eqn:E; simpl; [lia|]. intros _.
    assert (Hin : In x (filter f l)) by (rewrite E; now left).
    apply filter_In in Hin. now exists x.
  - intros (x & Hin & Hf).
    assert (Hx : In x (filter f l)) by (apply filter_In; now split).
    destruct (filter f l); [contradiction | simpl; lia].
Qed.

(** The test [x & 2^n] of a flag is the test of bit [n], also for a
    negative [x]. *)
Lemma nonzero_land_pow2 (x n : Z) :
  0 <= n -> nonzero (Z.land x (2 ^ n)) = Z.testbit x n.
Proof.
  intros Hn. unfold nonzero.
  destruct (Z.testbit x n) eqn:E.
  - apply negb_true_iff, Z.eqb_neq. intros H.
    assert (Hb : Z.testbit (Z.land x (2 ^ n)) n = true).
    { rewrite Z.land_spec, E, Z.pow2_bits_true by exact Hn. reflexivity. }
    rewrite H, Z.bits_0 in Hb. discriminate.
  - apply negb_false_iff, Z.eqb_eq. apply Z.bits_inj'. intros m Hm.
    rewrite Z.land_spec, Z.bits_0, Z.pow2_bits_eqb by exact Hn.
    destruct (Z.eqb_spec n m) as [->|_]; [now rewrite E | apply andb_false_r].
Qed.

Lemma count_taskbar_windows_filter w windows :
  count_taskbar_windows w windows = List.length (filter (in_taskbar w) windows).
Proof.
  unfold count_taskbar_windows.
  rewrite (fold_count (in_taskbar w)); [reflexivity|].
  intros n [hwnd title]. unfold in_taskbar, otry, obind; simpl.
  destruct (GetWindowLong w hwnd win32con.GWL_EXSTYLE) as [ex|];
    [|reflexivity].
  destruct (GetWindowLong w hwnd win32con.GWL_STYLE) as [st|];
    [|reflexivity].
  destruct (negb (nonzero (Z.land ex win32con.WS_EX_TOOLWINDOW))
            && nonzero (Z.land st win32con.WS_VISIBLE)); reflexivity.
Qed.

(** X5.  With matched windows, the taskbar probe never raises.  It counts
    the windows whose two styles are read and whose extended style has bit
    7 (WS_EX_TOOLWINDOW) clear and whose style has bit 28 (WS_VISIBLE) set;
    a window whose style query raises is not counted.  It fails at
    'medium', reporting the count, exactly when some window is counted, and
    passes at 'low' otherwise. *)
Theorem taskbar_presence_verdict (w : Platform) (self : StealthTester) :
  target_windows self <> [] ->
  let counted := List.length (filter (in_taskbar w) (target_windows self)) in
  test_taskbar_presence w self
  = (Ok tt,
     if (0 <? counted)%nat then
       with_result w "Taskbar Presence" false
         (Py.str_of_nat counted ++ " windows likely visible in taskbar") "medium" self
     else
       with_result w "Taskbar Presence" true "Windows hidden from taskbar" "low" self)
  /\ ((0 < counted)%nat
      <-> exists window, In window (target_windows self) /\ in_taskbar w window = true)
  /\ (counted <= List.length (target_windows self))%nat
  /\ (forall window ex_style style,
         GetWindowLong w (fst window) win32con.GWL_EXSTYLE = Ok ex_style ->
         GetWindowLong w (fst window) win32con.GWL_STYLE = Ok style ->
         in_taskbar w window = negb (Z.testbit ex_style 7) && Z.testbit style 28)
  /\ (forall window e,
         GetWindowLong w (fst window) win32con.GWL_EXSTYLE = Raise e
         \/ GetWindowLong w (fst window) win32con.GWL_STYLE = Raise e ->
         in_taskbar w window = false).
Proof.
  intros Hw counted. split; [|split; [|split; [|split]]].
  - destruct self as [pn wt rs procs wins]. simpl in *.
    unfold test_taskbar_presence, with_result. unfold_monad.
    cbn [target_windows]. destruct wins as [|win wins]; [congruence|].
    rewrite count_taskbar_windows_filter. fold counted.
    destruct (0 <? counted)%nat; reflexivity.
  - apply filter_length_positive.
  - apply filter_length_le.
  - intros window ex style Hex Hst. unfold in_taskbar. rewrite Hex, Hst.
    change win32con.WS_EX_TOOLWINDOW with (2 ^ 7).
    change win32con.WS_VISIBLE with (2 ^ 28).
    now rewrite !nonzero_land_pow2 by lia.
  - intros window e [H|H]; unfold in_taskbar; rewrite H; [reflexivity|].
    destruct (GetWindowLong w (fst window) win32con.GWL_EXSTYLE); reflexivity.
Qed.

(** On [Demo.busy] the matched window has the style WS_VISIBLE and no
    extended style. *)
Lemma taskbar_presence_verdict_witness :
  target_windows (snd (test_window_enumeration Demo.busy Demo.tester)) <> []
  /\ test_taskbar_presence Demo.busy
       (snd (test_window_enumeration Demo.busy Demo.tester))
     = (Ok tt,
        with_result Demo.busy "Taskbar Presence" false
          "1 windows likely visible in taskbar" "medium"
          (snd (test_window_enumeration Demo.busy Demo.tester))).
Proof.
  split; [discriminate|].
  refine (proj1 (taskbar_presence_verdict Demo.busy
                   (snd (test_window_enumeration Demo.busy Demo.tester)) _)).
  discriminate.
Defined.

Lemma count_alt_tab_visible_filter w windows :
  count_alt_tab_visible w windows = List.length (filter (in_alt_tab w) windows).
Proof.
  unfold count_alt_tab_visible.
  rewrite (fold_count (in_alt_tab w)); [reflexivity|].
  intros n [hwnd title]. unfold in_alt_tab, otry, obind; simpl.
  destruct (IsWindowVisible w hwnd) as [[|]|]; try reflexivity.
  destruct (GetWindowLong w hwnd win32con.GWL_EXSTYLE) as [ex|]; [|reflexivity].
  destruct (negb (nonzero (Z.land ex win32con.WS_EX_TOOLWINDOW)));
    destruct (Py.truthy (Py.strip title)); reflexivity.
Qed.

(** X6.  With matched windows, the Alt+Tab probe never raises.  It counts
    the windows that are still visible, whose extended style is read and
    has bit 7 (WS_EX_TOOLWINDOW) clear, and whose title is not blank; a
    window whose query raises, and a window whose title is white space
    only, is not counted.  It fails at 'medium', reporting the count,
    exactly when some window is counted, and passes at 'low' otherwise. *)
Theorem alt_tab_visibility_verdict (w : Platform) (self : StealthTester) :
  target_windows self <> [] ->
  let counted := List.length (filter (in_alt_tab w) (target_windows self)) in
  test_alt_tab_visibility w self
  = (Ok tt,
     if (0 <? counted)%nat then
       with_result w "Alt+Tab Visibility" false
         (Py.str_of_nat counted ++ " windows likely visible in Alt+Tab") "medium" self
     else
       with_result w "Alt+Tab Visibility" true "Windows hidden from Alt+Tab" "low" self)
  /\ ((0 < counted)%nat
      <-> exists window, In window (target_windows self) /\ in_alt_tab w window = true)
  /\ (counted <= List.length (target_windows self))%nat
  /\ (forall window ex_style,
         IsWindowVisible w (fst window) = Ok true ->
         GetWindowLong w (fst window) win32con.GWL_EXSTYLE = Ok ex_style ->
         in_alt_tab w window
         = negb (Z.testbit ex_style 7) && Py.truthy (Py.strip (snd window)))
  /\ (forall window,
         Py.strip (snd window) = EmptyString -> in_alt_tab w window = false)
  /\ (forall window e,
         IsWindowVisible w (fst window) = Raise e
         \/ IsWindowVisible w (fst window) = Ok false
         \/ GetWindowLong w (fst window) win32con.GWL_EXSTYLE = Raise e ->
         in_alt_tab w window = false).
Proof.
  intros Hw counted. split; [|split; [|split; [|split; [|split]]]].
  - destruct self as [pn wt rs procs wins]. simpl in *.
    unfold test_alt_tab_visibility, with_result. unfold_monad.
    cbn [target_windows]. destruct wins as [|win wins]; [congruence|].
    rewrite count_alt_tab_visible_filter. fold counted.
    destruct (0 <? counted)%nat; reflexivity.
  - apply filter_length_positive.
  - apply filter_length_le.
  - intros window ex Hv Hex. unfold in_alt_tab. rewrite Hv, Hex.
    change win32con.WS_EX_TOOLWINDOW with (2 ^ 7).
    now rewrite nonzero_land_pow2 by lia.
  - intros window Hs. unfold in_alt_tab. rewrite Hs.
    destruct (IsWindowVisible w (fst window)) as [[|]|]; try reflexivity.
    destruct (GetWindowLong w (fst window) win32con.GWL_EXSTYLE);
      [apply andb_false_r | reflexivity].
  - intros window e [H|[H|H]]; unfold in_alt_tab; rewrite H; try reflexivity.
    destruct (IsWindowVisible w (fst window)) as [[|]|]; reflexivity.
Qed.

(** On [Demo.busy] the matched window is visible and titled. *)
Lemma alt_tab_visibility_verdict_witness :
  target_windows (snd (test_window_enumeration Demo.busy Demo.tester)) <> []
  /\ test_alt_tab_visibility Demo.busy
       (snd (test_window_enumeration Demo.busy Demo.tester))
     = (Ok tt,
        with_result Demo.busy "Alt+Tab Visibility" false
          "1 windows likely visible in Alt+Tab" "medium"
          (snd (test_window_enumeration Demo.busy Demo.tester))).
Proof.
  split; [discriminate|].
  refine (proj1 (alt_tab_visibility_verdict Demo.busy
                   (snd (test_window_enumeration Demo.busy Demo.tester)) _)).
  discriminate.
Defined.

(** ** The injection and debugging probes *)

Lemma fold_attempts {A} (f : A -> bool) (body : nat * nat -> A -> nat * nat)
  (l : list A) :
  (forall a s x, body (a, s) x = (S a, if f x then S s else s)) ->
  forall a s,
    fold_left body l (a, s)
    = ((a + List.length l)%nat, (s + List.length (filter f l))%nat).
Proof.
  intros Hbody. induction l as [|x l IH]; intros a s; simpl.
  - f_equal; lia.
  - rewrite Hbody, IH. destruct (f x); simpl; f_equal; lia.
Qed.

Lemma scan_injection_counts w procs :
  scan_injection w procs
  = (List.length procs, List.length (filter (injectable w) procs)).
Proof.
  unfold scan_injection.
  rewrite (fold_attempts (injectable w)); [reflexivity|].
  intros a s proc. unfold injectable, injection_access.
  destruct (OpenProcess w _ (pid proc)) as [handle|]; [|reflexivity].
  destruct (nonzero handle); [|reflexivity].
  destruct (CloseHandle w handle); reflexivity.
Qed.

Lemma scan_debugging_counts w procs :
  scan_debugging w procs
  = (List.length procs, List.length (filter (debuggable w) procs)).
Proof.
  unfold scan_debugging.
  rewrite (fold_attempts (debuggable w)); [reflexivity|].
  intros a s proc. unfold debuggable.
  destruct (OpenProcess w _ (pid proc)) as [handle|]; [|reflexivity].
  destruct (nonzero handle); [|reflexivity]. simpl.
  destruct (DebugActiveProcess w (pid proc));
    [destruct (DebugActiveProcessStop w (pid proc))|];
    destruct (CloseHandle w handle); reflexivity.
Qed.

(** X7.  With matched processes, the injection probe never raises, whatever
    [OpenProcess] and [CloseHandle] raise.  It makes one attempt per matched
    process, asking for the access PROCESS_VM_WRITE | PROCESS_VM_OPERATION
    (40), and counts a success when the handle returned is not null, also
    when closing it fails.  It fails at 'high', reporting successes/attempts,
    exactly when some process is opened, and passes at 'low' otherwise. *)
Theorem injection_resistance_verdict (w : Platform) (self : StealthTester) :
  target_processes self <> [] ->
  let attempts := List.length (target_processes self) in
  let successes := List.length (filter (injectable w) (target_processes self)) in
  test_process_injection_resistance w self
  = (Ok tt,
     if (0 <? successes)%nat then
       with_result w "Process Injection Resistance" false
         (Py.str_of_nat successes ++ "/" ++ Py.str_of_nat attempts
          ++ " processes vulnerable to injection") "high" self
     else
       with_result w "Process Injection Resistance" true
         ("All " ++ Py.str_of_nat attempts ++ " processes protected from injection")
         "low" self)
  /\ (successes <= attempts)%nat
  /\ ((0 < successes)%nat
      <-> exists proc handle,
            In proc (target_processes self)
            /\ OpenProcess w 40 (pid proc) = Ok handle
            /\ handle <> 0).
Proof.
  intros Hp attempts successes. split; [|split].
  - destruct self as [pn wt rs procs wins]. simpl in *.
    unfold test_process_injection_resistance, with_result. unfold_monad.
    cbn [target_processes]. destruct procs as [|p procs]; [congruence|].
    rewrite scan_injection_counts. fold attempts successes.
    destruct (0 <? successes)%nat; reflexivity.
  - apply filter_length_le.
  - unfold successes. rewrite filter_length_positive.
    change 40 with injection_access. split.
    + intros (proc & Hin & Hi). unfold injectable in Hi.
      destruct (OpenProcess w injection_access (pid proc)) as [handle|] eqn:E;
        [|discriminate].
      exists proc, handle. repeat split; auto.
      unfold nonzero in Hi. apply negb_true_iff, Z.eqb_neq in Hi. exact Hi.
    + intros (proc & handle & Hin & Ho & Hh). exists proc. split; [exact Hin|].
      unfold injectable. rewrite Ho. unfold nonzero.
      now apply negb_true_iff, Z.eqb_neq.
Qed.

(** On [Demo.busy] every [OpenProcess] is denied. *)
Lemma injection_resistance_verdict_witness :
  target_processes Demo.tracking <> []
  /\ test_process_injection_resistance Demo.busy Demo.tracking
     = (Ok tt,
        with_result Demo.busy "Process Injection Resistance" true
          "All 1 processes protected from injection" "low" Demo.tracking).
Proof.
  split; [discriminate|].
  refine (proj1 (injection_resistance_verdict Demo.busy Demo.tracking _)).
  discriminate.
Defined.

(** X8.  With matched processes, the debugging probe never raises.  It
    makes one attempt per matched process and counts a success when
    [OpenProcess] with PROCESS_ALL_ACCESS returns a handle that is not null
    and [DebugActiveProcess] returns, whatever the detaching and the closing
    of the handle do afterwards.  It fails at 'critical', reporting
    successes/attempts, exactly when some process is attached to, and passes
    at 'low' otherwise. *)
Theorem debugging_protection_verdict (w : Platform) (self : StealthTester) :
  target_processes self <> [] ->
  let attempts := List.length (target_processes self) in
  let successes := List.length (filter (debuggable w) (target_processes self)) in
  test_debugging_protection w self
  = (Ok tt,
     if (0 <? successes)%nat then
       with_result w "Anti-Debugging Protection" false
         (Py.str_of_nat successes ++ "/" ++ Py.str_of_nat attempts
          ++ " processes vulnerable to debugging") "critical" self
     else
       with_result w "Anti-Debugging Protection" true
         ("All " ++ Py.str_of_nat attempts ++ " processes protected from debugging")
         "low" self)
  /\ (successes <= attempts)%nat
  /\ ((0 < successes)%nat
      <-> exists proc handle,
            In proc (target_processes self)
            /\ OpenProcess w 2035711 (pid proc) = Ok handle
            /\ handle <> 0
            /\ DebugActiveProcess w (pid proc) = Ok tt).
Proof.
  intros Hp attempts successes. split; [|split].
  - destruct self as [pn wt rs procs wins]. simpl in *.
    unfold test_debugging_protection, with_result. unfold_monad.
    cbn [target_processes]. destruct procs as [|p procs]; [congruence|].
    rewrite scan_debugging_counts. fold attempts successes.
    destruct (0 <? successes)%nat; reflexivity.
  - apply filter_length_le.
  - unfold successes. rewrite filter_length_positive.
    change 2035711 with win32con.PROCESS_ALL_ACCESS. split.
    + intros (proc & Hin & Hd). unfold debuggable in Hd.
      destruct (OpenProcess w win32con.PROCESS_ALL_ACCESS (pid proc))
        as [handle|] eqn:E; [|discriminate].
      apply andb_true_iff in Hd. destruct Hd as [Hh Hd].
      destruct (DebugActiveProcess w (pid proc)) as [[]|] eqn:Ed; [|discriminate].
      exists proc, handle. repeat split; auto.
      unfold nonzero in Hh. apply negb_true_iff, Z.eqb_neq in Hh. exact Hh.
    + intros (proc & handle & Hin & Ho & Hh & Hd). exists proc.
      split; [exact Hin|]. unfold debuggable. rewrite Ho, Hd.
      unfold nonzero. rewrite andb_true_r. now apply negb_true_iff, Z.eqb_neq.
Qed.

(** On [Demo.busy] every [OpenProcess] is denied. *)
Lemma debugging_protection_verdict_witness :
  target_processes Demo.tracking <> []
  /\ test_debugging_protection Demo.busy Demo.tracking
     = (Ok tt,
        with_result Demo.busy "Anti-Debugging Protection" true
          "All 1 processes protected from debugging" "low" Demo.tracking).
Proof.
  split; [discriminate|].
  refine (proj1 (debugging_protection_verdict Demo.busy Demo.tracking _)).
  discriminate.
Defined.

(** ** The probes that loop over the processes *)

Lemma for_each_collect {A B} (f : A -> list B)
  (body : list B -> A -> outcome (list B)) (l : list A) :
  (forall acc x, In x l -> body acc x = Ok (acc ++ f x)%list) ->
  forall acc, for_each body acc l = Ok (acc ++ flat_map f l)%list.
Proof.
  induction l as [|x l IH]; intros Hbody acc; cbn [for_each flat_map].
  - now rewrite app_nil_r.
  - rewrite Hbody by now left.
    rewrite IH by (intros; apply Hbody; now right).
    now rewrite app_assoc.
Qed.

Lemma in_list_In (x : string) (l : list string) :
  Py.in_list x l = true <-> In x l.
Proof.
  unfold Py.in_list. rewrite existsb_exists. split.
  - intros (y & Hin & Heq). apply String.eqb_eq in Heq. now subst.
  - intros Hin. exists x. split; [exact Hin | apply String.eqb_refl].
Qed.

Lemma scan_process_tree_entries w procs :
  tree_errors_benign w procs ->
  scan_process_tree w procs = Ok (flat_map (suspicious_parent w) procs).
Proof.
  intros Hb. unfold scan_process_tree.
  apply (for_each_collect (suspicious_parent w)) with (acc := []).
  intros acc proc Hin. destruct (Hb proc Hin) as (Hp & Hn & Hpn).
  unfold suspicious_parent, Py.append.
  destruct (proc_parent w proc) as [[parent|]|e] eqn:Ep.
  - destruct (proc_name w parent) as [pname|e] eqn:En.
    + destruct (negb (Py.in_list (Py.lower pname) legitimate_parents)).
      * destruct (proc_name w proc) as [name|e] eqn:Em; [reflexivity|].
        rewrite continue_on_psutil_ok by eauto. now rewrite app_nil_r.
      * now rewrite app_nil_r.
    + rewrite continue_on_psutil_ok by eauto. now rewrite app_nil_r.
  - now rewrite app_nil_r.
  - rewrite continue_on_psutil_ok by eauto. now rewrite app_nil_r.
Qed.

(** X9.  With matched processes whose queries raise nothing but
    NoSuchProcess or AccessDenied, the process-tree probe fails at 'medium'
    exactly when, for some process, the parent is read, the parent's
    lowercased name is none of explorer.exe, services.exe, winlogon.exe,
    dwm.exe, and the name of the process is read; the details list each such
    pair as child→parent.  A process without parent, one whose parent is on
    the list whatever its letter case, and one whose query fails are never
    reported; if none is reported the probe passes at 'low'. *)
Theorem process_tree_verdict (w : Platform) (self : StealthTester) :
  target_processes self <> [] ->
  tree_errors_benign w (target_processes self) ->
  let entries := flat_map (suspicious_parent w) (target_processes self) in
  test_process_tree w self
  = (Ok tt,
     match entries with
     | [] =>
         with_result w "Process Tree Analysis" true
           "Process tree appears legitimate" "low" self
     | _ :: _ =>
         with_result w "Process Tree Analysis" false
           ("Suspicious parent processes: " ++ Py.repr_list entries) "medium" self
     end)
  /\ (forall proc, proc_parent w proc = Ok None -> suspicious_parent w proc = [])
  /\ (forall proc parent pname,
         proc_parent w proc = Ok (Some parent) ->
         proc_name w parent = Ok pname ->
         In (Py.lower pname) legitimate_parents ->
         suspicious_parent w proc = [])
  /\ (forall proc parent pname name,
         proc_parent w proc = Ok (Some parent) ->
         proc_name w parent = Ok pname ->
         ~ In (Py.lower pname) legitimate_parents ->
         proc_name w proc = Ok name ->
         suspicious_parent w proc = [name ++ "→" ++ Py.lower pname]).
Proof.
  intros Hp Hb entries. split; [|split; [|split]].
  - destruct self as [pn wt rs procs wins]. simpl in *.
    unfold test_process_tree, with_result. unfold_monad.
    cbn [target_processes]. destruct procs as [|p procs]; [congruence|].
    rewrite (scan_process_tree_entries w _ Hb). fold entries.
    destruct entries; reflexivity.
  - intros proc H. unfold suspicious_parent. now rewrite H.
  - intros proc parent pname H1 H2 Hin. unfold suspicious_parent.
    rewrite H1, H2. apply in_list_In in Hin. now rewrite Hin.
  - intros proc parent pname name H1 H2 Hin H3. unfold suspicious_parent.
    rewrite H1, H2, H3.
    destruct (Py.in_list (Py.lower pname) legitimate_parents) eqn:E;
      [apply in_list_In in E; contradiction | reflexivity].
Qed.

(** On [Demo.busy] the parent of the process is explorer.exe. *)
Lemma process_tree_verdict_witness :
  target_processes Demo.tracking <> []
  /\ tree_errors_benign Demo.busy (target_processes Demo.tracking)
  /\ test_process_tree Demo.busy Demo.tracking
     = (Ok tt,
        with_result Demo.busy "Process Tree Analysis" true
          "Process tree appears legitimate" "low" Demo.tracking).
Proof.
  assert (Hb : tree_errors_benign Demo.busy (target_processes Demo.tracking)).
  { intros proc [<-|[]]. repeat split; intros; try discriminate.
    match goal with H : proc_parent _ _ = Ok (Some _) |- _ => inversion H; subst end.
    discriminate. }
  split; [discriminate|]. split; [exact Hb|].
  refine (proj1 (process_tree_verdict Demo.busy Demo.tracking _ Hb)).
  discriminate.
Defined.

Lemma scan_names_entries w procs :
  (forall proc e, In proc procs -> proc_name w proc = Raise e ->
                  is_psutil_error e = true) ->
  scan_names w procs = Ok (flat_map (suspicious_name w) procs).
Proof.
  intros Hn. unfold scan_names.
  apply (for_each_collect (suspicious_name w)) with (acc := []).
  intros acc proc Hin. unfold suspicious_name, Py.append.
  destruct (proc_name w proc) as [n|e] eqn:E.
  - destruct (negb (existsb (fun pattern => Py.contains pattern (Py.lower n))
                      legitimate_patterns)); [reflexivity | now rewrite app_nil_r].
  - rewrite continue_on_psutil_ok by eauto. now rewrite app_nil_r.
Qed.

(** X10.  With matched processes whose name query raises nothing but
    NoSuchProcess or AccessDenied, the name-legitimacy probe fails at
    'medium' exactly when the lowercased name of some process contains none
    of the ten keywords; the details list these lowercased names.  A name
    that contains a keyword in any letter case, and a process whose name
    cannot be read, are never reported; if none is reported the probe passes
    at 'low'. *)
Theorem process_name_legitimacy_verdict (w : Platform) (self : StealthTester) :
  target_processes self <> [] ->
  (forall proc e, In proc (target_processes self) -> proc_name w proc = Raise e ->
                  is_psutil_error e = true) ->
  let entries := flat_map (suspicious_name w) (target_processes self) in
  test_process_name_legitimacy w self
  = (Ok tt,
     match entries with
     | [] =>
         with_result w "Process Name Legitimacy" true
           "Process names appear legitimate" "low" self
     | _ :: _ =>
         with_result w "Process Name Legitimacy" false
           ("Suspicious process names: " ++ Py.repr_list entries) "medium" self
     end)
  /\ (forall proc n keyword,
         proc_name w proc = Ok n ->
         In keyword legitimate_patterns ->
         (exists pre post, Py.lower n = pre ++ keyword ++ post) ->
         suspicious_name w proc = [])
  /\ (forall proc n,
         proc_name w proc = Ok n ->
         (forall keyword, In keyword legitimate_patterns ->
                          Py.contains keyword (Py.lower n) = false) ->
         suspicious_name w proc = [Py.lower n])
  /\ (forall proc e, proc_name w proc = Raise e -> suspicious_name w proc = []).
Proof.
  intros Hp Hn entries. split; [|split; [|split]].
  - destruct self as [pn wt rs procs wins]. simpl in *.
    unfold test_process_name_legitimacy, with_result. unfold_monad.
    cbn [target_processes]. destruct procs as [|p procs]; [congruence|].
    rewrite (scan_names_entries w _ Hn). fold entries.
    destruct entries; reflexivity.
  - intros proc n keyword H Hin Hsub. unfold suspicious_name. rewrite H.
    assert (He : existsb (fun pattern => Py.contains pattern (Py.lower n))
                   legitimate_patterns = true).
    { apply existsb_exists. exists keyword. split; [exact Hin|].
      now apply contains_app. }
    now rewrite He.
  - intros proc n H Hnone. unfold suspicious_name. rewrite H.
    assert (He : existsb (fun pattern => Py.contains pattern (Py.lower n))
                   legitimate_patterns = false).
    { destruct (existsb _ legitimate_patterns) eqn:E; [|reflexivity].
      apply existsb_exists in E. destruct E as (k & Hin & Hc).
      rewrite (Hnone k Hin) in Hc. discriminate. }
    now rewrite He.
  - intros proc e H. unfold suspicious_name. now rewrite H.
Qed.

(** On [Demo.busy] the name mydrmapp.exe contains no keyword. *)
Lemma process_name_legitimacy_verdict_witness :
  target_processes Demo.tracking <> []
  /\ (forall proc e, In proc (target_processes Demo.tracking) ->
                     proc_name Demo.busy proc = Raise e -> is_psutil_error e = true)
  /\ test_process_name_legitimacy Demo.busy Demo.tracking
     = (Ok tt,
        with_result Demo.busy "Process Name Legitimacy" false
          "Suspicious process names: ['mydrmapp.exe']" "medium" Demo.tracking).
Proof.
  assert (Hn : forall proc e, In proc (target_processes Demo.tracking) ->
                              proc_name Demo.busy proc = Raise e ->
                              is_psutil_error e = true)
    by (intros proc e [<-|[]] H; discriminate H).
  split; [discriminate|]. split; [exact Hn|].
  refine (proj1 (process_name_legitimacy_verdict Demo.busy Demo.tracking _ Hn)).
  discriminate.
Defined.

Lemma external_addresses_fold (connections : list sconn) : forall acc,
  fold_left
    (fun suspicious conn =>
       match raddr conn with
       | Some (ip, port) =>
           if negb (Py.in_list ip ["127.0.0.1"; "::1"])
           then Py.append suspicious (ip ++ ":" ++ Py.str_of_Z port)
           else suspicious
       | None => suspicious
       end)
    connections acc
  = (acc ++ external_addresses connections)%list.
Proof.
  unfold external_addresses.
  induction connections as [|conn l IH]; intros acc; cbn [fold_left flat_map].
  - now rewrite app_nil_r.
  - rewrite IH. destruct (raddr conn) as [[ip port]|]; [|reflexivity].
    destruct (negb (Py.in_list ip ["127.0.0.1"; "::1"])); [|reflexivity].
    unfold Py.append. now rewrite <- app_assoc.
Qed.

Lemma external_addresses_app (a b : list sconn) :
  external_addresses (a ++ b) = (external_addresses a ++ external_addresses b)%list.
Proof. unfold external_addresses. apply flat_map_app. Qed.

Lemma scan_connections_seen w procs :
  (forall proc e, In proc procs -> proc_connections w proc = Raise e ->
                  is_psutil_error e = true) ->
  scan_connections w procs
  = Ok (List.length (flat_map (connections_seen w) procs),
        external_addresses (flat_map (connections_seen w) procs)).
Proof.
  intros Hc. unfold scan_connections.
  enough (H : forall total suspicious,
             for_each
               (fun '(total_connections, suspicious_connections) proc =>
                  match proc_connections w proc with
                  | Raise e =>
                      continue_on_psutil e (total_connections, suspicious_connections)
                  | Ok connections =>
                      Ok ((total_connections + List.length connections)%nat,
                          fold_left
                            (fun suspicious conn =>
                               match raddr conn with
                               | Some (ip, port) =>
                                   if negb (Py.in_list ip ["127.0.0.1"; "::1"])
                                   then Py.append suspicious
                                          (ip ++ ":" ++ Py.str_of_Z port)
                                   else suspicious
                               | None => suspicious
                               end)
                            connections suspicious_connections)
                  end)
               (total, suspicious) procs
             = Ok ((total + List.length (flat_map (connections_seen w) procs))%nat,
                   (suspicious
                    ++ external_addresses (flat_map (connections_seen w) procs))%list))
    by exact (H O []).
  induction procs as [|p procs IH]; intros total suspicious;
    cbn [for_each flat_map].
  - rewrite app_nil_r. simpl. now rewrite Nat.add_0_r.
  - unfold connections_seen at 1 3.
    destruct (proc_connections w p) as [connections|e] eqn:E.
    + rewrite external_addresses_fold.
      rewrite IH by (intros; eapply Hc; eauto; now right).
      rewrite length_app, external_addresses_app, app_assoc.
      now rewrite Nat.add_assoc.
    + rewrite continue_on_psutil_ok by (eapply Hc; eauto; now left).
      apply IH. intros; eapply Hc; eauto; now right.
Qed.

(** X11.  With matched processes whose connection query raises nothing but
    NoSuchProcess or AccessDenied, the network probe fails at 'medium'
    exactly when some connection that is read has a remote address other
    than 127.0.0.1 and ::1; its details show at most the first three such
    addresses as ip:port.  Otherwise it passes at 'low', reporting the
    number of connections read if there is any.  A connection without
    remote address, and the connections of a process whose query fails, are
    never external. *)
Theorem network_connections_verdict (w : Platform) (self : StealthTester) :
  target_processes self <> [] ->
  (forall proc e, In proc (target_processes self) ->
                  proc_connections w proc = Raise e -> is_psutil_error e = true) ->
  let seen := flat_map (connections_seen w) (target_processes self) in
  let external := external_addresses seen in
  test_network_connections w self
  = (Ok tt,
     match external with
     | _ :: _ =>
         with_result w "Network Connections" false
           ("External connections detected: " ++ Py.repr_list (firstn 3 external))
           "medium" self
     | [] =>
         if (0 <? List.length seen)%nat then
           with_result w "Network Connections" true
             ("Only localhost connections detected ("
              ++ Py.str_of_nat (List.length seen) ++ ")") "low" self
         else
           with_result w "Network Connections" true
             "No network connections detected" "low" self
     end)
  /\ (List.length (firstn 3 external) <= 3)%nat
  /\ (external <> []
      <-> exists conn ip port,
            In conn seen /\ raddr conn = Some (ip, port)
            /\ ip <> "127.0.0.1" /\ ip <> "::1")
  /\ (forall proc e, proc_connections w proc = Raise e -> connections_seen w proc = []).
Proof.
  intros Hp Hc seen external. split; [|split; [|split]].
  - destruct self as [pn wt rs procs wins]. simpl in *.
    unfold test_network_connections, with_result. unfold_monad.
    cbn [target_processes]. destruct procs as [|p procs]; [congruence|].
    rewrite (scan_connections_seen w _ Hc). fold seen. fold external.
    destruct external; [destruct (0 <? List.length seen)%nat|]; reflexivity.
  - apply firstn_le_length.
  - subst external. unfold external_addresses.
    generalize seen. clear. intros seen.
    induction seen as [|conn l IH]; cbn [flat_map].
    + split; [congruence | intros (? & ? & ? & [] & _)].
    + destruct (raddr conn) as [[ip port]|] eqn:E.
      * destruct (Py.in_list ip ["127.0.0.1"; "::1"]) eqn:Ei; cbn [negb app].
        -- rewrite IH. split.
           ++ intros (c & i & p & Hin & H). exists c, i, p. split; [now right|exact H].
           ++ intros (c & i & p & [->|Hin] & Hr & H1 & H2).
              ** rewrite E in Hr. inversion Hr; subst.
                 apply in_list_In in Ei. destruct Ei as [<-|[<-|[]]]; congruence.
              ** exists c, i, p. auto.
        -- split; [|discriminate]. intros _. exists conn, ip, port.
           split; [now left|]. split; [exact E|].
           split; intros ->; discriminate Ei.
      * cbn [app]. rewrite IH. split.
        -- intros (c & i & p & Hin & H). exists c, i, p. split; [now right|exact H].
        -- intros (c & i & p & [->|Hin] & Hr & H).
           ++ rewrite E in Hr. discriminate.
           ++ exists c, i, p. auto.
  - intros proc e H. unfold connections_seen. now rewrite H.
Qed.

(** On [Demo.busy] the process has one connection, to 127.0.0.1. *)
Lemma network_connections_verdict_witness :
  target_processes Demo.tracking <> []
  /\ (forall proc e, In proc (target_processes Demo.tracking) ->
                     proc_connections Demo.busy proc = Raise e ->
                     is_psutil_error e = true)
  /\ test_network_connections Demo.busy Demo.tracking
     = (Ok tt,
        with_result Demo.busy "Network Connections" true
          "Only localhost connections detected (1)" "low" Demo.tracking).
Proof.
  assert (Hc : forall proc e, In proc (target_processes Demo.tracking) ->
                              proc_connections Demo.busy proc = Raise e ->
                              is_psutil_error e = true)
    by (intros proc e _ H; discriminate H).
  split; [discriminate|]. split; [exact Hc|].
  refine (proj1 (network_connections_verdict Demo.busy Demo.tracking _ Hc)).
  discriminate.
Defined.

(** ** The screen-capture probe *)

(** X12.  The screen-capture probe never raises and appends one result.
    The result is a failure, at 'critical' and with the size of the file in
    its details, exactly when every step of the capture succeeds, the file
    exists and its size is read and exceeds 1000 bytes; a file of exactly
    1000 bytes is a pass ('blocked or corrupted'), a file that does not
    exist is a pass ('completely blocked'), and every pass is at 'low'. *)
Theorem screen_capture_verdict (w : Platform) (self : StealthTester) :
  exists r,
    test_screen_capture_protection w self
    = (Ok tt, set_results (results self ++ [r])%list self)
    /\ test r = "Screen Capture Protection"
    /\ (passed r = false
        <-> capture_error (screen w) = None
            /\ path_exists (screen w) = true
            /\ exists size, getsize (screen w) = Ok size /\ 1000 < size)
    /\ (passed r = false ->
        severity r = "critical"
        /\ exists size,
            getsize (screen w) = Ok size
            /\ details r
               = "Screenshot successful (" ++ Py.str_of_Z size
                 ++ " bytes) - DRM protection may be bypassed")
    /\ (passed r = true -> severity r = "low")
    /\ (capture_error (screen w) = None -> path_exists (screen w) = true ->
        passed r = true ->
        details r = "Screenshot blocked or corrupted - DRM protection working"
        /\ exists size, getsize (screen w) = Ok size /\ size <= 1000)
    /\ (capture_error (screen w) = None -> path_exists (screen w) = false ->
        details r = "Screenshot completely blocked").
Proof.
  unfold test_screen_capture_protection, capture_error. unfold_monad.
  destruct (mss_open (screen w)) as [[]|e1];
    [|eexists; split; [reflexivity|]; simpl; repeat split;
      try discriminate; try congruence; intros (H & _); discriminate].
  destruct (monitor_1 (screen w)) as [[]|e2];
    [|eexists; split; [reflexivity|]; simpl; repeat split;
      try discriminate; try congruence; intros (H & _); discriminate].
  destruct (grab (screen w)) as [[]|e3];
    [|eexists; split; [reflexivity|]; simpl; repeat split;
      try discriminate; try congruence; intros (H & _); discriminate].
  destruct (to_png (screen w)) as [[]|e4];
    [|eexists; split; [reflexivity|]; simpl; repeat split;
      try discriminate; try congruence; intros (H & _); discriminate].
  destruct (path_exists (screen w)).
  - destruct (getsize (screen w)) as [size|e5];
      [|eexists; split; [reflexivity|]; simpl; repeat split;
        try discriminate; try congruence; intros (H & _); discriminate].
    destruct (1000 <? size) eqn:E.
    + apply Z.ltb_lt in E.
      eexists. split; [reflexivity|]. simpl.
      repeat split; try discriminate; try congruence; eauto.
    + apply Z.ltb_ge in E.
      eexists. split; [reflexivity|]. simpl.
      repeat split; try discriminate; try congruence; eauto.
      intros (_ & _ & s & Hs & Hlt). inversion Hs; subst. lia.
  - eexists. split; [reflexivity|]. simpl.
    repeat split; try discriminate; try congruence.
    intros (_ & H & _). discriminate.
Qed.

(** ** The sampling of the CPU probe *)

Lemma flat_map_singleton {A B} (g : A -> B) (l : list A) :
  flat_map (fun x => [g x]) l = map g l.
Proof. induction l as [|x l IH]; simpl; [reflexivity | now rewrite IH]. Qed.

Lemma cpu_round_all (w : Platform) (usage : nat -> Process -> float) (i : nat)
  (procs : list Process) :
  (forall p, In p procs -> proc_cpu_percent w i p = Ok (usage i p)) ->
  cpu_round w i procs
  = Ok (fold_left PrimFloat.add (map (usage i) procs) 0%float, List.length procs).
Proof.
  intros Hu. unfold cpu_round.
  enough (H : forall total active,
             for_each
               (fun '(total_cpu, active_procs) proc =>
                  match proc_cpu_percent w i proc with
                  | Raise e => continue_on_psutil e (total_cpu, active_procs)
                  | Ok cpu_percent =>
                      Ok (PrimFloat.add total_cpu cpu_percent, S active_procs)
                  end) (total, active) procs
             = Ok (fold_left PrimFloat.add (map (usage i) procs) total,
                   (active + List.length procs)%nat))
    by exact (H 0%float O).
  induction procs as [|p procs IH]; intros total active;
    cbn [for_each map fold_left List.length].
  - now rewrite Nat.add_0_r.
  - rewrite Hu by now left.
    rewrite IH by (intros; apply Hu; now right).
    now rewrite Nat.add_succ_r.
Qed.

Lemma cpu_round_none (w : Platform) (i : nat) (procs : list Process) :
  (forall p, In p procs ->
             exists e, proc_cpu_percent w i p = Raise e /\ is_psutil_error e = true) ->
  cpu_round w i procs = Ok (0%float, O).
Proof.
  intros Hu. unfold cpu_round.
  induction procs as [|p procs IH]; cbn [for_each]; [reflexivity|].
  destruct (Hu p) as (e & -> & He); [now left|].
  rewrite continue_on_psutil_ok by exact He.
  apply IH. intros; apply Hu; now right.
Qed.

Lemma In_seq_5 (i : nat) : In i (seq 0 5) -> (i < 5)%nat.
Proof. intros H. apply in_seq in H. lia. Qed.

(** X13.  When every matched process answers in each of the five rounds,
    the sampling loop of the CPU probe collects exactly five samples, the
    i-th being the binary64 sum of the answers of round i, added from 0.0
    in the order of the processes, divided in binary64 by the number of
    processes.  When in each round every process raises NoSuchProcess or
    AccessDenied, no sample is collected and the probe passes at 'low' with
    'No CPU usage data available'. *)
Theorem cpu_sampling :
  (forall (w : Platform) (procs : list Process) (usage : nat -> Process -> float),
      procs <> [] ->
      (forall i p, (i < 5)%nat -> In p procs ->
                   proc_cpu_percent w i p = Ok (usage i p)) ->
      collect_cpu_samples w procs
      = Ok (map (round_average usage procs) [0; 1; 2; 3; 4]%nat))
  /\ (forall (w : Platform) (self : StealthTester),
         target_processes self <> [] ->
         (forall i p, (i < 5)%nat -> In p (target_processes self) ->
                      exists e, proc_cpu_percent w i p = Raise e
                                /\ is_psutil_error e = true) ->
         collect_cpu_samples w (target_processes self) = Ok []
         /\ test_cpu_usage w self
            = (Ok tt,
               with_result w "CPU Usage" true "No CPU usage data available" "low"
                 self)).
Proof.
  split.
  - intros w procs usage Hne Hu. unfold collect_cpu_samples.
    rewrite (for_each_collect (fun i => [round_average usage procs i])).
    + rewrite flat_map_singleton. reflexivity.
    + intros acc i Hi. apply In_seq_5 in Hi.
      rewrite (cpu_round_all w usage i procs) by (intros; now apply Hu).
      cbn [obind]. destruct procs as [|p procs]; [congruence|].
      reflexivity.
  - intros w self Hne Hu.
    assert (Hc : collect_cpu_samples w (target_processes self) = Ok []).
    { unfold collect_cpu_samples.
      rewrite (for_each_collect (fun _ : nat => @nil float)).
      - reflexivity.
      - intros acc i Hi. apply In_seq_5 in Hi.
        rewrite cpu_round_none by (intros; now apply Hu).
        cbn [obind]. now rewrite app_nil_r. }
    split; [exact Hc|].
    destruct self as [pn wt rs procs wins]. simpl in *.
    unfold test_cpu_usage, with_result. unfold_monad. cbn [target_processes].
    destruct procs as [|p procs]; [congruence|].
    rewrite Hc. reflexivity.
Qed.

(** On [Demo.busy] the one process answers 10, 20, 30, 70, 15. *)
Lemma cpu_sampling_witness :
  [Demo.app] <> []
  /\ (forall i p, (i < 5)%nat -> In p [Demo.app] ->
                  proc_cpu_percent Demo.busy i p
                  = Ok (nth i [10; 20; 30; 70; 15] 0)%float)
  /\ collect_cpu_samples Demo.busy [Demo.app]
     = Ok (map (round_average (fun i _ => nth i [10; 20; 30; 70; 15] 0)%float
                  [Demo.app])
             [0; 1; 2; 3; 4]%nat).
Proof.
  split; [discriminate|]. split; [reflexivity|].
  apply (proj1 cpu_sampling Demo.busy [Demo.app]
           (fun i _ => nth i [10; 20; 30; 70; 15] 0)%float);
    [discriminate | reflexivity].
Defined.

(** X21.  The arithmetic of the CPU probe is the interpreter's.  Three
    processes that answer 28.8, 99.4 and 21.8 give, in binary64, a sample
    just above 50 (0.0 + 28.8 + 99.4 + 21.8 is not 150), so that the probe
    fails at 'medium' although the exact average is 50; its details print
    both figures as 50.0.  One process that answers 1.75 and then 0 four
    times gives the mean 1.75 / 5, the float nearest to 0.35, which lies under it
    and is printed as 0.3 where the exact 0.35 would round to 0.4, and the
    maximum 1.75, printed as 1.8.  Both sums of the interpreter
    agree on these samples. *)
Theorem cpu_arithmetic_is_binary64 :
  cpu_round trio_platform 0 trio = Ok (PrimFloat.add 150 0x1p-45, 3%nat)
  /\ collect_cpu_samples trio_platform trio
     = Ok (repeat (PrimFloat.add 50 0x1p-47) 5)
  /\ PrimFloat.ltb 50 (PrimFloat.add 50 0x1p-47) = true
  /\ (forall compensated,
         test_cpu_usage
           (with_compensated_sum compensated trio_platform) trio_tester
         = (Ok tt,
            with_result trio_platform "CPU Usage" false
              "High CPU usage detected: avg=50.0%, max=50.0%" "medium"
              trio_tester))
  /\ collect_cpu_samples spike_platform [Demo.app] = Ok [1.75; 0; 0; 0; 0]%float
  /\ Py.format_1f_float (PrimFloat.div 1.75 5) = "0.3"
  /\ Py.format_1f (35 # 100) = "0.4"
  /\ (forall compensated,
         test_cpu_usage
           (with_compensated_sum compensated spike_platform) Demo.tracking
         = (Ok tt,
            with_result spike_platform "CPU Usage" true
              "Normal CPU usage: avg=0.3%, max=1.8%" "low" Demo.tracking)).
Proof.
  split; [vm_compute; reflexivity|].
  split; [vm_compute; reflexivity|].
  split; [vm_compute; reflexivity|].
  split; [intros []; vm_compute; reflexivity|].
  split; [vm_compute; reflexivity|].
  split; [vm_compute; reflexivity|].
  split; [vm_compute; reflexivity|].
  intros []; vm_compute; reflexivity.
Qed.

(** ** The total of the memory probe *)

Lemma scan_memory_total_read w procs :
  (forall p e, In p procs -> proc_memory_info_rss w p = Raise e ->
               is_psutil_error e = true) ->
  (forall p e, In p procs -> proc_name w p = Raise e -> is_psutil_error e = true) ->
  scan_memory w procs
  = Ok (fold_left Qplus (flat_map (memory_read w) procs) 0%Q,
        high_memory_entries w procs).
Proof.
  intros Hm Hn. unfold scan_memory, high_memory_entries.
  enough (H : forall total highs,
             for_each (memory_step w) (total, highs) procs
             = Ok (fold_left Qplus (flat_map (memory_read w) procs) total,
                   (highs ++ flat_map
                               (fun proc => match high_memory_entry w proc with
                                            | Some entry => [entry]
                                            | None => []
                                            end) procs)%list))
    by exact (H 0%Q []).
  induction procs as [|p procs IH]; intros total highs;
    cbn [for_each flat_map].
  - now rewrite app_nil_r.
  - assert (IH' := IH (fun q e Hq => Hm q e (or_intror Hq))
                      (fun q e Hq => Hn q e (or_intror Hq))).
    unfold memory_step at 1. unfold high_memory_entry at 1. unfold memory_read at 1.
    destruct (proc_memory_info_rss w p) as [rss|e] eqn:Em.
    + destruct (Qgtb (memory_mb_of rss) 500).
      * destruct (proc_name w p) as [name|e] eqn:En.
        -- rewrite IH'. rewrite fold_left_app. unfold Py.append.
           now rewrite <- app_assoc.
        -- rewrite continue_on_psutil_ok by (eapply Hn; eauto; now left).
           rewrite IH'. now rewrite fold_left_app.
      * rewrite IH'. now rewrite fold_left_app.
    + rewrite continue_on_psutil_ok by (eapply Hm; eauto; now left).
      rewrite IH'. reflexivity.
Qed.

(** X14.  With matched processes whose queries raise nothing but
    NoSuchProcess or AccessDenied, and none of them reported as high, the
    memory probe passes at 'low' and reports as total, to one decimal, the
    sum in MB of the memory of every process whose memory is read: a
    process whose memory query fails adds nothing, and a process above 500
    MB whose name cannot be read is still part of the total. *)
Theorem memory_usage_total (w : Platform) (self : StealthTester) :
  target_processes self <> [] ->
  (forall p e, In p (target_processes self) ->
               proc_memory_info_rss w p = Raise e -> is_psutil_error e = true) ->
  (forall p e, In p (target_processes self) ->
               proc_name w p = Raise e -> is_psutil_error e = true) ->
  high_memory_entries w (target_processes self) = [] ->
  test_memory_usage w self
  = (Ok tt,
     with_result w "Memory Usage" true
       ("Normal memory usage: "
        ++ Py.format_1f
             (fold_left Qplus (flat_map (memory_read w) (target_processes self)) 0%Q)
        ++ "MB total") "low" self).
Proof.
  intros Hp Hm Hn Hhigh.
  pose proof (scan_memory_total_read w _ Hm Hn) as Hscan. rewrite Hhigh in Hscan.
  destruct self as [pn wt rs procs wins]. simpl in *.
  unfold test_memory_usage, with_result. unfold_monad. cbn [target_processes].
  destruct procs as [|p procs]; [congruence|].
  rewrite Hscan. reflexivity.
Qed.

(** On [Demo.vanishing] the process has 600 MB and is gone when its name is
    asked for: the probe passes with a total of 600.0MB. *)
Lemma memory_usage_total_witness :
  target_processes Demo.tracking <> []
  /\ (forall p e, In p (target_processes Demo.tracking) ->
                  proc_memory_info_rss Demo.vanishing p = Raise e ->
                  is_psutil_error e = true)
  /\ (forall p e, In p (target_processes Demo.tracking) ->
                  proc_name Demo.vanishing p = Raise e -> is_psutil_error e = true)
  /\ high_memory_entries Demo.vanishing (target_processes Demo.tracking) = []
  /\ test_memory_usage Demo.vanishing Demo.tracking
     = (Ok tt,
        with_result Demo.vanishing "Memory Usage" true
          "Normal memory usage: 600.0MB total" "low" Demo.tracking).
Proof.
  assert (Hm : forall p e, In p (target_processes Demo.tracking) ->
                           proc_memory_info_rss Demo.vanishing p = Raise e ->
                           is_psutil_error e = true)
    by (intros p e _ H; discriminate H).
  assert (Hn : forall p e, In p (target_processes Demo.tracking) ->
                           proc_name Demo.vanishing p = Raise e ->
                           is_psutil_error e = true)
    by (intros p e _ H; inversion H; reflexivity).
  split; [discriminate|]. split; [exact Hm|]. split; [exact Hn|].
  split; [reflexivity|].
  refine (memory_usage_total Demo.vanishing Demo.tracking _ Hm Hn eq_refl).
  discriminate.
Defined.

(** ** One probe, and the run *)

Lemma probe_step_post (p : probe) (w : Platform) (self : StealthTester) :
  match run_probe p w self with
  | (Raise _, self') => self' = self
  | (Ok _, self') =>
      process_name self' = process_name self
      /\ window_title self' = window_title self
      /\ exists r,
          results self' = (results self ++ [r])%list
          /\ test r = probe_name p
          /\ timestamp r = now_isoformat w
  end.
Proof.
  destruct p; cbn [run_probe probe_name];
    match goal with |- context [?f w self] => unfold f end;
    run_probe_cases;
    first [ reflexivity
          | split; [reflexivity|]; split; [reflexivity|];
            eexists; split; [reflexivity|]; split; reflexivity ].
Qed.

(** X15.  A call of any probe either raises, and then leaves the tester
    exactly as it was (no partial result), or returns, and then has appended
    exactly one result at the end of the list: the earlier results and the
    two filters are untouched, the result carries the fixed name of the
    probe and the time of the platform. *)
Theorem probe_step (p : probe) (w : Platform) (self : StealthTester) :
  match run_probe p w self with
  | (Raise _, self') => self' = self
  | (Ok _, self') =>
      process_name self' = process_name self
      /\ window_title self' = window_title self
      /\ exists r,
          results self' = (results self ++ [r])%list
          /\ test r = probe_name p
          /\ timestamp r = now_isoformat w
  end.
Proof.
  destruct p; cbn [run_probe probe_name];
    match goal with |- context [?f w self] => unfold f end;
    run_probe_cases;
    first [ reflexivity
          | split; [reflexivity|]; split; [reflexivity|];
            eexists; split; [reflexivity|]; split; reflexivity ].
Qed.

Lemma run_probes_names w l : forall i self,
  match run_probes w i l self with
  | (Ok _, self') =>
      map test (results self')
      = (map test (results self) ++ map probe_name l)%list
      /\ map timestamp (results self')
         = (map timestamp (results self)
            ++ map (fun k => now_isoformat (w k)) (seq i (List.length l)))%list
  | (Raise _, self') =>
      exists k,
        (k < List.length l)%nat
        /\ map test (results self')
           = (map test (results self) ++ map probe_name (firstn k l))%list
  end.
Proof.
  induction l as [|p l IH]; intros i self; cbn [run_probes].
  - unfold ret. simpl. now rewrite !app_nil_r.
  - unfold bind. pose proof (probe_step_post p (w i) self) as Hp.
    destruct (run_probe p (w i) self) as [[[]|e] self1].
    + destruct Hp as (_ & _ & r & Hr & Ht & Hts).
      specialize (IH (S i) self1).
      destruct (run_probes w (S i) l self1) as [[[]|e] self2].
      * destruct IH as [IH1 IH2]. rewrite IH1, IH2, Hr, !map_app. simpl.
        rewrite Ht, Hts, <- !app_assoc. split; reflexivity.
      * destruct IH as (k & Hk & IH). exists (S k). split; [simpl; lia|].
        rewrite IH, Hr, map_app. simpl. rewrite Ht, <- app_assoc. reflexivity.
    + subst self1. exists O. split; [simpl; lia|]. simpl. now rewrite app_nil_r.
Qed.

(** X16.  A run that completes leaves exactly the fifteen results of the
    catalogue, in the order of the calls of [run_all_tests], the i-th
    stamped with the time of the i-th call, and prints the report of these
    results.  A run that a probe leaves by an exception has the results of
    the probes before that one, fewer than fifteen, and none after. *)
Theorem run_all_tests_results (w : nat -> Platform) (name title : string) :
  match run_all_tests w (init name title) with
  | (Ok console, self') =>
      map test (results self') = map probe_name catalogue
      /\ map timestamp (results self')
         = map (fun k => now_isoformat (w k)) (seq 0 15)
      /\ console = generate_report self'
  | (Raise _, self') =>
      exists k,
        (k < 15)%nat
        /\ map test (results self') = map probe_name (firstn k catalogue)
  end.
Proof.
  rewrite run_all_tests_catalogue.
  pose proof (run_probes_names w catalogue 0 (init name title)) as H.
  destruct (run_probes w 0 catalogue (init name title)) as [[[]|e] self'].
  - destruct H as [H1 H2]. split; [exact H1|]. split; [exact H2|reflexivity].
  - exact H.
Qed.

(** ** The window resolver and its probe *)

Lemma fold_callback_flat_map w self l : forall acc,
  fold_left (enum_window_callback w self) l acc
  = (acc ++ flat_map (matched_window w self) l)%list.
Proof.
  induction l as [|hwnd l IH]; intros acc; cbn [fold_left flat_map].
  - now rewrite app_nil_r.
  - rewrite IH, app_assoc. f_equal.
    unfold enum_window_callback, matched_window, otry, obind, Py.append.
    destruct (IsWindowVisible w hwnd) as [[|]|]; try now rewrite app_nil_r.
    destruct (GetWindowText w hwnd) as [title|]; try now rewrite app_nil_r.
    destruct (window_matches self title); [reflexivity | now rewrite app_nil_r].
Qed.

Lemma window_enumeration_none (w : Platform) (self : StealthTester) :
  snd (EnumWindows w) = None ->
  flat_map (matched_window w self) (fst (EnumWindows w)) = [] ->
  test_window_enumeration w self
  = (Ok tt,
     with_result w "Win32 Window Enumeration" true
       "No windows detected by EnumWindows" "low" self).
Proof.
  intros Hnone Hfound.
  unfold test_window_enumeration, with_result. unfold_monad.
  unfold find_target_windows. rewrite Hnone, fold_callback_flat_map, Hfound.
  reflexivity.
Qed.

(** X17.  When the enumeration of the windows does not fail,
    [find_target_windows] returns, in the order of the enumeration, the
    windows that are visible, whose title is read and that match; a window
    whose visibility or title query raises anything at all is passed over.
    The window probe then fails at 'critical' if the list is not empty,
    reports the number of all the windows and describes the first three,
    and makes the whole list the window list of the snapshot; if the list
    is empty it passes at 'low' and leaves the window list as it was. *)
Theorem window_enumeration_verdict (w : Platform) (self : StealthTester) :
  snd (EnumWindows w) = None ->
  let found := flat_map (matched_window w self) (fst (EnumWindows w)) in
  find_target_windows w self = Ok found
  /\ test_window_enumeration w self
     = (Ok tt,
        match found with
        | [] =>
            with_result w "Win32 Window Enumeration" true
              "No windows detected by EnumWindows" "low" self
        | _ :: _ =>
            set_target_windows found
              (with_result w "Win32 Window Enumeration" false
                 ("Found " ++ Py.str_of_nat (List.length found) ++ " windows: "
                  ++ Py.repr_list
                       (map (fun '(hwnd, title) =>
                               "HWND:" ++ Py.str_of_Z hwnd ++ " '" ++ title ++ "'")
                          (firstn 3 found))) "critical" self)
        end)
  /\ (List.length found <= List.length (fst (EnumWindows w)))%nat
  /\ (forall hwnd e,
         IsWindowVisible w hwnd = Raise e
         \/ IsWindowVisible w hwnd = Ok false
         \/ GetWindowText w hwnd = Raise e ->
         matched_window w self hwnd = []).
Proof.
  intros Hnone found.
  assert (Hfind : find_target_windows w self = Ok found).
  { unfold find_target_windows. rewrite Hnone, fold_callback_flat_map. reflexivity. }
  split; [exact Hfind|]. split; [|split].
  - unfold test_window_enumeration, with_result. unfold_monad.
    rewrite Hfind. unfold Py.take. destruct found; reflexivity.
  - subst found. generalize (fst (EnumWindows w)). intros l.
    induction l as [|hwnd l IH]; cbn [flat_map List.length]; [lia|].
    rewrite length_app.
    assert (H1 : (List.length (matched_window w self hwnd) <= 1)%nat).
    { unfold matched_window.
      destruct (IsWindowVisible w hwnd) as [[|]|]; simpl; try lia.
      destruct (GetWindowText w hwnd) as [title|]; simpl; try lia.
      destruct (window_matches self title); simpl; lia. }
    lia.
  - intros hwnd e [H|[H|H]]; unfold matched_window; rewrite H; try reflexivity.
    destruct (IsWindowVisible w hwnd) as [[|]|]; reflexivity.
Qed.

(** On [Demo.busy] the titled window 1001 is found and the untitled window
    1002 is not. *)
Lemma window_enumeration_verdict_witness :
  snd (EnumWindows Demo.busy) = None
  /\ find_target_windows Demo.busy Demo.tester = Ok [(1001, "DRM Protected Content")].
Proof.
  split; [reflexivity|].
  exact (proj1 (window_enumeration_verdict Demo.busy Demo.tester eq_refl)).
Defined.

(** ** The recommendation of a completed run, and [main] *)

Lemma recommendation_fifteen (self : StealthTester) :
  List.length (results self) = 15%nat ->
  recommendation (generate_report self)
  = recommendation_of_fifteen (count_passed (results self)).
Proof.
  intros H15. pose proof (count_passed_le (results self)) as Hle.
  unfold generate_report. cbn [recommendation]. rewrite H15 in *.
  remember (count_passed (results self)) as p eqn:Ep. clear Ep.
  do 16 (destruct p as [|p]; [reflexivity|]). lia.
Qed.

(** X18.  After a run that completes, the recommendation printed depends
    on the number of probes that passed alone: at most 10 of the 15 give
    the immediate-action block, 11 or 12 the needs-improvement block, 13 or
    more the excellent block. *)
Theorem recommendation_of_completed_run (w : nat -> Platform) (name title : string)
  (console : ConsoleReport) (self' : StealthTester) :
  run_all_tests w (init name title) = (Ok console, self') ->
  shown_total console = 15%nat
  /\ (shown_passed console <= 15)%nat
  /\ (recommendation console = ImmediateAction <-> (shown_passed console <= 10)%nat)
  /\ (recommendation console = NeedsImprovement
      <-> (11 <= shown_passed console <= 12)%nat)
  /\ (recommendation console = Excellent <-> (13 <= shown_passed console)%nat).
Proof.
  intros Hrun.
  destruct (completed_run_has_fifteen_results _ _ _ _ _ Hrun) as [H15 ->].
  pose proof (recommendation_fifteen self' H15) as Hrec.
  pose proof (count_passed_le (results self')) as Hle. rewrite H15 in Hle.
  cbn [shown_total shown_passed generate_report].
  split; [exact H15|]. split; [exact Hle|].
  rewrite Hrec. unfold recommendation_of_fifteen.
  destruct (count_passed (results self') <=? 10)%nat eqn:E10;
    [apply Nat.leb_le in E10 | apply Nat.leb_gt in E10];
    (destruct (count_passed (results self') <=? 12)%nat eqn:E12;
     [apply Nat.leb_le in E12 | apply Nat.leb_gt in E12]);
    repeat split; intros; try discriminate; try lia; try reflexivity.
Qed.

(** The run of [Demo.busy]: 5 of the 15 probes pass. *)
Lemma recommendation_of_completed_run_witness :
  run_all_tests (fun _ => Demo.busy) (init "MyDRMApp" EmptyString)
  = (Ok (generate_report
           (snd (run_all_tests (fun _ => Demo.busy) (init "MyDRMApp" EmptyString)))),
     snd (run_all_tests (fun _ => Demo.busy) (init "MyDRMApp" EmptyString)))
  /\ shown_total
       (generate_report
          (snd (run_all_tests (fun _ => Demo.busy) (init "MyDRMApp" EmptyString))))
     = 15%nat.
Proof.
  assert (H : run_all_tests (fun _ => Demo.busy) (init "MyDRMApp" EmptyString)
              = (Ok (generate_report
                       (snd (run_all_tests (fun _ => Demo.busy)
                               (init "MyDRMApp" EmptyString)))),
                 snd (run_all_tests (fun _ => Demo.busy)
                        (init "MyDRMApp" EmptyString))))
    by (vm_compute; reflexivity).
  split; [exact H|].
  exact (proj1 (recommendation_of_completed_run _ _ _ _ _ H)).
Defined.

(** X19.  [main] ends with the usage message exactly when fewer than two
    arguments are given.  When it saves a report, every probe has returned:
    the report counts 15 tests, is named stealth_report_ followed by the
    time and .json, and holds the lowercased process filter (the second
    argument) and window filter (the third argument, or the empty string);
    arguments after the third are ignored.  When a probe raises, nothing is
    saved. *)
Theorem main_endings (argv : list string) (w : nat -> Platform) :
  (main argv w = Usage <-> (List.length argv < 2)%nat)
  /\ (forall console filename report,
         main argv w = Saved console filename report ->
         filename = "stealth_report_" ++ now_strftime (w 15%nat) ++ ".json"
         /\ field "target_process" report
            = Some (JStr (Py.lower (nth 1 argv EmptyString)))
         /\ field "target_window" report
            = Some (JStr (Py.lower (nth 2 argv EmptyString)))
         /\ field "total_tests" report = Some (JInt 15)
         /\ field "passed_tests" report = Some (JNat (shown_passed console))
         /\ shown_total console = 15%nat)
  /\ (forall e,
         main argv w = Uncaught e ->
         exists self',
           run_all_tests w (init (nth 1 argv EmptyString) (nth 2 argv EmptyString))
           = (Raise e, self')).
Proof.
  destruct argv as [|prog [|name rest]].
  - simpl. repeat split; intros; try discriminate; lia.
  - simpl. repeat split; intros; try discriminate; lia.
  - assert (Ht : match rest with t :: _ => t | [] => EmptyString end
                 = nth 2 (prog :: name :: rest) EmptyString)
      by (destruct rest; reflexivity).
    cbn [main]. rewrite Ht. cbn [nth].
    set (title := nth 0 rest EmptyString).
    pose proof (run_all_tests_extends w (init name title)) as (Hn & Hw & _).
    destruct (run_all_tests w (init name title)) as [[console|e] self'] eqn:Erun.
    + destruct (completed_run_has_fifteen_results _ _ _ _ _ Erun) as [H15 Hc].
      simpl in Hn, Hw. split; [|split].
      * split; [discriminate | simpl; lia].
      * intros c f r [= <- <- <-]. unfold report_data, field, lookup; simpl.
        rewrite Hn, Hw, H15, Hc. repeat split.
        cbn [generate_report shown_total]. exact H15.
      * intros e0. discriminate.
    + split; [|split].
      * split; [discriminate | simpl; lia].
      * intros c f r. discriminate.
      * intros e0 [= <-]. now exists self'.
Qed.

(** ** A target that is not seen *)

Lemma caught_probe_reports p w self :
  In p catches_every_exception ->
  exists r,
    run_probe p w self = (Ok tt, set_results (results self ++ [r])%list self)
    /\ test r = probe_name p.
Proof.
  unfold catches_every_exception. intros Hin.
  destruct self as [pn wt rs procs wins].
  destruct p; simpl in Hin;
    repeat match goal with
           | H : _ \/ _ |- _ => destruct H as [H|H]
           | H : _ = _ |- _ => discriminate H
           | H : False |- _ => contradiction H
           end;
    cbn [run_probe probe_name];
    match goal with |- context [?f w _] => unfold f end;
    run_probe_cases; eexists; split; reflexivity.
Qed.

Lemma guard_probe_passes p w pn wt rs :
  works_on p <> None ->
  run_probe p w (mk_StealthTester pn wt rs [] [])
  = (Ok tt,
     mk_StealthTester pn wt
       (rs ++ [mk_TestResult (probe_name p) true
                 (match absence_report p with
                  | Some (_, explanation) => explanation
                  | None => EmptyString
                  end) "low" (now_isoformat w)])%list [] []).
Proof. destruct p; simpl; intros H; try congruence; reflexivity. Qed.

(** X20.  When the first probe finds no process (the iteration does not
    fail and no name that is read contains the filter) and the fifth probe
    finds no window, the run completes whatever else the platform does: both
    lists of the snapshot stay empty, the two resolving probes and the nine
    probes that work on the snapshot all pass at 'low', so at least 11 of
    the 15 probes pass and the recommendation is never the immediate-action
    block. *)
Theorem unseen_target_run (w : nat -> Platform) (name title : string) :
  snd (process_iter (w 0%nat)) = None ->
  (forall p e, In p (fst (process_iter (w 0%nat))) -> info_name p = Raise e ->
               is_psutil_error e = true) ->
  filter (process_matches (init name title)) (fst (process_iter (w 0%nat))) = [] ->
  snd (EnumWindows (w 4%nat)) = None ->
  flat_map (matched_window (w 4%nat) (init name title)) (fst (EnumWindows (w 4%nat)))
  = [] ->
  exists console self',
    run_all_tests w (init name title) = (Ok console, self')
    /\ target_processes self' = []
    /\ target_windows self' = []
    /\ (11 <= shown_passed console)%nat
    /\ recommendation console <> ImmediateAction
    /\ (forall r p,
           In r (results self') ->
           test r = probe_name p ->
           In p [PsutilDetection; WindowEnumeration] \/ works_on p <> None ->
           passed r = true /\ severity r = "low").
Proof.
  intros Hp0 Herr Hnone Hw4 Hwnone.
  rewrite run_all_tests_catalogue. unfold catalogue. cbn [run_probes]. unfold bind.
  change (run_probe PsutilDetection) with test_psutil_detection.
  rewrite (psutil_detection_none (w 0%nat) (init name title) Hp0 Herr Hnone).
  unfold with_result, init, set_results.
  cbn [results process_name window_title target_processes target_windows app].
  match goal with |- context [run_probe TasklistDetection ?w ?s] =>
    destruct (caught_probe_reports TasklistDetection w s) as (r1 & -> & Hr1);
      [simpl; tauto|] end.
  unfold set_results.
  cbn [results process_name window_title target_processes target_windows app].
  match goal with |- context [run_probe WmicDetection ?w ?s] =>
    destruct (caught_probe_reports WmicDetection w s) as (r2 & -> & Hr2);
      [simpl; tauto|] end.
  unfold set_results.
  cbn [results process_name window_title target_processes target_windows app].
  match goal with |- context [run_probe PowershellDetection ?w ?s] =>
    destruct (caught_probe_reports PowershellDetection w s) as (r3 & -> & Hr3);
      [simpl; tauto|] end.
  unfold set_results.
  cbn [results process_name window_title target_processes target_windows app].
  change (run_probe WindowEnumeration) with test_window_enumeration.
  match goal with |- context [test_window_enumeration ?w ?s] =>
    rewrite (window_enumeration_none w s Hw4 Hwnone) end.
  unfold with_result, set_results.
  cbn [results process_name window_title target_processes target_windows app].
  rewrite !guard_probe_passes by discriminate.
  cbn [app].
  match goal with |- context [run_probe ScreenCaptureProtection ?w ?s] =>
    destruct (caught_probe_reports ScreenCaptureProtection w s) as (r11 & -> & Hr11);
      [simpl; tauto|] end.
  unfold set_results.
  cbn [results process_name window_title target_processes target_windows app].
  rewrite !guard_probe_passes by discriminate.
  cbn [app ret].
  do 2 eexists. split; [reflexivity|].
  split; [reflexivity|]. split; [reflexivity|].
  match goal with |- context [generate_report ?s] => set (final := s) end.
  assert (H15 : List.length (results final) = 15%nat) by reflexivity.
  assert (H11 : (11 <= count_passed (results final))%nat).
  { unfold count_passed, final. cbn [results filter passed probe_name].
    destruct (passed r1), (passed r2), (passed r3), (passed r11); simpl; lia. }
  split; [exact H11|]. split.
  - rewrite (recommendation_fifteen final H15). unfold recommendation_of_fifteen.
    destruct (count_passed (results final) <=? 10)%nat eqn:E;
      [apply Nat.leb_le in E; lia|].
    destruct (count_passed (results final) <=? 12)%nat; discriminate.
  - intros r p Hin Ht Hp. unfold final in Hin. cbn [results] in Hin.
    repeat (destruct Hin as [<-|Hin]; [|]); try contradiction;
      try (split; reflexivity);
      exfalso;
      match goal with
      | H : test ?x = probe_name _, H' : test ?x = probe_name p |- _ =>
          rewrite H in H'; destruct p; simpl in H'; try discriminate H';
          destruct Hp as [[Hp|[Hp|[]]]|Hp];
          first [discriminate Hp | apply Hp; reflexivity | simpl in Hp; congruence]
      end.
Qed.

(** On [Demo.quiet] nothing is seen at all. *)
Lemma unseen_target_run_witness :
  snd (process_iter Demo.quiet) = None
  /\ (forall p e, In p (fst (process_iter Demo.quiet)) -> info_name p = Raise e ->
                  is_psutil_error e = true)
  /\ filter (process_matches Demo.tester) (fst (process_iter Demo.quiet)) = []
  /\ snd (EnumWindows Demo.quiet) = None
  /\ flat_map (matched_window Demo.quiet Demo.tester) (fst (EnumWindows Demo.quiet)) = []
  /\ exists console self',
       run_all_tests (fun _ => Demo.quiet) Demo.tester = (Ok console, self')
       /\ (11 <= shown_passed console)%nat.
Proof.
  assert (H : forall p e, In p (fst (process_iter Demo.quiet)) ->
                          info_name p = Raise e -> is_psutil_error e = true)
    by (intros p e []).
  split; [reflexivity|]. split; [exact H|]. split; [reflexivity|].
  split; [reflexivity|]. split; [reflexivity|].
  destruct (unseen_target_run (fun _ => Demo.quiet) "MyDRMApp" EmptyString
              eq_refl H eq_refl eq_refl eq_refl)
    as (console & self' & Hrun & _ & _ & H11 & _).
  exists console, self'. split; [exact Hrun | exact H11].
Defined.
